(** * Entitlement reconciliation of the affirm-dreams backend

    A shallow embedding of [src/routes/revenuecatWebhook.ts] and
    [src/routes/subscription.ts] together with the two Mongoose models they
    write ([src/models/Payment.ts], [src/models/Subscription.ts]), of the
    reader of the ledger, [src/routes/billing.ts], and of the later revision
    of the webhook.

    Conventions of the embedding.
    - A JavaScript value of type [T | undefined] (or [T | null]) is an
      [option T]; [None] stands for both [undefined] and [null], which the
      routes never tell apart.
    - A [Date] is its epoch-millisecond time value, a [Z]; a request field
      that holds epoch milliseconds ([expiration_at_ms], [purchased_at_ms],
      [periodEnd]) is an integer within the range of [Date] whenever it is a
      number.
    - A string is a [string]; [includes] with an ASCII needle does not depend on
      the encoding of the other characters.  Where characters beyond ASCII
      matter ([trim]), they are their UTF-8 bytes.
    - A finite [number] is the rational it denotes; a product or quotient is
      the exact result rounded to binary64.
    - The datastore is passed explicitly: every handler maps a [Db] to a [Db]
      and a response.  Its operations are applied one after the other and do
      not fail, so the [catch] of the webhook is never entered.  The
      bookkeeping paths Mongoose maintains on its own ([createdAt],
      [updatedAt], [__v]) are not part of the documents.
    - Request fields carry the types the routes declare for them; where a
      route tests a type or a truth value at run time, the field carries the
      cases the test tells apart. *)

From Stdlib Require Import ZArith QArith Qround Lia Ascii String.
From stdpp Require Import base option list strings gmap sorting.

Close Scope Q_scope.

(** ** JavaScript helpers *)

(** A JavaScript [number]: a finite value or one of the three non-finite
    ones. *)
Inductive jsnum : Type :=
  | JFinite (q : Q)
  | JNaN
  | JPosInfinity
  | JNegInfinity.

(** [Number.isFinite]. *)
Definition isFinite (n : jsnum) : bool :=
  match n with JFinite _ => true | _ => false end.

(** [n < 0] on numbers; every comparison with [NaN] is false. *)
Definition ltZero (n : jsnum) : bool :=
  match n with
  | JFinite q => negb (Qle_bool (0 # 1) q)
  | JNegInfinity => true
  | JNaN | JPosInfinity => false
  end.

(** Truthiness of a [string | undefined]: [undefined] and the empty string are
    falsy. *)
Definition truthy (s : option string) : bool :=
  match s with
  | Some s => negb (String.eqb s "")
  | None => false
  end.

(** [n >= 0] on numbers. *)
Definition geZero (n : jsnum) : bool :=
  match n with
  | JFinite q => Qle_bool (0 # 1) q
  | JPosInfinity => true
  | JNaN | JNegInfinity => false
  end.

(** The integer nearest to [x / y], the even one of two that are equally
    near; [0 <= x] and [0 < y]. *)
Definition nearestEven (x y : Z) : Z :=
  let q := (x / y)%Z in
  let r := (x mod y)%Z in
  if (2 * r <? y)%Z then q
  else if (y <? 2 * r)%Z then (q + 1)%Z
  else if Z.even q then q else (q + 1)%Z.

(** [x * 2 ^ e] for an exponent of either sign, as a fraction. *)
Definition scaled (x e : Z) : Z * Z :=
  if (0 <=? e)%Z then ((x * 2 ^ e)%Z, 1%Z) else (x, (2 ^ (- e))%Z).

(** The exponent [e] with [2 ^ e <= n / d < 2 ^ (e + 1)]; [0 < n], [0 < d]. *)
Definition binade (n d : Z) : Z :=
  let e := (Z.log2 n - Z.log2 d)%Z in
  let '(a, b) := scaled d e in
  if (n * b <? a)%Z then (e - 1)%Z else e.

(** The binary64 number a real result is rounded to (to nearest, ties to
    even): 53 significant bits, no unit in the last place below [2 ^ -1074],
    and a magnitude that reaches [2 ^ 1024] overflows. *)
Definition roundDouble (q : Q) : jsnum :=
  let n := Qnum q in
  let d := Z.pos (Qden q) in
  if (n =? 0)%Z then JFinite (0 # 1)
  else
    let a := Z.abs n in
    let u := Z.max (binade a d - 52) (-1074) in
    let '(x, y) := scaled d u in
    let m := nearestEven (a * y) x in
    let '(p, r) := scaled m u in
    if (2 ^ 1024 * r <=? p)%Z
    then (if (0 <? n)%Z then JPosInfinity else JNegInfinity)
    else JFinite (Qred (Qmake (Z.sgn n * p) (Z.to_pos r))).

(** [x * 100] and [x / 100]. *)
Definition times100 (x : jsnum) : jsnum :=
  match x with
  | JFinite q => roundDouble (q * (100 # 1))
  | other => other
  end.

Definition over100 (x : jsnum) : jsnum :=
  match x with
  | JFinite q => roundDouble (q / (100 # 1))
  | other => other
  end.

(** [Math.round]: the nearest integer, the greater one of two that are equally
    near. *)
Definition Math_round (x : jsnum) : jsnum :=
  match x with
  | JFinite q => JFinite (Qfloor (q + (1 # 2)) # 1)
  | other => other
  end.

(** [hay.includes(needle)]: [needle] occurs at some offset of [hay]. *)
Fixpoint includes (hay needle : string) : bool :=
  String.prefix needle hay ||
  match hay with
  | EmptyString => false
  | String _ hay' => includes hay' needle
  end.

Definition lowerChar (c : ascii) : ascii :=
  let n := nat_of_ascii c in
  if (65 <=? n)%nat && (n <=? 90)%nat then ascii_of_nat (n + 32) else c.

Definition upperChar (c : ascii) : ascii :=
  let n := nat_of_ascii c in
  if (97 <=? n)%nat && (n <=? 122)%nat then ascii_of_nat (n - 32) else c.

Fixpoint mapChars (f : ascii -> ascii) (s : string) : string :=
  match s with
  | EmptyString => EmptyString
  | String c s' => String (f c) (mapChars f s')
  end.

(** [toLowerCase] and [toUpperCase] on the ASCII letters. *)
Definition toLowerCase : string -> string := mapChars lowerChar.
Definition toUpperCase : string -> string := mapChars upperChar.

(** Every character of the string is an ASCII character. *)
Definition isAscii (s : string) : bool :=
  forallb (fun c => (nat_of_ascii c <? 128)%nat) (list_ascii_of_string s).

(** The string without its first character, when that is white space or a
    line terminator of ECMAScript: U+0009 to U+000D and U+0020, and, in UTF-8,
    U+00A0, U+1680, U+2000 to U+200A, U+2028, U+2029, U+202F, U+205F, U+3000
    and U+FEFF. *)
Definition afterSpace (s : string) : option string :=
  match s with
  | EmptyString => None
  | String a s1 =>
      let x := nat_of_ascii a in
      if ((9 <=? x) && (x <=? 13) || (x =? 32))%nat then Some s1
      else
        match s1 with
        | EmptyString => None
        | String b s2 =>
            let y := nat_of_ascii b in
            if ((x =? 194) && (y =? 160))%nat then Some s2
            else
              match s2 with
              | EmptyString => None
              | String c s3 =>
                  let z := nat_of_ascii c in
                  if ((x =? 225) && (y =? 154) && (z =? 128) ||
                      (x =? 226) && (y =? 128) &&
                        ((128 <=? z) && (z <=? 138) || (z =? 168) ||
                         (z =? 169) || (z =? 175)) ||
                      (x =? 226) && (y =? 129) && (z =? 159) ||
                      (x =? 227) && (y =? 128) && (z =? 128) ||
                      (x =? 239) && (y =? 187) && (z =? 191))%nat
                  then Some s3
                  else None
              end
        end
  end.

(** [trimStart], by at most [n] removals. *)
Fixpoint dropSpaces (n : nat) (s : string) : string :=
  match n with
  | O => s
  | S n' =>
      match afterSpace s with
      | Some s' => dropSpaces n' s'
      | None => s
      end
  end.

Definition trimStart (s : string) : string := dropSpaces (String.length s) s.

(** [trimEnd]: the characters up to the point from which only white space
    follows. *)
Fixpoint trimEnd (s : string) : string :=
  match s with
  | EmptyString => EmptyString
  | String a s' =>
      if String.eqb (trimStart s) "" then EmptyString
      else String a (trimEnd s')
  end.

(** [s.trim()]. *)
Definition trim (s : string) : string := trimEnd (trimStart s).

(** [s.slice(n)] for [0 <= n]. *)
Fixpoint slice (n : nat) (s : string) : string :=
  match n, s with
  | O, _ => s
  | S n', String _ s' => slice n' s'
  | S _, EmptyString => EmptyString
  end.

(** A key of an update document as the route writes it: left out, present with
    the value [undefined], or present with a value. *)
Inductive jsfield (A : Type) : Type :=
  | NoKey
  | Undefined
  | Value (a : A).
Arguments NoKey {A}.
Arguments Undefined {A}.
Arguments Value {A} a.

(** Mongoose casts an update document before it is sent: a key whose value is
    [undefined] is deleted from it ("Mongoose will always strip out undefined
    keys", the behaviour since Mongoose 6, which no longer has the
    [omitUndefined] switch).  What reaches the datastore is therefore either a
    value to write or nothing. *)
Definition castUpdate {A : Type} (f : jsfield A) : option A :=
  match f with
  | Value a => Some a
  | NoKey | Undefined => None
  end.

(** [$set] of one optional path: a key that survived the cast overwrites the
    stored value, a missing key leaves it as it is. *)
Definition setPath {A : Type} (f : jsfield A) (old : option A) : option A :=
  match castUpdate f with
  | Some a => Some a
  | None => old
  end.

(** [$set] of one required path. *)
Definition setReq {A : Type} (f : jsfield A) (old : A) : A :=
  default old (castUpdate f).

(** [x ?? undefined] turned into an update key: a value, or the key with
    [undefined]. *)
Definition ofOption {A : Type} (o : option A) : jsfield A :=
  match o with
  | Some a => Value a
  | None => Undefined
  end.

Definition ObjectId : Type := nat.

(** ** src/models/Subscription.ts *)

Module Subscription.

Inductive Plan : Type := free | monthly | yearly | lifetime.
Inductive SubStatus : Type := active | inactive | canceled | expired.
Inductive SubSource : Type := google_play | app_store | stripe | admin.

#[global] Instance Plan_eq_dec : EqDecision Plan.
Proof. solve_decision. Defined.
#[global] Instance SubStatus_eq_dec : EqDecision SubStatus.
Proof. solve_decision. Defined.
#[global] Instance SubSource_eq_dec : EqDecision SubSource.
Proof. solve_decision. Defined.

Record Document : Type := {
  userId : string;
  plan : Plan;
  status : SubStatus;
  source : SubSource;
  startedAt : option Z;
  renewsAt : option Z;
  canceledAt : option Z;
  latestPaymentId : option ObjectId;
}.

(** The document an upsert starts from when no row matches the filter
    [{ userId }]: the filter's key and the schema defaults. *)
Definition fresh (uid : string) : Document :=
  {| userId := uid; plan := free; status := inactive; source := admin;
     startedAt := None; renewsAt := None; canceledAt := None;
     latestPaymentId := None |}.

(** The update documents the routes pass to [findOneAndUpdate].  Every one of
    them gives [plan], [status] and [source]; its [userId] key repeats the
    filter's value and is not listed again. *)
Record Update : Type := {
  set_plan : Plan;
  set_status : SubStatus;
  set_source : SubSource;
  set_startedAt : jsfield Z;
  set_renewsAt : jsfield Z;
  set_canceledAt : jsfield Z;
  set_latestPaymentId : jsfield ObjectId;
}.

(** An update document without operators is applied as [$set]. *)
Definition applyUpdate (u : Update) (d : Document) : Document :=
  {| userId := userId d;
     plan := set_plan u;
     status := set_status u;
     source := set_source u;
     startedAt := setPath (set_startedAt u) (startedAt d);
     renewsAt := setPath (set_renewsAt u) (renewsAt d);
     canceledAt := setPath (set_canceledAt u) (canceledAt d);
     latestPaymentId := setPath (set_latestPaymentId u) (latestPaymentId d) |}.

(** The collection; [userId] carries a unique index. *)
Abbreviation Collection := (gmap string Document).

(** [SubscriptionModel.findOneAndUpdate({ userId }, u, { upsert: true, new:
    true })]: the matching row, or a fresh one, after the update. *)
Definition findOneAndUpdate (uid : string) (u : Update) (c : Collection)
  : Collection * Document :=
  let d := applyUpdate u (default (fresh uid) (c !! uid)) in
  (<[uid := d]> c, d).

(** [doc.save()] of a document found or built for [uid]. *)
Definition save (uid : string) (d : Document) (c : Collection) : Collection :=
  <[uid := d]> c.

End Subscription.

(** ** src/models/Payment.ts *)

Module Payment.

Inductive Platform : Type := android | ios | web.
Inductive Provider : Type := google_play | app_store | stripe | promo.

#[global] Instance Platform_eq_dec : EqDecision Platform.
Proof. solve_decision. Defined.
#[global] Instance Provider_eq_dec : EqDecision Provider.
Proof. solve_decision. Defined.

Section WithPayload.
(** [rawPayload] is a [Mixed] path; it holds the request body that caused the
    write. *)
Context {Raw : Type}.

Record Document : Type := {
  _id : ObjectId;
  userId : string;
  platform : Platform;
  provider : Provider;
  productId : string;
  transactionId : string;
  originalTransactionId : option string;
  amountCents : jsnum;
  currency : string;
  purchasedAt : Z;
  expiresAt : option Z;
  rawPayload : option Raw;
}.

(** One operator ([$set] or [$setOnInsert]) of an update. *)
Record Patch : Type := {
  p_userId : jsfield string;
  p_platform : jsfield Platform;
  p_provider : jsfield Provider;
  p_productId : jsfield string;
  p_transactionId : jsfield string;
  p_originalTransactionId : jsfield string;
  p_amountCents : jsfield jsnum;
  p_currency : jsfield string;
  p_purchasedAt : jsfield Z;
  p_expiresAt : jsfield Z;
  p_rawPayload : jsfield Raw;
}.

(** An operator that is not given. *)
Definition noPatch : Patch :=
  {| p_userId := NoKey; p_platform := NoKey; p_provider := NoKey;
     p_productId := NoKey; p_transactionId := NoKey;
     p_originalTransactionId := NoKey; p_amountCents := NoKey;
     p_currency := NoKey; p_purchasedAt := NoKey; p_expiresAt := NoKey;
     p_rawPayload := NoKey |}.

(** [$set] on a stored document. *)
Definition applyPatch (p : Patch) (d : Document) : Document :=
  {| _id := _id d;
     userId := setReq (p_userId p) (userId d);
     platform := setReq (p_platform p) (platform d);
     provider := setReq (p_provider p) (provider d);
     productId := setReq (p_productId p) (productId d);
     transactionId := setReq (p_transactionId p) (transactionId d);
     originalTransactionId :=
       setPath (p_originalTransactionId p) (originalTransactionId d);
     amountCents := setReq (p_amountCents p) (amountCents d);
     currency := setReq (p_currency p) (currency d);
     purchasedAt := setReq (p_purchasedAt p) (purchasedAt d);
     expiresAt := setPath (p_expiresAt p) (expiresAt d);
     rawPayload := setPath (p_rawPayload p) (rawPayload d) |}.

(** The document an upsert inserts: the filter's [transactionId], the paths
    of [$setOnInsert] and the paths of [$set].  The result is a [Document]
    when every required path of the schema received a value; both routes give
    all of them (lemmas [insertDoc_webhook] and [insertDoc_activate]). *)
Definition insertDoc (oid : ObjectId) (tid : string)
    (onInsert set : Patch) : option Document :=
  let get {A} (f : Patch -> jsfield A) : option A :=
    match castUpdate (f set) with
    | Some a => Some a
    | None => castUpdate (f onInsert)
    end in
  uid ← get p_userId;
  plat ← get p_platform;
  prov ← get p_provider;
  pid ← get p_productId;
  amt ← get p_amountCents;
  cur ← get p_currency;
  pat ← get p_purchasedAt;
  Some {| _id := oid;
          userId := uid;
          platform := plat;
          provider := prov;
          productId := pid;
          transactionId := default tid (get p_transactionId);
          originalTransactionId := get p_originalTransactionId;
          amountCents := amt;
          currency := cur;
          purchasedAt := pat;
          expiresAt := get p_expiresAt;
          rawPayload := get p_rawPayload |}.

(** The first document of the collection with the given [transactionId],
    replaced by its image under [f]; [None] when no document matches. *)
Fixpoint updateFirst (tid : string) (f : Document -> Document)
    (c : list Document) : option (list Document) :=
  match c with
  | [] => None
  | d :: c' =>
      if String.eqb (transactionId d) tid then Some (f d :: c')
      else cons d <$> updateFirst tid f c'
  end.

(** [PaymentModel.findOne({ transactionId })]. *)
Fixpoint findOne (tid : string) (c : list Document) : option Document :=
  match c with
  | [] => None
  | d :: c' =>
      if String.eqb (transactionId d) tid then Some d else findOne tid c'
  end.

(** [PaymentModel.updateOne({ transactionId }, { $setOnInsert, $set },
    { upsert: true })] on the collection [c], [oid] being the identifier a
    new document would get.  The result tells whether a document was
    inserted. *)
Definition updateOne (oid : ObjectId) (tid : string)
    (onInsert set : Patch) (c : list Document) : list Document * bool :=
  match updateFirst tid (applyPatch set) c with
  | Some c' => (c', false)
  | None =>
      match insertDoc oid tid onInsert set with
      | Some d => (c ++ [d], true)
      | None => (c, false)
      end
  end.

End WithPayload.

Arguments Document : clear implicits.
Arguments Patch : clear implicits.

End Payment.

(** ** Request bodies and the datastore *)

(** The [event] object of a RevenueCat delivery, with the fields the webhook
    reads.  [expiration_at_ms] and [purchased_at_ms] are [Some] exactly when
    [typeof] gives ["number"]. *)
Record RcEvent : Type := {
  type : option string;
  app_user_id : option string;
  product_id : option string;
  transaction_id : option string;
  original_transaction_id : option string;
  store : option string;
  cancel_reason : option string;
  expiration_at_ms : option Z;
  purchased_at_ms : option Z;
  ev_currency : option string;
}.

(** [req.body] of the webhook. *)
Record WebhookBody : Type := { event : option RcEvent }.

(** [ActivateBody].  [periodEnd] is [Some] exactly when [typeof] gives
    ["number"]; [amountCents] is [None] when it is not a number at all. *)
Record ActivateBody : Type := {
  ab_plan : option Subscription.Plan;
  ab_periodEnd : option Z;
  ab_amountCents : option jsnum;
  ab_currency : option string;
  ab_productId : option string;
  ab_transactionId : option string;
  ab_platform : option Payment.Platform;
  ab_provider : option Payment.Provider;
}.

(** A field of an event that the later revision of the webhook reads as an
    amount: a [number], a [string], or anything else.  The route uses a string
    only through [Number(v)]; the field carries that number. *)
Inductive Price : Type :=
  | PriceNumber (n : jsnum)
  | PriceString (n : jsnum)
  | PriceOther.

(** The [event] object with the fields the later revision of the webhook
    reads.  A field read through [safeString] is [Some] exactly when [typeof]
    gives ["string"]. *)
Module RcEventV2.
Record t : Type := {
  type : option string;
  app_user_id : option string;
  product_id : option string;
  transaction_id : option string;
  original_transaction_id : option string;
  store : option string;
  cancel_reason : option string;
  expiration_at_ms : option Z;
  purchased_at_ms : option Z;
  currency : option string;
  price_currency : option string;
  price_currency_code : option string;
  presented_currency : option string;
  price : Price;
  price_in_purchased_currency : Price;
  price_in_local_currency : Price;
  revenue : Price;
}.
End RcEventV2.

Record WebhookBodyV2 : Type := { eventV2 : option RcEventV2.t }.

(** What a payment document keeps under [rawPayload]. *)
Inductive RawBody : Type :=
  | RawWebhook (b : WebhookBody)
  | RawActivate (b : ActivateBody)
  | RawWebhookV2 (b : WebhookBodyV2).

(** The two collections, and the identifier the next inserted payment gets. *)
Record Db : Type := {
  payments : list (Payment.Document RawBody);
  subscriptions : gmap string Subscription.Document;
  nextId : ObjectId;
}.

(** [PaymentModel.updateOne] against the datastore. *)
Definition PaymentModel_updateOne (tid : string)
    (onInsert set : Payment.Patch RawBody) (db : Db) : Db :=
  let '(c, inserted) :=
    Payment.updateOne (nextId db) tid onInsert set (payments db) in
  {| payments := c;
     subscriptions := subscriptions db;
     nextId := if inserted : bool then S (nextId db) else nextId db |}.

(** [SubscriptionModel.findOneAndUpdate] against the datastore. *)
Definition SubscriptionModel_findOneAndUpdate (uid : string)
    (u : Subscription.Update) (db : Db) : Db * Subscription.Document :=
  let '(c, d) := Subscription.findOneAndUpdate uid u (subscriptions db) in
  ({| payments := payments db; subscriptions := c; nextId := nextId db |}, d).

(** [doc.save()] against the datastore. *)
Definition SubscriptionModel_save (uid : string) (d : Subscription.Document)
    (db : Db) : Db :=
  {| payments := payments db;
     subscriptions := Subscription.save uid d (subscriptions db);
     nextId := nextId db |}.

(** [cond ? new Date(ms) : undefined] for a [number | null]: [null], [0] (and
    [NaN]) are falsy. *)
Definition dateIfTruthy (ms : option Z) : option Z :=
  match ms with
  | Some z => if (z =? 0)%Z then None else Some z
  | None => None
  end.

(** ** src/routes/revenuecatWebhook.ts *)

Module RevenuecatWebhook.
Import Subscription.

Definition timingSafeEqual (a b : string) : bool :=
  if negb (String.length a =? String.length b)%nat then false
  else String.eqb a b.

Definition planFromProductId (productId : option string) : Plan :=
  match productId with
  | None => free
  | Some productId =>
      if String.eqb productId "" then free
      else if includes productId ".monthly" then monthly
      else if includes productId ".yearly" then yearly
      else if includes productId ".lifetime" then lifetime
      else free
  end.

Definition providerFromStore (store : option string) : Payment.Provider :=
  let s := toLowerCase (if truthy store then default "" store else "") in
  if includes s "play" || includes s "google" then Payment.google_play
  else if includes s "app_store" || includes s "apple" || includes s "ios"
       then Payment.app_store
  else if includes s "stripe" then Payment.stripe
  else Payment.promo.

(** The responses of the route: status code and JSON body. *)
Inductive Reply : Type :=
  | Unauthorized                  (* 401 { error: "Unauthorized" } *)
  | MissingEvent                  (* 400 { error: "Missing event" } *)
  | Skipped                       (* 200 { ok, skipped } *)
  | Ok                            (* 200 { ok } *)
  | Revoked                       (* 200 { ok, revoked } *)
  | Canceled                      (* 200 { ok, canceled } *)
  | Expired                       (* 200 { ok, expired } *)
  | Ignored (type : string).      (* 200 { ok, ignored: type } *)

Definition statusCode (r : Reply) : nat :=
  match r with
  | Unauthorized => 401
  | MissingEvent => 400
  | _ => 200
  end.

Definition isPurchaseLike (type : string) : bool :=
  String.eqb type "INITIAL_PURCHASE" ||
  String.eqb type "RENEWAL" ||
  String.eqb type "NON_RENEWING_PURCHASE" ||
  String.eqb type "UNCANCELLATION" ||
  String.eqb type "PRODUCT_CHANGE".

Definition looksLikeRefund (type : string) (cancelReason : option string)
  : bool :=
  String.eqb type "CANCELLATION" &&
  bool_decide (cancelReason = Some "CUSTOMER_SUPPORT").

(** The conditional that turns the provider into the [source] of the row. *)
Definition sourceOfProvider (provider : Payment.Provider) : SubSource :=
  match provider with
  | Payment.google_play => google_play
  | Payment.app_store => app_store
  | Payment.stripe => stripe
  | Payment.promo => admin
  end.

(** The conditional that turns the provider into the [platform] of the
    ledger entry. *)
Definition platformOfProvider (provider : Payment.Provider)
  : Payment.Platform :=
  match provider with
  | Payment.app_store => Payment.ios
  | Payment.google_play => Payment.android
  | _ => Payment.web
  end.

(** [router.post("/webhooks/revenuecat", ...)]: [expected] is the environment
    variable [REVENUECAT_WEBHOOK_AUTH], [authorization] the request header,
    [now] the clock read by [new Date()]. *)
Definition post (expected authorization : option string) (now : Z)
    (body : WebhookBody) (db : Db) : Db * Reply :=
  if truthy expected &&
     negb (timingSafeEqual (default "" authorization) (default "" expected))
  then (db, Unauthorized)
  else
  match event body with
  | None => (db, MissingEvent)
  | Some ev =>
  if negb (truthy (type ev)) then (db, MissingEvent) else
  match app_user_id ev with
  | None => (db, Skipped)
  | Some userId =>
  if String.eqb userId "" then (db, Skipped) else
  let type := default "" (type ev) in
  let productId := product_id ev in
  let transactionId := transaction_id ev in
  let originalTransactionId := original_transaction_id ev in
  let expirationAtMs := expiration_at_ms ev in
  let purchasedAtMs := purchased_at_ms ev in
  let currency := default "USD" (ev_currency ev) in
  let cancelReason := cancel_reason ev in
  let plan := planFromProductId productId in
  let renewsAt := dateIfTruthy expirationAtMs in
  let startedAt := default now (dateIfTruthy purchasedAtMs) in
  let provider := providerFromStore (store ev) in
  let source := sourceOfProvider provider in
  if isPurchaseLike type then
    let db1 :=
      match transactionId with
      | Some tid =>
          if String.eqb tid "" then db else
          PaymentModel_updateOne tid
            {| Payment.p_userId := Value userId;
               Payment.p_platform := Value (platformOfProvider provider);
               Payment.p_provider := Value provider;
               Payment.p_productId := Value (default "unknown" productId);
               Payment.p_transactionId := Value tid;
               Payment.p_originalTransactionId := ofOption originalTransactionId;
               Payment.p_amountCents := Value (JFinite (0 # 1));
               Payment.p_currency := Value currency;
               Payment.p_purchasedAt := Value startedAt;
               Payment.p_expiresAt := ofOption renewsAt;
               Payment.p_rawPayload := Value (RawWebhook body) |}
            Payment.noPatch
            db
      | None => db
      end in
    ((SubscriptionModel_findOneAndUpdate userId
        {| set_plan := plan;
           set_status := active;
           set_source := source;
           set_startedAt := Value startedAt;
           set_renewsAt := ofOption renewsAt;
           set_canceledAt := Undefined;
           set_latestPaymentId := NoKey |} db1).1, Ok)
  else if looksLikeRefund type cancelReason then
    ((SubscriptionModel_findOneAndUpdate userId
        {| set_plan := free;
           set_status := inactive;
           set_source := source;
           set_startedAt := NoKey;
           set_renewsAt := Undefined;
           set_canceledAt := Value now;
           set_latestPaymentId := NoKey |} db).1, Revoked)
  else if String.eqb type "CANCELLATION" then
    ((SubscriptionModel_findOneAndUpdate userId
        {| set_plan := plan;
           set_status := canceled;
           set_source := source;
           set_startedAt := NoKey;
           set_renewsAt := ofOption renewsAt;
           set_canceledAt := Value now;
           set_latestPaymentId := NoKey |} db).1, Canceled)
  else if String.eqb type "EXPIRATION" then
    ((SubscriptionModel_findOneAndUpdate userId
        {| set_plan := free;
           set_status := expired;
           set_source := source;
           set_startedAt := NoKey;
           set_renewsAt := Undefined;
           set_canceledAt := Value now;
           set_latestPaymentId := NoKey |} db).1, Expired)
  else (db, Ignored type)
  end
  end.

End RevenuecatWebhook.

(** ** src/routes/subscription.ts *)

Module SubscriptionRoute.
Import Subscription.

Record ClientSubscription : Type := {
  c_plan : Plan;
  c_status : SubStatus;
  autoRenew : bool;
  periodEnd : option Z;
  storageLimitGb : option nat;
}.

Definition toClientShape (doc : option Document) : ClientSubscription :=
  match doc with
  | None =>
      {| c_plan := free; c_status := inactive; autoRenew := false;
         periodEnd := None; storageLimitGb := None |}
  | Some doc =>
      let isLifetime := bool_decide (plan doc = lifetime) in
      let periodEnd := renewsAt doc in
      let autoRenew :=
        negb isLifetime && negb (bool_decide (plan doc = free)) &&
        bool_decide (status doc = active) in
      {| c_plan := plan doc; c_status := status doc; autoRenew := autoRenew;
         periodEnd := periodEnd;
         storageLimitGb := if isLifetime then Some 10%nat else None |}
  end.

Definition planFromProductId (productId : option string) : Plan :=
  match productId with
  | None => free
  | Some productId =>
      if String.eqb productId "" then free
      else if includes productId ".monthly" then monthly
      else if includes productId ".yearly" then yearly
      else if includes productId ".lifetime" then lifetime
      else free
  end.

Definition subSourceFromProvider (provider : option Payment.Provider)
  : SubSource :=
  match provider with
  | Some Payment.google_play => google_play
  | Some Payment.app_store => app_store
  | Some Payment.stripe => stripe
  | _ => admin
  end.

(** The responses of the routes: an error with its status code, or the
    client shape with status 200. *)
Inductive Reply : Type :=
  | Error (code : nat) (error : string)
  | Json (payload : ClientSubscription).

(** [router.get("/subscription", ...)]; [auth] is what [getUserId] returns. *)
Definition get (auth : option string) (db : Db) : Reply :=
  if negb (truthy auth) then Error 401 "Unauthorized"
  else Json (toClientShape (subscriptions db !! default "" auth)).

(** [router.post("/subscription/activate", ...)]. *)
Definition activate (auth : option string) (now : Z) (body : ActivateBody)
    (db : Db) : Db * Reply :=
  match auth with
  | None => (db, Error 401 "Unauthorized")
  | Some userId =>
  if String.eqb userId "" then (db, Error 401 "Unauthorized") else
  match ab_productId body, ab_transactionId body,
        ab_provider body, ab_platform body with
  | Some productId, Some transactionId, Some provider, Some platform =>
  if String.eqb productId "" || String.eqb transactionId "" then
    (db, Error 400 "Missing productId/transactionId/provider/platform")
  else
  match ab_amountCents body with
  | None => (db, Error 400 "Invalid amountCents")
  | Some amountCents =>
  if negb (isFinite amountCents) || ltZero amountCents then
    (db, Error 400 "Invalid amountCents")
  else
  match ab_currency body with
  | None => (db, Error 400 "Missing currency")
  | Some currency =>
  if String.eqb currency "" then (db, Error 400 "Missing currency") else
  let derivedPlan := planFromProductId (Some productId) in
  let plan :=
    if negb (bool_decide (derivedPlan = free)) then derivedPlan
    else default free (ab_plan body) in
  let expiresAt :=
    if bool_decide (plan = lifetime) then None else ab_periodEnd body in
  let db1 :=
    PaymentModel_updateOne transactionId
      {| Payment.p_userId := Value userId;
         Payment.p_platform := Value platform;
         Payment.p_provider := Value provider;
         Payment.p_productId := Value productId;
         Payment.p_transactionId := Value transactionId;
         Payment.p_originalTransactionId := NoKey;
         Payment.p_amountCents := NoKey;
         Payment.p_currency := NoKey;
         Payment.p_purchasedAt := NoKey;
         Payment.p_expiresAt := NoKey;
         Payment.p_rawPayload := NoKey |}
      {| Payment.p_userId := NoKey;
         Payment.p_platform := NoKey;
         Payment.p_provider := NoKey;
         Payment.p_productId := NoKey;
         Payment.p_transactionId := NoKey;
         Payment.p_originalTransactionId := NoKey;
         Payment.p_amountCents := Value amountCents;
         Payment.p_currency := Value (toUpperCase currency);
         Payment.p_purchasedAt := Value now;
         Payment.p_expiresAt := ofOption expiresAt;
         Payment.p_rawPayload := Value (RawActivate body) |}
      db in
  let paymentDoc := Payment.findOne transactionId (payments db1) in
  let source := subSourceFromProvider (Some provider) in
  let r :=
    SubscriptionModel_findOneAndUpdate userId
      {| set_plan := plan;
         set_status := active;
         set_source := source;
         set_startedAt := Value now;
         set_renewsAt := ofOption expiresAt;
         set_canceledAt := Undefined;
         set_latestPaymentId := ofOption (Payment._id <$> paymentDoc) |}
      db1 in
  (r.1, Json (toClientShape (Some r.2)))
  end
  end
  | _, _, _, _ =>
      (db, Error 400 "Missing productId/transactionId/provider/platform")
  end
  end.

(** Assignments to the paths of a hydrated document; [save] then writes the
    assigned values, and unsets a path that was assigned [undefined]. *)
Definition withStatus (s : SubStatus) (d : Document) : Document :=
  {| userId := userId d; plan := plan d; status := s; source := source d;
     startedAt := startedAt d; renewsAt := renewsAt d;
     canceledAt := canceledAt d; latestPaymentId := latestPaymentId d |}.

Definition withCanceledAt (t : option Z) (d : Document) : Document :=
  {| userId := userId d; plan := plan d; status := status d; source := source d;
     startedAt := startedAt d; renewsAt := renewsAt d;
     canceledAt := t; latestPaymentId := latestPaymentId d |}.

Definition withRenewsAt (t : option Z) (d : Document) : Document :=
  {| userId := userId d; plan := plan d; status := status d; source := source d;
     startedAt := startedAt d; renewsAt := t;
     canceledAt := canceledAt d; latestPaymentId := latestPaymentId d |}.

Definition withPlan (p : Plan) (d : Document) : Document :=
  {| userId := userId d; plan := p; status := status d; source := source d;
     startedAt := startedAt d; renewsAt := renewsAt d;
     canceledAt := canceledAt d; latestPaymentId := latestPaymentId d |}.

Definition withSource (s : SubSource) (d : Document) : Document :=
  {| userId := userId d; plan := plan d; status := status d; source := s;
     startedAt := startedAt d; renewsAt := renewsAt d;
     canceledAt := canceledAt d; latestPaymentId := latestPaymentId d |}.

(** [router.post("/subscription/cancel-auto-renew", ...)]; [bodyPeriodEnd] is
    [Some] exactly when [typeof body.periodEnd] gives ["number"]. *)
Definition cancelAutoRenew (auth : option string) (now : Z)
    (bodyPeriodEnd : option Z) (db : Db) : Db * Reply :=
  match auth with
  | None => (db, Error 401 "Unauthorized")
  | Some userId =>
  if String.eqb userId "" then (db, Error 401 "Unauthorized") else
  match subscriptions db !! userId with
  | None => (db, Error 404 "Subscription not found")
  | Some subDoc =>
      let subDoc :=
        match bodyPeriodEnd with
        | Some ms => withRenewsAt (Some ms) subDoc
        | None => subDoc
        end in
      let subDoc := withStatus canceled subDoc in
      let subDoc := withCanceledAt (Some now) subDoc in
      (SubscriptionModel_save userId subDoc db,
       Json (toClientShape (Some subDoc)))
  end
  end.

(** [router.post("/subscription/resume-auto-renew", ...)]. *)
Definition resumeAutoRenew (auth : option string) (db : Db) : Db * Reply :=
  match auth with
  | None => (db, Error 401 "Unauthorized")
  | Some userId =>
  if String.eqb userId "" then (db, Error 401 "Unauthorized") else
  match subscriptions db !! userId with
  | None => (db, Error 404 "Subscription not found")
  | Some subDoc =>
      let subDoc := withStatus active subDoc in
      let subDoc := withCanceledAt None subDoc in
      (SubscriptionModel_save userId subDoc db,
       Json (toClientShape (Some subDoc)))
  end
  end.

(** [router.post("/subscription/switch-to-free", ...)]. *)
Definition switchToFree (auth : option string) (now : Z) (db : Db)
  : Db * Reply :=
  match auth with
  | None => (db, Error 401 "Unauthorized")
  | Some userId =>
  if String.eqb userId "" then (db, Error 401 "Unauthorized") else
  let subDoc :=
    match subscriptions db !! userId with
    | None =>
        {| userId := userId; plan := free; status := inactive; source := admin;
           startedAt := Some now; renewsAt := None; canceledAt := Some now;
           latestPaymentId := None |}
    | Some subDoc =>
        let subDoc := withPlan free subDoc in
        let subDoc := withStatus inactive subDoc in
        let subDoc := withSource admin subDoc in
        let subDoc := withRenewsAt None subDoc in
        withCanceledAt (Some now) subDoc
    end in
  (SubscriptionModel_save userId subDoc db, Json (toClientShape (Some subDoc)))
  end.

End SubscriptionRoute.

(** * Properties *)

(** ** Strings *)

(** [needle] occurs somewhere in [hay]. *)
Definition contains (needle hay : string) : Prop :=
  exists pre post, hay = pre +:+ needle +:+ post.

Lemma append_nil_l (s : string) : "" +:+ s = s.
Proof. reflexivity. Qed.

Lemma append_cons (c : ascii) (a b : string) :
  String c a +:+ b = String c (a +:+ b).
Proof. reflexivity. Qed.

Lemma prefix_true_iff (a b : string) :
  String.prefix a b = true <-> exists post, b = a +:+ post.
Proof.
  revert b. induction a as [|c a IH]; intros b.
  - split; [intros _; by exists b | by destruct b].
  - destruct b as [|c' b]; simpl.
    + split; [done | intros [post H]; discriminate H].
    + destruct (Ascii.ascii_dec c c') as [->|Hne].
      * rewrite IH. split; intros [post H]; exists post.
        -- by rewrite append_cons, H.
        -- rewrite append_cons in H. by injection H.
      * split; [done | intros [post H]].
        rewrite append_cons in H. injection H. congruence.
Qed.

Lemma includes_nil (needle : string) :
  includes "" needle = String.prefix needle "" || false.
Proof. reflexivity. Qed.

Lemma includes_cons (c : ascii) (hay needle : string) :
  includes (String c hay) needle =
  String.prefix needle (String c hay) || includes hay needle.
Proof. reflexivity. Qed.

Lemma includes_true_iff (hay needle : string) :
  includes hay needle = true <-> contains needle hay.
Proof.
  unfold contains. induction hay as [|c hay IH].
  - rewrite includes_nil, orb_false_r, prefix_true_iff. split.
    + intros [post H]. by exists "", post.
    + intros (pre & post & H). destruct pre; [by exists post | discriminate H].
  - rewrite includes_cons, orb_true_iff, prefix_true_iff, IH. split.
    + intros [[post H] | (pre & post & H)].
      * by exists "", post.
      * exists (String c pre), post. by rewrite append_cons, H.
    + intros (pre & post & H). destruct pre as [|c' pre].
      * left. by exists post.
      * right. exists pre, post. rewrite append_cons in H. by injection H.
Qed.

Lemma includes_false_iff (hay needle : string) :
  includes hay needle = false <-> ~ contains needle hay.
Proof.
  rewrite <- includes_true_iff. by destruct (includes hay needle).
Qed.

Lemma timingSafeEqual_true_iff (a b : string) :
  RevenuecatWebhook.timingSafeEqual a b = true <-> a = b.
Proof.
  unfold RevenuecatWebhook.timingSafeEqual.
  destruct (Nat.eqb_spec (String.length a) (String.length b)) as [Hl|Hl]; simpl.
  - apply String.eqb_eq.
  - split; [done | intros ->; by destruct Hl].
Qed.

(** The two routes carry the same plan derivation. *)
Lemma planFromProductId_same (p : option string) :
  RevenuecatWebhook.planFromProductId p = SubscriptionRoute.planFromProductId p.
Proof. reflexivity. Qed.

(** ** Entitlement projection *)

Section Projection.
Import Subscription SubscriptionRoute.

(** C9.  The projection of a stored state has [autoRenew] exactly when the plan
    is neither free nor lifetime and the status is active; a lifetime plan
    never auto-renews, whatever the status; an absent state projects to the
    free, inactive shape without renewal and without period end. *)
Theorem toClientShape_autoRenew :
  (forall doc : Document,
      autoRenew (toClientShape (Some doc)) = true <->
      plan doc <> free /\ plan doc <> lifetime /\ status doc = active) /\
  (forall doc : Document,
      plan doc = lifetime -> autoRenew (toClientShape (Some doc)) = false) /\
  (forall doc : Document,
      c_plan (toClientShape (Some doc)) = plan doc /\
      c_status (toClientShape (Some doc)) = status doc /\
      periodEnd (toClientShape (Some doc)) = renewsAt doc) /\
  toClientShape None =
    {| c_plan := free; c_status := inactive; autoRenew := false;
       periodEnd := None; storageLimitGb := None |}.
Proof.
  repeat split.
  - simpl in H. destruct (plan doc); simpl in H; congruence.
  - simpl in H. destruct (plan doc); simpl in H; congruence.
  - simpl in H. destruct (plan doc), (status doc); simpl in H; congruence.
  - intros (Hf & Hl & Ha). simpl. rewrite Ha.
    destruct (plan doc); simpl; congruence.
  - intros doc Hl. simpl. by rewrite Hl.
Qed.

End Projection.

(** ** The datastore operations *)

Lemma setPath_ofOption {A : Type} (o old : option A) :
  setPath (ofOption o) old = match o with Some a => Some a | None => old end.
Proof. by destruct o. Qed.


Lemma findOneAndUpdate_subscriptions (uid : string) (u : Subscription.Update)
    (db : Db) :
  subscriptions (SubscriptionModel_findOneAndUpdate uid u db).1 =
  <[uid := Subscription.applyUpdate u
             (default (Subscription.fresh uid) (subscriptions db !! uid))]>
    (subscriptions db).
Proof. reflexivity. Qed.

Lemma findOneAndUpdate_row (uid : string) (u : Subscription.Update) (db : Db) :
  subscriptions (SubscriptionModel_findOneAndUpdate uid u db).1 !! uid =
  Some (Subscription.applyUpdate u
          (default (Subscription.fresh uid) (subscriptions db !! uid))).
Proof. rewrite findOneAndUpdate_subscriptions. apply lookup_insert_eq. Qed.

Lemma findOneAndUpdate_doc (uid : string) (u : Subscription.Update) (db : Db) :
  (SubscriptionModel_findOneAndUpdate uid u db).2 =
  Subscription.applyUpdate u
    (default (Subscription.fresh uid) (subscriptions db !! uid)).
Proof. reflexivity. Qed.

Lemma findOneAndUpdate_other (uid uid' : string) (u : Subscription.Update)
    (db : Db) :
  uid <> uid' ->
  subscriptions (SubscriptionModel_findOneAndUpdate uid u db).1 !! uid' =
  subscriptions db !! uid'.
Proof.
  intros Hne. rewrite findOneAndUpdate_subscriptions. by apply lookup_insert_ne.
Qed.

Lemma findOneAndUpdate_payments (uid : string) (u : Subscription.Update)
    (db : Db) :
  payments (SubscriptionModel_findOneAndUpdate uid u db).1 = payments db.
Proof. reflexivity. Qed.

Lemma updateOne_subscriptions (tid : string)
    (onInsert set : Payment.Patch RawBody) (db : Db) :
  subscriptions (PaymentModel_updateOne tid onInsert set db) = subscriptions db.
Proof.
  unfold PaymentModel_updateOne.
  by destruct (Payment.updateOne _ _ _ _ _) as [c inserted].
Qed.

(** ** The webhook *)

(** The request passes the check of the [authorization] header: no secret is
    configured, or the header carries it. *)
Definition authorized (expected authorization : option string) : Prop :=
  truthy expected = false \/ authorization = expected.

Lemma authorized_check (expected authorization : option string) :
  authorized expected authorization ->
  truthy expected &&
  negb (RevenuecatWebhook.timingSafeEqual (default "" authorization) (default "" expected)) = false.
Proof.
  intros [H | ->].
  - by rewrite H.
  - rewrite (proj2 (timingSafeEqual_true_iff _ _) eq_refl). apply andb_false_r.
Qed.

(** Enter [post] for an authorized request whose event names a type and a
    user. *)
Ltac enter_post Hauth Hev Hty Hne Huid Hune :=
  unfold RevenuecatWebhook.post;
  rewrite (authorized_check _ _ Hauth), Hev; cbv beta iota;
  rewrite Hty, Huid; cbv beta iota;
  unfold truthy;
  rewrite (proj2 (String.eqb_neq _ _) Hne), (proj2 (String.eqb_neq _ _) Hune);
  cbn [negb]; cbv beta iota zeta;
  repeat match goal with
         | |- context [default "" (Some ?t)] =>
             change (default "" (Some t)) with t
         end.

Section Webhook.
Import Subscription RevenuecatWebhook.

(** An unauthorized request is turned away before the event is looked at. *)
Lemma post_unauthorized (expected authorization : option string) (now : Z)
    (body : WebhookBody) (db : Db) :
  truthy expected = true -> authorization <> expected ->
  post expected authorization now body db = (db, Unauthorized).
Proof.
  intros Ht Hne. unfold post.
  destruct (timingSafeEqual _ _) eqn:E; [| by rewrite Ht].
  apply timingSafeEqual_true_iff in E. destruct Hne.
  destruct expected as [e|]; [| done].
  destruct authorization as [a|]; simpl in E; [by rewrite E |].
  subst e. done.
Qed.

Lemma isPurchaseLike_nonempty (ty : string) :
  isPurchaseLike ty = true -> ty <> "".
Proof. by intros H ->. Qed.

(** The update a purchase-like event applies to the user's row. *)
Definition purchaseUpdate (now : Z) (ev : RcEvent) : Update :=
  {| set_plan := planFromProductId (product_id ev);
     set_status := active;
     set_source := sourceOfProvider (providerFromStore (store ev));
     set_startedAt := Value (default now (dateIfTruthy (purchased_at_ms ev)));
     set_renewsAt := ofOption (dateIfTruthy (expiration_at_ms ev));
     set_canceledAt := Undefined;
     set_latestPaymentId := NoKey |}.

Lemma post_purchase (expected authorization : option string) (now : Z)
    (body : WebhookBody) (ev : RcEvent) (ty userId : string) (db : Db) :
  authorized expected authorization ->
  event body = Some ev ->
  type ev = Some ty -> isPurchaseLike ty = true ->
  app_user_id ev = Some userId -> userId <> "" ->
  (post expected authorization now body db).2 = Ok /\
  subscriptions (post expected authorization now body db).1 =
    <[userId := applyUpdate (purchaseUpdate now ev)
                  (default (fresh userId) (subscriptions db !! userId))]>
      (subscriptions db).
Proof.
  intros Hauth Hev Hty Hp Huid Hune.
  pose proof (isPurchaseLike_nonempty _ Hp) as Hne.
  enter_post Hauth Hev Hty Hne Huid Hune.
  rewrite Hp. split; [done |].
  cbn [fst]. rewrite findOneAndUpdate_subscriptions.
  assert (forall db1, subscriptions db1 = subscriptions db ->
    <[userId := applyUpdate (purchaseUpdate now ev)
        (default (fresh userId) (subscriptions db1 !! userId))]> (subscriptions db1) =
    <[userId := applyUpdate (purchaseUpdate now ev)
        (default (fresh userId) (subscriptions db !! userId))]> (subscriptions db))
    as Hsame by (by intros db1 ->).
  apply Hsame.
  destruct (transaction_id ev) as [tid|]; [| done].
  destruct (String.eqb tid ""); [done |]. apply updateOne_subscriptions.
Qed.

(** The update a support-initiated cancellation applies. *)
Definition refundUpdate (now : Z) (ev : RcEvent) : Update :=
  {| set_plan := free;
     set_status := inactive;
     set_source := sourceOfProvider (providerFromStore (store ev));
     set_startedAt := NoKey;
     set_renewsAt := Undefined;
     set_canceledAt := Value now;
     set_latestPaymentId := NoKey |}.

(** The update a plain cancellation applies. *)
Definition cancellationUpdate (now : Z) (ev : RcEvent) : Update :=
  {| set_plan := planFromProductId (product_id ev);
     set_status := canceled;
     set_source := sourceOfProvider (providerFromStore (store ev));
     set_startedAt := NoKey;
     set_renewsAt := ofOption (dateIfTruthy (expiration_at_ms ev));
     set_canceledAt := Value now;
     set_latestPaymentId := NoKey |}.

Lemma post_refund (expected authorization : option string) (now : Z)
    (body : WebhookBody) (ev : RcEvent) (userId : string) (db : Db) :
  authorized expected authorization ->
  event body = Some ev ->
  type ev = Some "CANCELLATION" ->
  cancel_reason ev = Some "CUSTOMER_SUPPORT" ->
  app_user_id ev = Some userId -> userId <> "" ->
  post expected authorization now body db =
  ((SubscriptionModel_findOneAndUpdate userId (refundUpdate now ev) db).1,
   Revoked).
Proof.
  intros Hauth Hev Hty Hcr Huid Hune.
  assert ("CANCELLATION" <> "") as Hne by done.
  enter_post Hauth Hev Hty Hne Huid Hune.
  change (isPurchaseLike "CANCELLATION") with false. cbv iota.
  unfold looksLikeRefund. rewrite Hcr. reflexivity.
Qed.

Lemma post_cancellation (expected authorization : option string) (now : Z)
    (body : WebhookBody) (ev : RcEvent) (userId : string) (db : Db) :
  authorized expected authorization ->
  event body = Some ev ->
  type ev = Some "CANCELLATION" ->
  cancel_reason ev <> Some "CUSTOMER_SUPPORT" ->
  app_user_id ev = Some userId -> userId <> "" ->
  post expected authorization now body db =
  ((SubscriptionModel_findOneAndUpdate userId (cancellationUpdate now ev) db).1,
   Canceled).
Proof.
  intros Hauth Hev Hty Hcr Huid Hune.
  assert ("CANCELLATION" <> "") as Hne by done.
  enter_post Hauth Hev Hty Hne Huid Hune.
  change (isPurchaseLike "CANCELLATION") with false. cbv iota.
  unfold looksLikeRefund. rewrite (bool_decide_eq_false_2 _ Hcr).
  reflexivity.
Qed.

(** An event type outside the ones the route names is acknowledged and
    changes nothing. *)
Lemma post_ignored (expected authorization : option string) (now : Z)
    (body : WebhookBody) (ev : RcEvent) (ty userId : string) (db : Db) :
  authorized expected authorization ->
  event body = Some ev ->
  type ev = Some ty -> ty <> "" ->
  isPurchaseLike ty = false ->
  ty <> "CANCELLATION" -> ty <> "EXPIRATION" ->
  app_user_id ev = Some userId -> userId <> "" ->
  post expected authorization now body db = (db, Ignored ty).
Proof.
  intros Hauth Hev Hty Hne Hp Hc He Huid Hune.
  enter_post Hauth Hev Hty Hne Huid Hune.
  rewrite Hp. unfold looksLikeRefund.
  by rewrite (proj2 (String.eqb_neq _ _) Hc), (proj2 (String.eqb_neq _ _) He).
Qed.

(** The update an expiration applies. *)
Definition expirationUpdate (now : Z) (ev : RcEvent) : Update :=
  {| set_plan := free;
     set_status := expired;
     set_source := sourceOfProvider (providerFromStore (store ev));
     set_startedAt := NoKey;
     set_renewsAt := Undefined;
     set_canceledAt := Value now;
     set_latestPaymentId := NoKey |}.

Lemma post_expiration (expected authorization : option string) (now : Z)
    (body : WebhookBody) (ev : RcEvent) (userId : string) (db : Db) :
  authorized expected authorization ->
  event body = Some ev ->
  type ev = Some "EXPIRATION" ->
  app_user_id ev = Some userId -> userId <> "" ->
  post expected authorization now body db =
  ((SubscriptionModel_findOneAndUpdate userId (expirationUpdate now ev) db).1,
   Expired).
Proof.
  intros Hauth Hev Hty Huid Hune.
  assert ("EXPIRATION" <> "") as Hne by done.
  enter_post Hauth Hev Hty Hne Huid Hune.
  reflexivity.
Qed.

(** *** Sample data *)

Definition monthlyRow : Document :=
  {| userId := "u1"; plan := monthly; status := active; source := app_store;
     startedAt := Some 1000%Z; renewsAt := Some 2000%Z; canceledAt := None;
     latestPaymentId := None |}.

Definition canceledRow : Document :=
  {| userId := "u1"; plan := monthly; status := canceled; source := app_store;
     startedAt := Some 1000%Z; renewsAt := Some 2000%Z;
     canceledAt := Some 1500%Z; latestPaymentId := None |}.

Definition dbWith (row : Document) : Db :=
  {| payments := []; subscriptions := {[ "u1" := row ]}; nextId := 0 |}.

(** An event for user [u1] that carries nothing but its type, a cancel
    reason and an expiry. *)
Definition bareRcEvent (ty : string) (reason : option string)
    (expiry : option Z) : RcEvent :=
  {| type := Some ty; app_user_id := Some "u1"; product_id := None;
     transaction_id := None; original_transaction_id := None;
     store := Some "app_store"; cancel_reason := reason;
     expiration_at_ms := expiry; purchased_at_ms := None;
     ev_currency := None |}.

Definition bareEvent (ty : string) (reason : option string)
    (expiry : option Z) : WebhookBody :=
  {| event := Some (bareRcEvent ty reason expiry) |}.

(** A purchase-like event for user [u1] and product [pkg.monthly]. *)
Definition purchaseRcEvent (ty : string) (tid : option string)
    (currency : option string) (purchased expiry : option Z) : RcEvent :=
  {| type := Some ty; app_user_id := Some "u1";
     product_id := Some "pkg.monthly";
     transaction_id := tid; original_transaction_id := None;
     store := Some "app_store"; cancel_reason := None;
     expiration_at_ms := expiry; purchased_at_ms := purchased;
     ev_currency := currency |}.

Definition purchaseEvent (ty : string) (tid : option string)
    (currency : option string) (purchased expiry : option Z) : WebhookBody :=
  {| event := Some (purchaseRcEvent ty tid currency purchased expiry) |}.

(** *** Plain cancellations *)

(** C4, as stated, fails on the plan: the user of the scenario holds a
    monthly, active row and receives a plain CANCELLATION without product id;
    the row ends on plan free. *)
Lemma plain_cancellation_rewrites_plan :
  let r := post None None 3000 (bareEvent "CANCELLATION" None None)
             (dbWith monthlyRow) in
  r.2 = Canceled /\
  plan <$> subscriptions (dbWith monthlyRow) !! "u1" = Some monthly /\
  plan <$> subscriptions r.1 !! "u1" = Some free /\
  status <$> subscriptions r.1 !! "u1" = Some canceled.
Proof. repeat split; vm_compute; reflexivity. Qed.

(** C4, amended.  An authorized CANCELLATION without the CUSTOMER_SUPPORT
    reason, for a user with a stored row, leaves status canceled and
    [canceledAt] = now; the plan becomes the plan derived from the event's
    product id (free when the event has none); [renewsAt] becomes the event
    expiry when the event carries one that is not zero and is otherwise
    unchanged; [startedAt] and the ledger are unchanged. *)
Theorem plain_cancellation_result (expected authorization : option string)
    (now : Z) (body : WebhookBody) (ev : RcEvent) (userId : string) (db : Db)
    (old : Document) :
  authorized expected authorization ->
  event body = Some ev ->
  type ev = Some "CANCELLATION" ->
  cancel_reason ev <> Some "CUSTOMER_SUPPORT" ->
  app_user_id ev = Some userId -> userId <> "" ->
  subscriptions db !! userId = Some old ->
  let r := post expected authorization now body db in
  r.2 = Canceled /\
  payments r.1 = payments db /\
  exists doc,
    subscriptions r.1 !! userId = Some doc /\
    status doc = canceled /\ canceledAt doc = Some now /\
    plan doc = planFromProductId (product_id ev) /\
    renewsAt doc =
      match expiration_at_ms ev with
      | Some ms => if (ms =? 0)%Z then renewsAt old else Some ms
      | None => renewsAt old
      end /\
    startedAt doc = startedAt old.
Proof.
  intros Hauth Hev Hty Hcr Huid Hune Hold r. subst r.
  rewrite (post_cancellation _ _ _ _ _ _ _ Hauth Hev Hty Hcr Huid Hune).
  cbn [fst snd]. rewrite findOneAndUpdate_row, Hold. repeat split.
  eexists. split; [reflexivity |]. repeat split.
  cbn [applyUpdate cancellationUpdate renewsAt set_renewsAt].
  rewrite setPath_ofOption. unfold dateIfTruthy.
  destruct (expiration_at_ms ev) as [ms|]; [| done].
  by destruct (ms =? 0)%Z.
Qed.

Lemma plain_cancellation_result_witness :
  let r := post None None 3000 (bareEvent "CANCELLATION" None (Some 2500%Z))
             (dbWith monthlyRow) in
  r.2 = Canceled /\
  payments r.1 = payments (dbWith monthlyRow) /\
  exists doc,
    subscriptions r.1 !! "u1" = Some doc /\
    status doc = canceled /\ canceledAt doc = Some 3000%Z /\
    plan doc = planFromProductId None /\
    renewsAt doc = Some 2500%Z /\
    startedAt doc = startedAt monthlyRow.
Proof.
  refine (plain_cancellation_result None None 3000
            (bareEvent "CANCELLATION" None (Some 2500%Z))
            (bareRcEvent "CANCELLATION" None (Some 2500%Z))
            "u1" (dbWith monthlyRow) monthlyRow _ _ _ _ _ _ _).
  - left. reflexivity.
  - reflexivity.
  - reflexivity.
  - discriminate.
  - reflexivity.
  - discriminate.
  - reflexivity.
Defined.

(** *** Purchase-like events *)

(** C5 at a failing input.  The user canceled at 1500 and the row still
    carries that [canceledAt]; an UNCANCELLATION with expiry 4000 arrives.
    The row becomes active with the event's expiry, and [canceledAt] is not
    cleared: the update names the key with the value [undefined], which the
    cast removes. *)
Lemma purchase_keeps_canceledAt :
  let r := post None None 3000
             (purchaseEvent "UNCANCELLATION" None None None (Some 4000%Z))
             (dbWith canceledRow) in
  r.2 = Ok /\
  subscriptions r.1 !! "u1" =
    Some {| userId := "u1"; plan := monthly; status := active;
            source := app_store; startedAt := Some 3000%Z;
            renewsAt := Some 4000%Z; canceledAt := Some 1500%Z;
            latestPaymentId := None |}.
Proof. split; vm_compute; reflexivity. Qed.

(** What a purchase-like event does write.  The row of the user has the plan
    derived from the event's product id, status active and the source derived
    from the store; [startedAt] is the purchase time of the event, or the
    clock when the event has none; [renewsAt] is the event expiry when the
    event carries one that is not zero.  A row created by the event has no
    [canceledAt], and no [renewsAt] when the event has no such expiry. *)
Theorem purchase_like_result (expected authorization : option string)
    (now : Z) (body : WebhookBody) (ev : RcEvent) (ty userId : string)
    (db : Db) :
  authorized expected authorization ->
  event body = Some ev ->
  type ev = Some ty -> isPurchaseLike ty = true ->
  app_user_id ev = Some userId -> userId <> "" ->
  let r := post expected authorization now body db in
  r.2 = Ok /\
  exists row,
    subscriptions r.1 !! userId = Some row /\
    plan row = planFromProductId (product_id ev) /\
    status row = active /\
    source row = sourceOfProvider (providerFromStore (store ev)) /\
    startedAt row = Some (default now (dateIfTruthy (purchased_at_ms ev))) /\
    (forall ms, expiration_at_ms ev = Some ms -> ms <> 0%Z ->
                renewsAt row = Some ms) /\
    (subscriptions db !! userId = None ->
     canceledAt row = None /\
     (dateIfTruthy (expiration_at_ms ev) = None -> renewsAt row = None)).
Proof.
  intros Hauth Hev Hty Hp Huid Hune r. subst r.
  destruct (post_purchase _ _ now _ _ _ _ db Hauth Hev Hty Hp Huid Hune)
    as [-> ->].
  split; [done |]. eexists. split; [apply lookup_insert_eq |].
  split; [done |]. split; [done |]. split; [done |]. split; [done |].
  cbn [applyUpdate purchaseUpdate renewsAt canceledAt set_renewsAt
       set_canceledAt].
  rewrite setPath_ofOption. split.
  - intros ms Hms Hnz. rewrite Hms. cbn [dateIfTruthy].
    by rewrite (proj2 (Z.eqb_neq _ _) Hnz).
  - intros ->. split; [done |]. by intros ->.
Qed.

Lemma purchase_like_result_witness :
  let r := post None None 3000
             (purchaseEvent "RENEWAL" None None None (Some 4000%Z))
             (dbWith monthlyRow) in
  r.2 = Ok /\
  exists row,
    subscriptions r.1 !! "u1" = Some row /\
    plan row = planFromProductId (Some "pkg.monthly") /\
    status row = active /\
    source row = sourceOfProvider (providerFromStore (Some "app_store")) /\
    startedAt row = Some 3000%Z /\
    (forall ms, Some 4000%Z = Some ms -> ms <> 0%Z -> renewsAt row = Some ms) /\
    (subscriptions (dbWith monthlyRow) !! "u1" = None ->
     canceledAt row = None /\
     (dateIfTruthy (Some 4000%Z) = None -> renewsAt row = None)).
Proof.
  refine (purchase_like_result None None 3000
            (purchaseEvent "RENEWAL" None None None (Some 4000%Z))
            (purchaseRcEvent "RENEWAL" None None None (Some 4000%Z))
            "RENEWAL" "u1" (dbWith monthlyRow) _ _ _ _ _ _).
  - left. reflexivity.
  - reflexivity.
  - reflexivity.
  - reflexivity.
  - reflexivity.
  - discriminate.
Defined.

(** *** Events without user, and expirations *)

(** An authorized event that names a type but no user is acknowledged with
    the skip marker, and neither collection is written. *)
Theorem post_skips_missing_user (expected authorization : option string)
    (now : Z) (body : WebhookBody) (ev : RcEvent) (db : Db) :
  authorized expected authorization ->
  event body = Some ev ->
  truthy (type ev) = true ->
  truthy (app_user_id ev) = false ->
  post expected authorization now body db = (db, Skipped) /\
  statusCode Skipped = 200.
Proof.
  intros Hauth Hev Hty Hu. unfold post.
  rewrite (authorized_check _ _ Hauth), Hev, Hty. cbn [negb].
  split; [| done].
  destruct (app_user_id ev) as [userId|]; [| done].
  cbn [truthy] in Hu. apply negb_false_iff in Hu. by rewrite Hu.
Qed.

Lemma post_skips_missing_user_witness :
  post None None 3000
    {| event := Some
         {| type := Some "INITIAL_PURCHASE"; app_user_id := None;
            product_id := Some "pkg.monthly"; transaction_id := Some "t1";
            original_transaction_id := None; store := None;
            cancel_reason := None; expiration_at_ms := None;
            purchased_at_ms := None; ev_currency := None |} |}
    (dbWith monthlyRow) = (dbWith monthlyRow, Skipped) /\
  statusCode Skipped = 200.
Proof.
  refine (post_skips_missing_user None None 3000 _ _ (dbWith monthlyRow)
            _ _ _ _).
  - left. reflexivity.
  - reflexivity.
  - reflexivity.
  - reflexivity.
Defined.

(** An authorized EXPIRATION for a resolvable user leaves the row on plan
    free with status expired and [canceledAt] = now, and does not write the
    ledger. *)
Theorem expiration_downgrades (expected authorization : option string)
    (now : Z) (body : WebhookBody) (ev : RcEvent) (userId : string) (db : Db) :
  authorized expected authorization ->
  event body = Some ev ->
  type ev = Some "EXPIRATION" ->
  app_user_id ev = Some userId -> userId <> "" ->
  let r := post expected authorization now body db in
  r.2 = Expired /\
  payments r.1 = payments db /\
  exists row,
    subscriptions r.1 !! userId = Some row /\
    plan row = free /\ status row = expired /\ canceledAt row = Some now.
Proof.
  intros Hauth Hev Hty Huid Hune r. subst r.
  rewrite (post_expiration _ _ _ _ _ _ _ Hauth Hev Hty Huid Hune).
  cbn [fst snd]. rewrite findOneAndUpdate_row. repeat split.
  eexists. split; [reflexivity |]. by repeat split.
Qed.

Lemma expiration_downgrades_witness :
  let r := post None None 3000 (bareEvent "EXPIRATION" None None)
             (dbWith monthlyRow) in
  r.2 = Expired /\
  payments r.1 = payments (dbWith monthlyRow) /\
  exists row,
    subscriptions r.1 !! "u1" = Some row /\
    plan row = free /\ status row = expired /\ canceledAt row = Some 3000%Z.
Proof.
  refine (expiration_downgrades None None 3000
            (bareEvent "EXPIRATION" None None)
            (bareRcEvent "EXPIRATION" None None)
            "u1" (dbWith monthlyRow) _ _ _ _ _).
  - left. reflexivity.
  - reflexivity.
  - reflexivity.
  - reflexivity.
  - discriminate.
Defined.

End Webhook.

(** ** The subscription routes *)

Section Routes.
Import Subscription SubscriptionRoute.

(** *** Plan derivation *)

Lemma planFromProductId_monthly (p : string) :
  contains ".monthly" p -> planFromProductId (Some p) = monthly.
Proof.
  intros H. unfold planFromProductId.
  destruct (String.eqb_spec p "") as [-> | _].
  - apply includes_true_iff in H. discriminate H.
  - by rewrite (proj2 (includes_true_iff _ _) H).
Qed.

Lemma planFromProductId_yearly (p : string) :
  contains ".yearly" p -> ~ contains ".monthly" p ->
  planFromProductId (Some p) = yearly.
Proof.
  intros Hy Hm. unfold planFromProductId.
  destruct (String.eqb_spec p "") as [-> | _].
  - apply includes_true_iff in Hy. discriminate Hy.
  - by rewrite (proj2 (includes_false_iff _ _) Hm),
               (proj2 (includes_true_iff _ _) Hy).
Qed.

Lemma planFromProductId_lifetime (p : string) :
  contains ".lifetime" p -> ~ contains ".monthly" p -> ~ contains ".yearly" p ->
  planFromProductId (Some p) = lifetime.
Proof.
  intros Hl Hm Hy. unfold planFromProductId.
  destruct (String.eqb_spec p "") as [-> | _].
  - apply includes_true_iff in Hl. discriminate Hl.
  - by rewrite (proj2 (includes_false_iff _ _) Hm),
               (proj2 (includes_false_iff _ _) Hy),
               (proj2 (includes_true_iff _ _) Hl).
Qed.

Lemma planFromProductId_free (p : string) :
  ~ contains ".monthly" p -> ~ contains ".yearly" p ->
  ~ contains ".lifetime" p ->
  planFromProductId (Some p) = free.
Proof.
  intros Hm Hy Hl. unfold planFromProductId.
  destruct (String.eqb p ""); [done |].
  by rewrite (proj2 (includes_false_iff _ _) Hm),
             (proj2 (includes_false_iff _ _) Hy),
             (proj2 (includes_false_iff _ _) Hl).
Qed.

(** *** Activation *)

(** The request passes the three validation steps of the route, with the
    values it carries. *)
Definition admitted (body : ActivateBody) (productId transactionId : string)
    (provider : Payment.Provider) (platform : Payment.Platform)
    (amountCents : Q) (currency : string) : Prop :=
  ab_productId body = Some productId /\ productId <> "" /\
  ab_transactionId body = Some transactionId /\ transactionId <> "" /\
  ab_provider body = Some provider /\ ab_platform body = Some platform /\
  ab_amountCents body = Some (JFinite amountCents) /\
  (0 <= amountCents)%Q /\
  ab_currency body = Some currency /\ currency <> "".

(** The plan the route settles on. *)
Definition activatePlan (productId : string) (declared : option Plan) : Plan :=
  if negb (bool_decide (planFromProductId (Some productId) = free))
  then planFromProductId (Some productId)
  else default free declared.

Definition activateExpiry (plan : Plan) (periodEnd : option Z) : option Z :=
  if bool_decide (plan = lifetime) then None else periodEnd.

(** The two operators of the ledger upsert. *)
Definition activateOnInsert (userId productId transactionId : string)
    (provider : Payment.Provider) (platform : Payment.Platform)
  : Payment.Patch RawBody :=
  {| Payment.p_userId := Value userId;
     Payment.p_platform := Value platform;
     Payment.p_provider := Value provider;
     Payment.p_productId := Value productId;
     Payment.p_transactionId := Value transactionId;
     Payment.p_originalTransactionId := NoKey;
     Payment.p_amountCents := NoKey;
     Payment.p_currency := NoKey;
     Payment.p_purchasedAt := NoKey;
     Payment.p_expiresAt := NoKey;
     Payment.p_rawPayload := NoKey |}.

Definition activateSet (amountCents : jsnum) (currency : string) (now : Z)
    (expiresAt : option Z) (body : ActivateBody) : Payment.Patch RawBody :=
  {| Payment.p_userId := NoKey;
     Payment.p_platform := NoKey;
     Payment.p_provider := NoKey;
     Payment.p_productId := NoKey;
     Payment.p_transactionId := NoKey;
     Payment.p_originalTransactionId := NoKey;
     Payment.p_amountCents := Value amountCents;
     Payment.p_currency := Value (toUpperCase currency);
     Payment.p_purchasedAt := Value now;
     Payment.p_expiresAt := ofOption expiresAt;
     Payment.p_rawPayload := Value (RawActivate body) |}.

(** The update of the subscription row. *)
Definition activateUpdate (plan : Plan) (provider : Payment.Provider)
    (now : Z) (expiresAt : option Z) (paymentId : option ObjectId) : Update :=
  {| set_plan := plan;
     set_status := active;
     set_source := subSourceFromProvider (Some provider);
     set_startedAt := Value now;
     set_renewsAt := ofOption expiresAt;
     set_canceledAt := Undefined;
     set_latestPaymentId := ofOption paymentId |}.

(** What [activate] does with an admitted request. *)
Lemma activate_admitted (userId : string) (now : Z) (body : ActivateBody)
    (db : Db) (productId transactionId : string)
    (provider : Payment.Provider) (platform : Payment.Platform)
    (amountCents : Q) (currency : string) :
  userId <> "" ->
  admitted body productId transactionId provider platform amountCents currency ->
  activate (Some userId) now body db =
  let plan := activatePlan productId (ab_plan body) in
  let expiresAt := activateExpiry plan (ab_periodEnd body) in
  let db1 :=
    PaymentModel_updateOne transactionId
      (activateOnInsert userId productId transactionId provider platform)
      (activateSet (JFinite amountCents) currency now expiresAt body) db in
  let r :=
    SubscriptionModel_findOneAndUpdate userId
      (activateUpdate plan provider now expiresAt
         (Payment._id <$> Payment.findOne transactionId (payments db1)))
      db1 in
  (r.1, Json (toClientShape (Some r.2))).
Proof.
  intros Hu (Hp & Hpne & Ht & Htne & Hpr & Hpl & Ha & Hq & Hc & Hcne).
  unfold activate.
  rewrite (proj2 (String.eqb_neq _ _) Hu), Hp, Ht, Hpr, Hpl.
  rewrite (proj2 (String.eqb_neq _ _) Hpne), (proj2 (String.eqb_neq _ _) Htne).
  cbn [orb]. rewrite Ha. cbn [isFinite negb orb ltZero].
  rewrite (proj2 (Qle_bool_iff _ _) Hq). cbn [negb].
  rewrite Hc, (proj2 (String.eqb_neq _ _) Hcne).
  reflexivity.
Qed.

(** Every request is turned away without a write, or is admitted. *)
Lemma activate_rejected_or_admitted (auth : option string) (now : Z)
    (body : ActivateBody) (db : Db) :
  (truthy auth = false /\
   activate auth now body db = (db, Error 401 "Unauthorized")) \/
  (truthy auth = true /\
   exists msg, activate auth now body db = (db, Error 400 msg)) \/
  (truthy auth = true /\
   exists productId transactionId provider platform amountCents currency,
     admitted body productId transactionId provider platform amountCents
       currency).
Proof.
  unfold activate. destruct auth as [userId|]; [| by left].
  cbn [truthy]. destruct (String.eqb_spec userId "") as [-> | Hu]; [by left |].
  right. cbn [negb].
  destruct (ab_productId body) as [pid|] eqn:Hp; [| left; eauto].
  destruct (ab_transactionId body) as [tid|] eqn:Ht; [| left; eauto].
  destruct (ab_provider body) as [prov|] eqn:Hpr; [| left; eauto].
  destruct (ab_platform body) as [plat|] eqn:Hpl; [| left; eauto].
  destruct (String.eqb_spec pid "") as [-> | Hpne]; [left; eauto |].
  destruct (String.eqb_spec tid "") as [-> | Htne]; [left; eauto |].
  cbn [orb].
  destruct (ab_amountCents body) as [[q| | |]|] eqn:Ha;
    cbn [isFinite negb orb ltZero]; try (left; by eauto).
  destruct (Qle_bool (0 # 1) q) eqn:Hq; cbn [negb]; [| left; by eauto].
  destruct (ab_currency body) as [cur|] eqn:Hc; [| left; eauto].
  destruct (String.eqb_spec cur "") as [-> | Hcne]; [left; eauto |].
  right. split; [done |].
  exists pid, tid, prov, plat, q, cur.
  apply Qle_bool_iff in Hq. by repeat split.
Qed.

(** A field the route finds missing: not sent, or the empty string. *)
Definition missing (s : option string) : Prop := s = None \/ s = Some "".

(** [amountCents] is a finite number that is not negative. *)
Definition validAmount (a : option jsnum) : Prop :=
  exists q, a = Some (JFinite q) /\ (0 <= q)%Q.

(** The requests the route must turn away. *)
Definition malformed (body : ActivateBody) : Prop :=
  missing (ab_productId body) \/ missing (ab_transactionId body) \/
  ab_provider body = None \/ ab_platform body = None \/
  ~ validAmount (ab_amountCents body) \/
  missing (ab_currency body).

Lemma malformed_not_admitted (body : ActivateBody) (productId transactionId : string)
    (provider : Payment.Provider) (platform : Payment.Platform)
    (amountCents : Q) (currency : string) :
  malformed body ->
  ~ admitted body productId transactionId provider platform amountCents currency.
Proof.
  intros Hbad (Hp & Hpne & Ht & Htne & Hpr & Hpl & Ha & Hq & Hc & Hcne).
  destruct Hbad as [[H|H] | [[H|H] | [H | [H | [H | [H|H]]]]]];
    try congruence.
  apply H. by exists amountCents.
Qed.

(** C8.  An activate request that lacks [productId], [transactionId],
    [provider] or [platform], whose [amountCents] is not a finite
    non-negative number, or whose [currency] is empty, leaves the ledger and
    the subscription state as they were; the identified caller gets status
    400.  (Without a verified identity the answer is 401, before the body is
    looked at.) *)
Theorem activate_rejects_malformed (auth : option string) (now : Z)
    (body : ActivateBody) (db : Db) :
  malformed body ->
  (activate auth now body db).1 = db /\
  (truthy auth = true ->
   exists msg, (activate auth now body db).2 = Error 400 msg) /\
  (truthy auth = false ->
   (activate auth now body db).2 = Error 401 "Unauthorized").
Proof.
  intros Hbad.
  destruct (activate_rejected_or_admitted auth now body db)
    as [[Ha ->] | [[Ha [msg ->]] | [Ha (pid & tid & prov & plat & q & cur & Hadm)]]].
  - repeat split; intros; first [congruence | done].
  - repeat split; intros; first [congruence | by eexists].
  - by destruct (malformed_not_admitted _ _ _ _ _ _ _ Hbad Hadm).
Qed.

End Routes.

(** ** The payment ledger *)

Section Ledger.
Context {Raw : Type}.
Implicit Types (c : list (Payment.Document Raw)) (d e : Payment.Document Raw).
Implicit Types (tid t : string) (p onInsert set : Payment.Patch Raw).

(** The number of ledger entries with a given transaction id. *)
Definition entries tid c : nat :=
  length (filter (fun d => Payment.transactionId d = tid) c).

(** The identity fields of a ledger entry. *)
Definition identity d
  : string * Payment.Platform * Payment.Provider * string :=
  (Payment.userId d, Payment.platform d, Payment.provider d,
   Payment.productId d).

(** The patch writes none of the identity fields nor the key. *)
Definition keepsIdentity p : Prop :=
  castUpdate (Payment.p_userId p) = None /\
  castUpdate (Payment.p_platform p) = None /\
  castUpdate (Payment.p_provider p) = None /\
  castUpdate (Payment.p_productId p) = None /\
  castUpdate (Payment.p_transactionId p) = None.

Lemma entries_nil tid : entries tid [] = 0.
Proof. reflexivity. Qed.

Lemma entries_cons tid d c :
  entries tid (d :: c) =
  if String.eqb (Payment.transactionId d) tid then S (entries tid c)
  else entries tid c.
Proof.
  unfold entries. rewrite filter_cons.
  destruct (String.eqb_spec (Payment.transactionId d) tid);
    by destruct (decide _).
Qed.

Lemma entries_app tid c c' :
  entries tid (c ++ c') = entries tid c + entries tid c'.
Proof. unfold entries. by rewrite filter_app, length_app. Qed.

Lemma findOne_None_entries tid c :
  Payment.findOne tid c = None <-> entries tid c = 0.
Proof.
  induction c as [|d c IH]; [done |].
  rewrite entries_cons. simpl.
  by destruct (String.eqb (Payment.transactionId d) tid).
Qed.

Lemma findOne_Some_tid tid c d :
  Payment.findOne tid c = Some d -> Payment.transactionId d = tid.
Proof.
  induction c as [|x c IH]; [done |]. simpl.
  destruct (String.eqb_spec (Payment.transactionId x) tid); [| done].
  by intros [= <-].
Qed.

Lemma findOne_app tid c c' :
  Payment.findOne tid (c ++ c') =
  match Payment.findOne tid c with
  | Some d => Some d
  | None => Payment.findOne tid c'
  end.
Proof.
  induction c as [|x c IH]; [done |]. simpl.
  by destruct (String.eqb (Payment.transactionId x) tid).
Qed.

Lemma updateFirst_None tid (f : Payment.Document Raw -> Payment.Document Raw) c :
  Payment.findOne tid c = None -> Payment.updateFirst tid f c = None.
Proof.
  induction c as [|x c IH]; [done |]. simpl.
  destruct (String.eqb (Payment.transactionId x) tid); [done |].
  intros H. by rewrite (IH H).
Qed.

Lemma updateFirst_Some tid (f : Payment.Document Raw -> Payment.Document Raw) c d :
  (forall x, Payment.transactionId (f x) = Payment.transactionId x) ->
  Payment.findOne tid c = Some d ->
  exists c',
    Payment.updateFirst tid f c = Some c' /\
    Payment.findOne tid c' = Some (f d) /\
    (forall t, entries t c' = entries t c) /\
    (forall t, t <> tid -> Payment.findOne t c' = Payment.findOne t c).
Proof.
  intros Hf. induction c as [|x c IH]; [done |]. simpl.
  destruct (String.eqb_spec (Payment.transactionId x) tid) as [Hx | Hx].
  - intros [= ->]. eexists. split; [reflexivity |]. repeat split.
    + simpl. rewrite Hf, Hx. by rewrite String.eqb_refl.
    + intros t. by rewrite !entries_cons, Hf.
    + intros t Ht. simpl. rewrite Hf, Hx.
      assert (tid <> t) as Ht' by congruence.
      by rewrite (proj2 (String.eqb_neq _ _) Ht').
  - intros H. destruct (IH H) as (c' & -> & Hfind & Hent & Hoth).
    eexists. split; [reflexivity |]. repeat split.
    + simpl. by rewrite (proj2 (String.eqb_neq _ _) Hx).
    + intros t. by rewrite !entries_cons, Hent.
    + intros t Ht. simpl. by rewrite (Hoth t Ht).
Qed.



Lemma applyPatch_transactionId p d :
  castUpdate (Payment.p_transactionId p) = None ->
  Payment.transactionId (Payment.applyPatch p d) = Payment.transactionId d.
Proof. intros H. simpl. unfold setReq. by rewrite H. Qed.

Lemma applyPatch_identity p d :
  keepsIdentity p -> identity (Payment.applyPatch p d) = identity d.
Proof.
  intros (H1 & H2 & H3 & H4 & _). unfold identity. simpl. unfold setReq.
  by rewrite H1, H2, H3, H4.
Qed.

Lemma noPatch_keepsIdentity : keepsIdentity (@Payment.noPatch Raw).
Proof. by repeat split. Qed.

Lemma insertDoc_transactionId oid tid onInsert set d :
  castUpdate (Payment.p_transactionId set) = None ->
  Payment.p_transactionId onInsert = Value tid ->
  Payment.insertDoc oid tid onInsert set = Some d ->
  Payment.transactionId d = tid.
Proof.
  intros Hs Ho. unfold Payment.insertDoc. rewrite Hs, Ho.
  intros H. simplify_option_eq. reflexivity.
Qed.

(** The upsert on a ledger that holds the transaction: the entry is patched
    in place. *)
Lemma updateOne_existing oid tid onInsert set c d :
  castUpdate (Payment.p_transactionId set) = None ->
  Payment.findOne tid c = Some d ->
  exists c',
    Payment.updateOne oid tid onInsert set c = (c', false) /\
    Payment.findOne tid c' = Some (Payment.applyPatch set d) /\
    (forall t, entries t c' = entries t c) /\
    (forall t, t <> tid -> Payment.findOne t c' = Payment.findOne t c).
Proof.
  intros Hs Hd. unfold Payment.updateOne.
  destruct (updateFirst_Some tid (Payment.applyPatch set) c d
              (fun x => applyPatch_transactionId set x Hs) Hd)
    as (c' & -> & H).
  by exists c'.
Qed.

(** The upsert on a ledger that does not hold the transaction: one entry is
    appended. *)
Lemma updateOne_absent oid tid onInsert set c d :
  Payment.findOne tid c = None ->
  Payment.insertDoc oid tid onInsert set = Some d ->
  Payment.updateOne oid tid onInsert set c = (c ++ [d], true).
Proof.
  intros Hn Hi. unfold Payment.updateOne.
  by rewrite (updateFirst_None _ _ _ Hn), Hi.
Qed.


End Ledger.

(** ** Activation and the declared plan *)

Section Activation.
Import Subscription SubscriptionRoute.

(** The request [body] with another caller-declared [plan]. *)
Definition withDeclaredPlan (declared : option Plan) (body : ActivateBody)
  : ActivateBody :=
  {| ab_plan := declared;
     ab_periodEnd := ab_periodEnd body;
     ab_amountCents := ab_amountCents body;
     ab_currency := ab_currency body;
     ab_productId := ab_productId body;
     ab_transactionId := ab_transactionId body;
     ab_platform := ab_platform body;
     ab_provider := ab_provider body |}.

Lemma admitted_withDeclaredPlan (declared : option Plan) (body : ActivateBody)
    (productId transactionId : string) (provider : Payment.Provider)
    (platform : Payment.Platform) (amountCents : Q) (currency : string) :
  admitted body productId transactionId provider platform amountCents currency ->
  admitted (withDeclaredPlan declared body) productId transactionId provider
    platform amountCents currency.
Proof. done. Qed.

Lemma insertDoc_activate (oid : ObjectId) (userId productId transactionId : string)
    (provider : Payment.Provider) (platform : Payment.Platform)
    (amountCents : jsnum) (currency : string) (now : Z) (expiresAt : option Z)
    (body : ActivateBody) :
  Payment.insertDoc oid transactionId
    (activateOnInsert userId productId transactionId provider platform)
    (activateSet amountCents currency now expiresAt body) =
  Some {| Payment._id := oid;
          Payment.userId := userId;
          Payment.platform := platform;
          Payment.provider := provider;
          Payment.productId := productId;
          Payment.transactionId := transactionId;
          Payment.originalTransactionId := None;
          Payment.amountCents := amountCents;
          Payment.currency := toUpperCase currency;
          Payment.purchasedAt := now;
          Payment.expiresAt := expiresAt;
          Payment.rawPayload := Some (RawActivate body) |}.
Proof. by destruct expiresAt. Qed.

(** The identifier of the ledger entry of [transactionId] after the upsert of
    [activate]: that of the entry already there, or the next free one. *)
Lemma activate_paymentId (userId productId transactionId : string)
    (provider : Payment.Provider) (platform : Payment.Platform)
    (amountCents : jsnum) (currency : string) (now : Z) (expiresAt : option Z)
    (body : ActivateBody) (db : Db) :
  Payment._id <$>
    Payment.findOne transactionId
      (payments
         (PaymentModel_updateOne transactionId
            (activateOnInsert userId productId transactionId provider platform)
            (activateSet amountCents currency now expiresAt body) db)) =
  Some (match Payment.findOne transactionId (payments db) with
        | Some d => Payment._id d
        | None => nextId db
        end).
Proof.
  unfold PaymentModel_updateOne.
  destruct (Payment.findOne transactionId (payments db)) as [d|] eqn:Hd.
  - destruct (updateOne_existing (nextId db) transactionId
                (activateOnInsert userId productId transactionId provider platform)
                (activateSet amountCents currency now expiresAt body)
                (payments db) d eq_refl Hd) as (c' & -> & Hfind & _).
    cbn [payments]. by rewrite Hfind.
  - rewrite (updateOne_absent _ _ _ _ _ _ Hd (insertDoc_activate _ _ _ _ _ _ _ _ _ _ _)).
    cbn [payments]. rewrite findOne_app, Hd. simpl.
    by rewrite String.eqb_refl.
Qed.

(** The subscription row and the response of an admitted request. *)
Lemma activate_row (userId : string) (now : Z) (body : ActivateBody)
    (db : Db) (productId transactionId : string)
    (provider : Payment.Provider) (platform : Payment.Platform)
    (amountCents : Q) (currency : string) :
  userId <> "" ->
  admitted body productId transactionId provider platform amountCents currency ->
  let plan := activatePlan productId (ab_plan body) in
  let expiresAt := activateExpiry plan (ab_periodEnd body) in
  let row :=
    applyUpdate
      (activateUpdate plan provider now expiresAt
         (Some (match Payment.findOne transactionId (payments db) with
                | Some d => Payment._id d
                | None => nextId db
                end)))
      (default (fresh userId) (subscriptions db !! userId)) in
  subscriptions (activate (Some userId) now body db).1 =
    <[userId := row]> (subscriptions db) /\
  (activate (Some userId) now body db).2 = Json (toClientShape (Some row)).
Proof.
  intros Hu Hadm. rewrite (activate_admitted _ _ _ _ _ _ _ _ _ _ Hu Hadm).
  cbv zeta. cbn [fst snd]. rewrite activate_paymentId.
  rewrite findOneAndUpdate_subscriptions, findOneAndUpdate_doc.
  rewrite updateOne_subscriptions.
  split; reflexivity.
Qed.

Lemma activatePlan_derived (productId : string) (declared : option Plan) :
  planFromProductId (Some productId) <> free ->
  activatePlan productId declared = planFromProductId (Some productId).
Proof.
  intros H. unfold activatePlan. by rewrite (bool_decide_eq_false_2 _ H).
Qed.

Lemma activatePlan_fallback (productId : string) (declared : option Plan) :
  planFromProductId (Some productId) = free ->
  activatePlan productId declared = default free declared.
Proof.
  intros H. unfold activatePlan. by rewrite (bool_decide_eq_true_2 _ H).
Qed.

(** *** Sample requests *)

Definition emptyDb : Db :=
  {| payments := []; subscriptions := ∅; nextId := 0 |}.

Definition sampleBody (productId : string) (transactionId : option string)
    (declared : option Plan) : ActivateBody :=
  {| ab_plan := declared;
     ab_periodEnd := Some 9000%Z;
     ab_amountCents := Some (JFinite (499 # 1));
     ab_currency := Some "usd";
     ab_productId := Some productId;
     ab_transactionId := transactionId;
     ab_platform := Some Payment.ios;
     ab_provider := Some Payment.app_store |}.

Lemma sampleBody_admitted (productId tid : string) (declared : option Plan) :
  productId <> "" -> tid <> "" ->
  admitted (sampleBody productId (Some tid) declared) productId tid
    Payment.app_store Payment.ios (499 # 1)%Q "usd".
Proof. intros Hp Ht. by repeat split. Qed.

Lemma activate_rejects_malformed_witness :
  (activate (Some "u1") 3000 (sampleBody "pkg.monthly" None None) emptyDb).1 =
    emptyDb /\
  (truthy (Some "u1") = true ->
   exists msg,
     (activate (Some "u1") 3000 (sampleBody "pkg.monthly" None None) emptyDb).2 =
     Error 400 msg) /\
  (truthy (Some "u1") = false ->
   (activate (Some "u1") 3000 (sampleBody "pkg.monthly" None None) emptyDb).2 =
   Error 401 "Unauthorized").
Proof.
  apply (activate_rejects_malformed (Some "u1") 3000
           (sampleBody "pkg.monthly" None None) emptyDb).
  right. left. left. reflexivity.
Defined.

(** *** The declared plan *)

(** C2, as stated, fails: a product id without a marker derives plan free, and
    the route then takes the plan the caller declares.  Two requests that
    differ in the declared plan alone end on different plans. *)
Lemma declared_plan_decides_without_marker :
  planFromProductId (Some "pkg.basic") = free /\
  (activate (Some "u1") 3000
     (sampleBody "pkg.basic" (Some "t1") (Some lifetime)) emptyDb).2 =
    Json {| c_plan := lifetime; c_status := active; autoRenew := false;
            periodEnd := None; storageLimitGb := Some 10%nat |} /\
  (activate (Some "u1") 3000
     (sampleBody "pkg.basic" (Some "t1") (Some free)) emptyDb).2 =
    Json {| c_plan := free; c_status := active; autoRenew := false;
            periodEnd := Some 9000%Z; storageLimitGb := None |}.
Proof. repeat split; vm_compute; reflexivity. Qed.

(** C2, amended.  When the product id of an admitted request derives a plan
    other than free, the row and the response carry the derived plan and do
    not depend on the declared plan; when it derives free, they carry the
    declared plan, or free when none is declared. *)
Theorem activate_plan_from_product (userId : string) (now : Z)
    (body : ActivateBody) (db : Db) (productId transactionId : string)
    (provider : Payment.Provider) (platform : Payment.Platform)
    (amountCents : Q) (currency : string) :
  userId <> "" ->
  admitted body productId transactionId provider platform amountCents currency ->
  let r := activate (Some userId) now body db in
  (planFromProductId (Some productId) <> free ->
   (exists row, subscriptions r.1 !! userId = Some row /\
                plan row = planFromProductId (Some productId) /\
                r.2 = Json (toClientShape (Some row))) /\
   forall declared,
     let r' := activate (Some userId) now (withDeclaredPlan declared body) db in
     subscriptions r'.1 = subscriptions r.1 /\ r'.2 = r.2) /\
  (planFromProductId (Some productId) = free ->
   exists row, subscriptions r.1 !! userId = Some row /\
               plan row = default free (ab_plan body) /\
               r.2 = Json (toClientShape (Some row))).
Proof.
  intros Hu Hadm r. subst r.
  destruct (activate_row _ now _ db _ _ _ _ _ _ Hu Hadm) as [Hs Hr].
  cbv zeta in Hs, Hr. rewrite Hs, Hr. split.
  - intros Hd. split.
    + eexists. split; [apply lookup_insert_eq |]. split; [| reflexivity].
      cbn [applyUpdate plan activateUpdate set_plan].
      by apply activatePlan_derived.
    + intros declared r'. subst r'.
      destruct (activate_row _ now _ db _ _ _ _ _ _ Hu
                  (admitted_withDeclaredPlan declared _ _ _ _ _ _ _ Hadm))
        as [Hs' Hr'].
      cbv zeta in Hs', Hr'. rewrite Hs', Hr'.
      cbn [withDeclaredPlan ab_plan ab_periodEnd].
      by rewrite !(activatePlan_derived _ _ Hd).
  - intros Hf. eexists. split; [apply lookup_insert_eq |].
    split; [| reflexivity].
    cbn [applyUpdate plan activateUpdate set_plan].
    by apply activatePlan_fallback.
Qed.

Lemma activate_plan_from_product_witness :
  let body := sampleBody "pkg.yearly" (Some "t1") (Some free) in
  let r := activate (Some "u1") 3000 body emptyDb in
  (planFromProductId (Some "pkg.yearly") <> free ->
   (exists row, subscriptions r.1 !! "u1" = Some row /\
                plan row = planFromProductId (Some "pkg.yearly") /\
                r.2 = Json (toClientShape (Some row))) /\
   forall declared,
     let r' := activate (Some "u1") 3000 (withDeclaredPlan declared body) emptyDb in
     subscriptions r'.1 = subscriptions r.1 /\ r'.2 = r.2) /\
  (planFromProductId (Some "pkg.yearly") = free ->
   exists row, subscriptions r.1 !! "u1" = Some row /\
               plan row = default free (ab_plan body) /\
               r.2 = Json (toClientShape (Some row))).
Proof.
  apply (activate_plan_from_product "u1" 3000
           (sampleBody "pkg.yearly" (Some "t1") (Some free)) emptyDb
           "pkg.yearly" "t1" Payment.app_store Payment.ios (499 # 1)%Q "usd").
  - discriminate.
  - apply sampleBody_admitted; discriminate.
Defined.

(** *** The order of the markers *)

(** C7, as stated, fails: [.monthly] is looked for first, so a product id
    that contains [.yearly] after [.monthly] derives monthly; with the
    declared plan free the activated row is monthly as well. *)
Lemma yearly_marker_after_monthly :
  includes "pkg.monthly.yearly" ".yearly" = true /\
  planFromProductId (Some "pkg.monthly.yearly") = monthly /\
  (activate (Some "u1") 3000
     (sampleBody "pkg.monthly.yearly" (Some "t1") (Some free)) emptyDb).2 =
    Json {| c_plan := monthly; c_status := active; autoRenew := true;
            periodEnd := Some 9000%Z; storageLimitGb := None |}.
Proof. repeat split; vm_compute; reflexivity. Qed.

(** C7, amended.  A product id that contains [.yearly] and does not contain
    [.monthly] derives yearly, and an admitted request with such a product id
    is activated on yearly even when it declares plan free.  The markers are
    tried in the order [.monthly], [.yearly], [.lifetime] and the first one
    found decides; a product id without marker, and a missing product id,
    derive free. *)
Theorem planFromProductId_first_match :
  (forall p, contains ".monthly" p -> planFromProductId (Some p) = monthly) /\
  (forall p, contains ".yearly" p -> ~ contains ".monthly" p ->
             planFromProductId (Some p) = yearly) /\
  (forall p, contains ".lifetime" p -> ~ contains ".monthly" p ->
             ~ contains ".yearly" p ->
             planFromProductId (Some p) = lifetime) /\
  (forall p, ~ contains ".monthly" p -> ~ contains ".yearly" p ->
             ~ contains ".lifetime" p ->
             planFromProductId (Some p) = free) /\
  planFromProductId None = free /\
  (forall userId now body db productId transactionId provider platform
          amountCents currency,
      userId <> "" ->
      admitted body productId transactionId provider platform amountCents
        currency ->
      contains ".yearly" productId -> ~ contains ".monthly" productId ->
      ab_plan body = Some free ->
      exists row,
        subscriptions (activate (Some userId) now body db).1 !! userId =
          Some row /\
        plan row = yearly /\
        (activate (Some userId) now body db).2 =
          Json (toClientShape (Some row))).
Proof.
  split; [exact planFromProductId_monthly |].
  split; [exact planFromProductId_yearly |].
  split; [exact planFromProductId_lifetime |].
  split; [exact planFromProductId_free |].
  split; [reflexivity |].
  intros userId now body db productId transactionId provider platform
    amountCents currency Hu Hadm Hy Hm _.
  destruct (activate_row _ now _ db _ _ _ _ _ _ Hu Hadm) as [Hs Hr].
  cbv zeta in Hs, Hr. rewrite Hs, Hr.
  eexists. split; [apply lookup_insert_eq |]. split; [| reflexivity].
  cbn [applyUpdate plan activateUpdate set_plan].
  rewrite activatePlan_derived; rewrite (planFromProductId_yearly _ Hy Hm); done.
Qed.

Lemma planFromProductId_first_match_witness :
  planFromProductId (Some "pkg.monthly.yearly") = monthly /\
  planFromProductId (Some "pkg.yearly") = yearly /\
  exists row,
    subscriptions
      (activate (Some "u1") 3000
         (sampleBody "pkg.yearly" (Some "t1") (Some free)) emptyDb).1 !! "u1" =
      Some row /\
    plan row = yearly /\
    (activate (Some "u1") 3000
       (sampleBody "pkg.yearly" (Some "t1") (Some free)) emptyDb).2 =
      Json (toClientShape (Some row)).
Proof.
  split; [| split].
  - apply (proj1 planFromProductId_first_match).
    apply includes_true_iff. reflexivity.
  - apply (proj1 (proj2 planFromProductId_first_match)).
    + apply includes_true_iff. reflexivity.
    + apply includes_false_iff. reflexivity.
  - apply (proj2 (proj2 (proj2 (proj2 (proj2 planFromProductId_first_match))))
             "u1" 3000%Z (sampleBody "pkg.yearly" (Some "t1") (Some free))
             emptyDb "pkg.yearly" "t1" Payment.app_store Payment.ios
             (499 # 1)%Q "usd").
    + discriminate.
    + apply sampleBody_admitted; discriminate.
    + apply includes_true_iff. reflexivity.
    + apply includes_false_iff. reflexivity.
    + reflexivity.
Defined.

(** *** Resuming auto-renew *)

Lemma resumeAutoRenew_found (userId : string) (db : Db) (old : Document) :
  userId <> "" ->
  subscriptions db !! userId = Some old ->
  resumeAutoRenew (Some userId) db =
  (SubscriptionModel_save userId (withCanceledAt None (withStatus active old)) db,
   Json (toClientShape (Some (withCanceledAt None (withStatus active old))))).
Proof.
  intros Hu Hold. unfold resumeAutoRenew.
  by rewrite (proj2 (String.eqb_neq _ _) Hu), Hold.
Qed.

Lemma save_row (userId : string) (d : Document) (db : Db) :
  subscriptions (SubscriptionModel_save userId d db) !! userId = Some d.
Proof. apply lookup_insert_eq. Qed.

Lemma switchToFree_row (userId : string) (now : Z) (db : Db) :
  userId <> "" ->
  exists freed,
    (switchToFree (Some userId) now db).1 =
      SubscriptionModel_save userId freed db /\
    plan freed = free /\ status freed = inactive /\
    renewsAt freed = None /\ canceledAt freed = Some now.
Proof.
  intros Hu. unfold switchToFree. rewrite (proj2 (String.eqb_neq _ _) Hu).
  cbn [fst]. eexists. split; [reflexivity |].
  by destruct (subscriptions db !! userId).
Qed.

(** C10.  [resume-auto-renew] looks at no field of the row it finds: the row
    comes back with status active and no [canceledAt], and with its plan,
    [renewsAt] and source as they were.  After [switch-to-free] the row is on
    plan free, and resuming leaves the user active on plan free. *)
Theorem resumeAutoRenew_any_plan (userId : string) (now : Z) (db : Db) :
  userId <> "" ->
  (forall old,
     subscriptions db !! userId = Some old ->
     exists row,
       subscriptions (resumeAutoRenew (Some userId) db).1 !! userId = Some row /\
       (resumeAutoRenew (Some userId) db).2 = Json (toClientShape (Some row)) /\
       status row = active /\ canceledAt row = None /\
       plan row = plan old /\ renewsAt row = renewsAt old /\
       source row = source old) /\
  (exists freed row,
     subscriptions (switchToFree (Some userId) now db).1 !! userId =
       Some freed /\
     plan freed = free /\ status freed = inactive /\
     subscriptions
       (resumeAutoRenew (Some userId)
          (switchToFree (Some userId) now db).1).1 !! userId = Some row /\
     (resumeAutoRenew (Some userId)
        (switchToFree (Some userId) now db).1).2 =
       Json (toClientShape (Some row)) /\
     plan row = free /\ status row = active /\ canceledAt row = None).
Proof.
  intros Hu. split.
  - intros old Hold. rewrite (resumeAutoRenew_found _ _ _ Hu Hold).
    cbn [fst snd]. eexists. split; [apply save_row |]. by repeat split.
  - destruct (switchToFree_row userId now db Hu)
      as (freed & -> & Hplan & Hstatus & _).
    exists freed. eexists. split; [apply save_row |].
    split; [done |]. split; [done |].
    rewrite (resumeAutoRenew_found _ _ _ Hu (save_row _ _ _)). cbn [fst snd].
    split; [apply save_row |]. by repeat split.
Qed.

Lemma resumeAutoRenew_any_plan_witness :
  (forall old,
     subscriptions (dbWith canceledRow) !! "u1" = Some old ->
     exists row,
       subscriptions (resumeAutoRenew (Some "u1") (dbWith canceledRow)).1 !! "u1" =
         Some row /\
       (resumeAutoRenew (Some "u1") (dbWith canceledRow)).2 =
         Json (toClientShape (Some row)) /\
       status row = active /\ canceledAt row = None /\
       plan row = plan old /\ renewsAt row = renewsAt old /\
       source row = source old) /\
  (exists freed row,
     subscriptions (switchToFree (Some "u1") 3000 (dbWith canceledRow)).1 !! "u1" =
       Some freed /\
     plan freed = free /\ status freed = inactive /\
     subscriptions
       (resumeAutoRenew (Some "u1")
          (switchToFree (Some "u1") 3000 (dbWith canceledRow)).1).1 !! "u1" =
       Some row /\
     (resumeAutoRenew (Some "u1")
        (switchToFree (Some "u1") 3000 (dbWith canceledRow)).1).2 =
       Json (toClientShape (Some row)) /\
     plan row = free /\ status row = active /\ canceledAt row = None).
Proof.
  apply (resumeAutoRenew_any_plan "u1" 3000 (dbWith canceledRow)).
  discriminate.
Defined.

(** Without a row, [resume-auto-renew] answers 404 and creates none. *)
Lemma resumeAutoRenew_not_found (userId : string) (db : Db) :
  userId <> "" ->
  subscriptions db !! userId = None ->
  resumeAutoRenew (Some userId) db = (db, Error 404 "Subscription not found").
Proof.
  intros Hu Hnone. unfold resumeAutoRenew.
  by rewrite (proj2 (String.eqb_neq _ _) Hu), Hnone.
Qed.

End Activation.

(** ** Ledger writes of the two routes *)

Section LedgerWrites.
Import Subscription.

(** The [$setOnInsert] operator of the webhook's ledger upsert. *)
Definition webhookOnInsert (now : Z) (body : WebhookBody) (ev : RcEvent)
    (userId tid : string) : Payment.Patch RawBody :=
  let provider := RevenuecatWebhook.providerFromStore (store ev) in
  {| Payment.p_userId := Value userId;
     Payment.p_platform := Value (RevenuecatWebhook.platformOfProvider provider);
     Payment.p_provider := Value provider;
     Payment.p_productId := Value (default "unknown" (product_id ev));
     Payment.p_transactionId := Value tid;
     Payment.p_originalTransactionId := ofOption (original_transaction_id ev);
     Payment.p_amountCents := Value (JFinite (0 # 1));
     Payment.p_currency := Value (default "USD" (ev_currency ev));
     Payment.p_purchasedAt :=
       Value (default now (dateIfTruthy (purchased_at_ms ev)));
     Payment.p_expiresAt := ofOption (dateIfTruthy (expiration_at_ms ev));
     Payment.p_rawPayload := Value (RawWebhook body) |}.

(** The ledger entry a purchase-like event inserts. *)
Definition webhookEntry (oid : ObjectId) (now : Z) (body : WebhookBody)
    (ev : RcEvent) (userId tid : string) : Payment.Document RawBody :=
  let provider := RevenuecatWebhook.providerFromStore (store ev) in
  {| Payment._id := oid;
     Payment.userId := userId;
     Payment.platform := RevenuecatWebhook.platformOfProvider provider;
     Payment.provider := provider;
     Payment.productId := default "unknown" (product_id ev);
     Payment.transactionId := tid;
     Payment.originalTransactionId := original_transaction_id ev;
     Payment.amountCents := JFinite (0 # 1);
     Payment.currency := default "USD" (ev_currency ev);
     Payment.purchasedAt := default now (dateIfTruthy (purchased_at_ms ev));
     Payment.expiresAt := dateIfTruthy (expiration_at_ms ev);
     Payment.rawPayload := Some (RawWebhook body) |}.




Lemma updateOne_payments (tid : string) (onInsert set : Payment.Patch RawBody)
    (db : Db) :
  payments (PaymentModel_updateOne tid onInsert set db) =
  (Payment.updateOne (nextId db) tid onInsert set (payments db)).1.
Proof.
  unfold PaymentModel_updateOne.
  by destruct (Payment.updateOne _ _ _ _ _) as [c inserted].
Qed.

Lemma activateSet_keepsIdentity (amountCents : jsnum) (currency : string)
    (now : Z) (expiresAt : option Z) (body : ActivateBody) :
  keepsIdentity (activateSet amountCents currency now expiresAt body).
Proof. by repeat split. Qed.

(** The ledger after an admitted [activate]. *)
Lemma activate_payments (userId : string) (now : Z) (body : ActivateBody)
    (db : Db) (productId transactionId : string)
    (provider : Payment.Provider) (platform : Payment.Platform)
    (amountCents : Q) (currency : string) :
  userId <> "" ->
  admitted body productId transactionId provider platform amountCents currency ->
  payments (SubscriptionRoute.activate (Some userId) now body db).1 =
  (Payment.updateOne (nextId db) transactionId
     (activateOnInsert userId productId transactionId provider platform)
     (activateSet (JFinite amountCents) currency now
        (activateExpiry (activatePlan productId (ab_plan body))
           (ab_periodEnd body)) body)
     (payments db)).1.
Proof.
  intros Hu Hadm. rewrite (activate_admitted _ _ _ _ _ _ _ _ _ _ Hu Hadm).
  cbv zeta. cbn [fst]. by rewrite findOneAndUpdate_payments, updateOne_payments.
Qed.


(** *** First insert and redelivery *)

(** The ledger after the first webhook delivery of transaction [t1]. *)
Definition firstDelivery : WebhookBody :=
  purchaseEvent "INITIAL_PURCHASE" (Some "t1") (Some "USD")
    (Some 1000%Z) (Some 2000%Z).

Definition firstEntry : Payment.Document RawBody :=
  webhookEntry 0 1100 firstDelivery
    (purchaseRcEvent "INITIAL_PURCHASE" (Some "t1") (Some "USD")
       (Some 1000%Z) (Some 2000%Z)) "u1" "t1".

Definition dbAfterFirst : Db :=
  {| payments := [firstEntry]; subscriptions := ∅; nextId := 1 |}.

End LedgerWrites.

(** ** Deliveries and replay *)

Section Replay.
Import Subscription.

(** A request that reaches one of the two write paths. *)
Inductive Delivery : Type :=
  | ToWebhook (authorization : option string) (now : Z) (body : WebhookBody)
  | ToActivate (auth : option string) (now : Z) (body : ActivateBody).

(** The datastore after a delivery; [expected] is the configured webhook
    secret. *)
Definition deliver (expected : option string) (dl : Delivery) (db : Db) : Db :=
  match dl with
  | ToWebhook authorization now body =>
      (RevenuecatWebhook.post expected authorization now body db).1
  | ToActivate auth now body =>
      (SubscriptionRoute.activate auth now body db).1
  end.

(** The datastore after a sequence of deliveries, in order. *)
Definition run (expected : option string) (ds : list Delivery) (db : Db) : Db :=
  foldl (fun db dl => deliver expected dl db) db ds.


(** Whatever a request to the webhook is, its ledger write, if any, is an
    upsert with the operators of [webhookOnInsert] and no [$set]. *)
Lemma post_payments_cases (expected authorization : option string) (now : Z)
    (body : WebhookBody) (db : Db) :
  payments (RevenuecatWebhook.post expected authorization now body db).1 =
    payments db \/
  exists ev userId tid,
    payments (RevenuecatWebhook.post expected authorization now body db).1 =
    (Payment.updateOne (nextId db) tid (webhookOnInsert now body ev userId tid)
       Payment.noPatch (payments db)).1.
Proof.
  unfold RevenuecatWebhook.post.
  destruct (_ && _); [by left |].
  destruct (event body) as [ev|]; [| by left].
  destruct (negb _); [by left |].
  destruct (app_user_id ev) as [userId|]; [| by left].
  destruct (String.eqb userId ""); [by left |]. cbv zeta.
  destruct (RevenuecatWebhook.isPurchaseLike _).
  - cbn [fst]. rewrite findOneAndUpdate_payments.
    destruct (transaction_id ev) as [tid|]; [| by left].
    destruct (String.eqb tid ""); [by left |].
    right. exists ev, userId, tid. apply updateOne_payments.
  - left.
    destruct (RevenuecatWebhook.looksLikeRefund _ _); [done |].
    destruct (String.eqb _ "CANCELLATION"); [done |].
    by destruct (String.eqb _ "EXPIRATION").
Qed.

(** Whatever a request to [activate] is, its ledger write, if any, is an
    upsert whose [$set] leaves the identity fields alone. *)
Lemma activate_payments_cases (auth : option string) (now : Z)
    (body : ActivateBody) (db : Db) :
  payments (SubscriptionRoute.activate auth now body db).1 = payments db \/
  exists tid onInsert set,
    Payment.p_transactionId onInsert = Value tid /\
    keepsIdentity set /\
    payments (SubscriptionRoute.activate auth now body db).1 =
    (Payment.updateOne (nextId db) tid onInsert set (payments db)).1.
Proof.
  destruct (activate_rejected_or_admitted auth now body db)
    as [[_ ->] | [[_ [msg ->]] |
        [Ha (pid & tid & prov & plat & q & cur & Hadm)]]];
    [by left | by left |].
  right. destruct auth as [userId|]; [| done].
  assert (userId <> "") as Hu.
  { intros ->. discriminate Ha. }
  eexists _, _, _. split; [| split; [| apply (activate_payments _ _ _ _ _ _ _ _ _ _ Hu Hadm)]].
  - reflexivity.
  - apply activateSet_keepsIdentity.
Qed.











(** Three deliveries of transaction [t1]: by webhook, by [activate] with
    other identity fields, and by webhook again.  One entry, identified as
    the webhook delivered it first, with the amount and currency of the
    [activate] call. *)
Example run_three_deliveries :
  let first :=
    purchaseEvent "INITIAL_PURCHASE" (Some "t1") None (Some 1000%Z)
      (Some 2000%Z) in
  let body :=
    {| ab_plan := None; ab_periodEnd := Some 9000%Z;
       ab_amountCents := Some (JFinite (499 # 1)); ab_currency := Some "eur";
       ab_productId := Some "pkg.yearly"; ab_transactionId := Some "t1";
       ab_platform := Some Payment.android;
       ab_provider := Some Payment.google_play |} in
  payments
    (run None
       [ToWebhook None 1100 first; ToActivate (Some "u2") 1200 body;
        ToWebhook None 1300 first] emptyDb) =
  [ {| Payment._id := 0;
       Payment.userId := "u1";
       Payment.platform := Payment.ios;
       Payment.provider := Payment.app_store;
       Payment.productId := "pkg.monthly";
       Payment.transactionId := "t1";
       Payment.originalTransactionId := None;
       Payment.amountCents := JFinite (499 # 1);
       Payment.currency := "EUR";
       Payment.purchasedAt := 1200;
       Payment.expiresAt := Some 9000%Z;
       Payment.rawPayload := Some (RawActivate body) |} ].
Proof. vm_compute. reflexivity. Qed.

End Replay.

(** * Further properties of the routes *)

(** ** The webhook: requests that write nothing, and untouched rows *)

Section WebhookGuards.
Import Subscription RevenuecatWebhook.

(** The user an event names. *)
Definition eventUser (body : WebhookBody) : option string :=
  event body ≫= app_user_id.

(** A request is applied when the webhook answers with one of the four
    markers of a written row. *)
Definition applied (r : Reply) : Prop :=
  r = Ok \/ r = Revoked \/ r = Canceled \/ r = Expired.

Lemma post_applied_or_same (expected authorization : option string)
    (now : Z) (body : WebhookBody) (db : Db) :
  applied (post expected authorization now body db).2 \/
  (post expected authorization now body db).1 = db.
Proof.
  unfold post, applied.
  repeat case_match; cbn [fst snd]; auto.
Qed.

Lemma post_ledger_only_ok (expected authorization : option string)
    (now : Z) (body : WebhookBody) (db : Db) :
  (post expected authorization now body db).2 <> Ok ->
  payments (post expected authorization now body db).1 = payments db /\
  nextId (post expected authorization now body db).1 = nextId db.
Proof.
  unfold post.
  destruct (_ && _); [done |].
  destruct (event body) as [ev|]; [| done].
  destruct (negb _); [done |].
  destruct (app_user_id ev) as [userId|]; [| done].
  destruct (String.eqb userId ""); [done |]. cbv zeta.
  destruct (isPurchaseLike _); [by intros [] |].
  destruct (looksLikeRefund _ _); [done |].
  destruct (String.eqb _ "CANCELLATION"); [done |].
  by destruct (String.eqb _ "EXPIRATION").
Qed.

Lemma post_other_rows (expected authorization : option string)
    (now : Z) (body : WebhookBody) (db : Db) (uid : string) :
  eventUser body <> Some uid ->
  subscriptions (post expected authorization now body db).1 !! uid =
  subscriptions db !! uid.
Proof.
  unfold post, eventUser. intros Hne.
  destruct (_ && _); [done |].
  destruct (event body) as [ev|]; [| done].
  destruct (negb _); [done |].
  cbn [mbind option_bind] in Hne.
  destruct (app_user_id ev) as [userId|]; [| done].
  destruct (String.eqb userId ""); [done |]. cbv zeta.
  assert (userId <> uid) as Hu by congruence.
  destruct (isPurchaseLike _).
  - cbn [fst]. rewrite (findOneAndUpdate_other _ _ _ _ Hu).
    destruct (transaction_id ev) as [tid|]; [| done].
    destruct (String.eqb tid ""); [done |]. by rewrite updateOne_subscriptions.
  - destruct (looksLikeRefund _ _);
      [cbn [fst]; by apply findOneAndUpdate_other |].
    destruct (String.eqb _ "CANCELLATION");
      [cbn [fst]; by apply findOneAndUpdate_other |].
    destruct (String.eqb _ "EXPIRATION");
      [cbn [fst]; by apply findOneAndUpdate_other | done].
Qed.

Lemma post_missing_event (expected authorization : option string)
    (now : Z) (body : WebhookBody) (db : Db) :
  authorized expected authorization ->
  (forall ev, event body = Some ev -> truthy (type ev) = false) ->
  post expected authorization now body db = (db, MissingEvent).
Proof.
  intros Ha Hev. unfold post. rewrite (authorized_check _ _ Ha).
  destruct (event body) as [ev|]; [| done].
  by rewrite (Hev ev eq_refl).
Qed.

(** The webhook writes only when it applies an event: every other answer
    (401, 400, skipped, ignored) leaves the datastore as it was; the ledger is
    written by no answer but [{ ok: true }]; and whatever the request, the
    rows of all users other than the one the event names stay as they were.
    An authorized body without event, or with an event without type, is
    answered 400. *)
Theorem post_writes_only_when_applied (expected authorization : option string)
    (now : Z) (body : WebhookBody) (db : Db) :
  let r := post expected authorization now body db in
  (applied r.2 \/ r.1 = db) /\
  (r.2 <> Ok -> payments r.1 = payments db /\ nextId r.1 = nextId db) /\
  (forall uid, eventUser body <> Some uid ->
               subscriptions r.1 !! uid = subscriptions db !! uid) /\
  (authorized expected authorization ->
   (forall ev, event body = Some ev -> truthy (type ev) = false) ->
   r = (db, MissingEvent) /\ statusCode r.2 = 400).
Proof.
  cbv zeta. split; [apply post_applied_or_same |].
  split; [apply post_ledger_only_ok |].
  split; [intros uid; apply post_other_rows |].
  intros Ha Hev. by rewrite (post_missing_event _ _ _ _ _ Ha Hev).
Qed.

(** *** Provider inference *)

Lemma lowerChar_upperChar (c : ascii) : lowerChar (upperChar c) = lowerChar c.
Proof. by destruct c as [[] [] [] [] [] [] [] []]. Qed.

Lemma toLowerCase_toUpperCase (s : string) :
  toLowerCase (toUpperCase s) = toLowerCase s.
Proof.
  unfold toLowerCase, toUpperCase.
  induction s as [|c s IH]; [done |]. simpl. by rewrite lowerChar_upperChar, IH.
Qed.

Lemma providerFromStore_lower (s : string) :
  providerFromStore (Some s) =
  let l := toLowerCase s in
  if includes l "play" || includes l "google" then Payment.google_play
  else if includes l "app_store" || includes l "apple" || includes l "ios"
       then Payment.app_store
  else if includes l "stripe" then Payment.stripe
  else Payment.promo.
Proof. by destruct s. Qed.

(** The provider is read off the lower-cased store name, first match in the
    order play/google, app_store/apple/ios, stripe; any other name, the empty
    name and a missing name give promo.  The case of the letters of the name
    does not matter. *)
Theorem providerFromStore_order :
  (forall s, contains "play" (toLowerCase s) \/ contains "google" (toLowerCase s) ->
             providerFromStore (Some s) = Payment.google_play) /\
  (forall s, ~ contains "play" (toLowerCase s) ->
             ~ contains "google" (toLowerCase s) ->
             contains "app_store" (toLowerCase s) \/
             contains "apple" (toLowerCase s) \/
             contains "ios" (toLowerCase s) ->
             providerFromStore (Some s) = Payment.app_store) /\
  (forall s, ~ contains "play" (toLowerCase s) ->
             ~ contains "google" (toLowerCase s) ->
             ~ contains "app_store" (toLowerCase s) ->
             ~ contains "apple" (toLowerCase s) ->
             ~ contains "ios" (toLowerCase s) ->
             providerFromStore (Some s) =
               if includes (toLowerCase s) "stripe" then Payment.stripe
               else Payment.promo) /\
  providerFromStore None = Payment.promo /\
  providerFromStore (Some "") = Payment.promo /\
  (forall s, providerFromStore (Some (toUpperCase s)) =
             providerFromStore (Some s)).
Proof.
  repeat apply conj.
  - intros s H. rewrite providerFromStore_lower. cbv zeta.
    destruct H as [H | H]; apply includes_true_iff in H; rewrite H;
      [done | by rewrite orb_true_r].
  - intros s Hp Hg H. rewrite providerFromStore_lower. cbv zeta.
    rewrite (proj2 (includes_false_iff _ _) Hp),
            (proj2 (includes_false_iff _ _) Hg). cbn [orb].
    destruct H as [H | [H | H]]; apply includes_true_iff in H; rewrite H;
      [done | by rewrite orb_true_r | by rewrite !orb_true_r].
  - intros s Hp Hg Ha Hb Hi. rewrite providerFromStore_lower. cbv zeta.
    by rewrite (proj2 (includes_false_iff _ _) Hp),
               (proj2 (includes_false_iff _ _) Hg),
               (proj2 (includes_false_iff _ _) Ha),
               (proj2 (includes_false_iff _ _) Hb),
               (proj2 (includes_false_iff _ _) Hi).
  - reflexivity.
  - reflexivity.
  - intros s. by rewrite !providerFromStore_lower, toLowerCase_toUpperCase.
Qed.

Lemma providerFromStore_order_witness :
  providerFromStore (Some "PLAY_STORE") = Payment.google_play /\
  providerFromStore (Some "Apple Pay") = Payment.app_store.
Proof.
  split.
  - apply (proj1 providerFromStore_order). left.
    apply includes_true_iff. reflexivity.
  - apply (proj1 (proj2 providerFromStore_order)).
    + apply includes_false_iff. reflexivity.
    + apply includes_false_iff. reflexivity.
    + right. left. apply includes_true_iff. reflexivity.
Defined.

End WebhookGuards.

(** ** The subscription routes: cancel, switch to free, and what is left alone *)

Section RouteBehaviour.
Import Subscription SubscriptionRoute.

Lemma cancelAutoRenew_found (userId : string) (now : Z)
    (bodyPeriodEnd : option Z) (db : Db) (old : Document) :
  userId <> "" ->
  subscriptions db !! userId = Some old ->
  cancelAutoRenew (Some userId) now bodyPeriodEnd db =
  let row :=
    withCanceledAt (Some now)
      (withStatus canceled
         (match bodyPeriodEnd with
          | Some ms => withRenewsAt (Some ms) old
          | None => old
          end)) in
  (SubscriptionModel_save userId row db, Json (toClientShape (Some row))).
Proof.
  intros Hu Hold. unfold cancelAutoRenew.
  by rewrite (proj2 (String.eqb_neq _ _) Hu), Hold.
Qed.

(** [cancel-auto-renew] on a stored row sets status canceled and [canceledAt]
    to the clock, takes [renewsAt] from a numeric [periodEnd] of the body and
    keeps it otherwise, and leaves plan, source, [startedAt],
    [latestPaymentId] and the ledger alone; the response never shows
    [autoRenew].  Without a stored row the answer is 404 and nothing is
    written. *)
Theorem cancelAutoRenew_result (userId : string) (now : Z)
    (bodyPeriodEnd : option Z) (db : Db) :
  userId <> "" ->
  (forall old,
      subscriptions db !! userId = Some old ->
      let r := cancelAutoRenew (Some userId) now bodyPeriodEnd db in
      payments r.1 = payments db /\
      exists row,
        subscriptions r.1 !! userId = Some row /\
        r.2 = Json (toClientShape (Some row)) /\
        status row = canceled /\ canceledAt row = Some now /\
        renewsAt row =
          match bodyPeriodEnd with
          | Some ms => Some ms
          | None => renewsAt old
          end /\
        plan row = plan old /\ source row = source old /\
        startedAt row = startedAt old /\
        latestPaymentId row = latestPaymentId old /\
        autoRenew (toClientShape (Some row)) = false) /\
  (subscriptions db !! userId = None ->
   cancelAutoRenew (Some userId) now bodyPeriodEnd db =
   (db, Error 404 "Subscription not found")).
Proof.
  intros Hu. split.
  - intros old Hold r. subst r.
    rewrite (cancelAutoRenew_found _ _ _ _ _ Hu Hold). cbv zeta. cbn [fst snd].
    split; [done |]. eexists. split; [apply save_row |].
    split; [done |]. destruct bodyPeriodEnd; repeat split;
      cbn; by rewrite !andb_false_r.
  - intros Hnone. unfold cancelAutoRenew.
    by rewrite (proj2 (String.eqb_neq _ _) Hu), Hnone.
Qed.

Lemma cancelAutoRenew_result_witness :
  (forall old,
      subscriptions (dbWith monthlyRow) !! "u1" = Some old ->
      let r := cancelAutoRenew (Some "u1") 3000 (Some 2500%Z)
                 (dbWith monthlyRow) in
      payments r.1 = payments (dbWith monthlyRow) /\
      exists row,
        subscriptions r.1 !! "u1" = Some row /\
        r.2 = Json (toClientShape (Some row)) /\
        status row = canceled /\ canceledAt row = Some 3000%Z /\
        renewsAt row = Some 2500%Z /\
        plan row = plan old /\ source row = source old /\
        startedAt row = startedAt old /\
        latestPaymentId row = latestPaymentId old /\
        autoRenew (toClientShape (Some row)) = false) /\
  (subscriptions (dbWith monthlyRow) !! "u1" = None ->
   cancelAutoRenew (Some "u1") 3000 (Some 2500%Z) (dbWith monthlyRow) =
   (dbWith monthlyRow, Error 404 "Subscription not found")).
Proof.
  apply (cancelAutoRenew_result "u1" 3000 (Some 2500%Z) (dbWith monthlyRow)).
  discriminate.
Defined.

Lemma save_save (userId : string) (d d' : Document) (db : Db) :
  SubscriptionModel_save userId d' (SubscriptionModel_save userId d db) =
  SubscriptionModel_save userId d' db.
Proof.
  unfold SubscriptionModel_save, Subscription.save. cbn [payments subscriptions nextId].
  by rewrite insert_insert_eq.
Qed.

Lemma save_same (userId : string) (d : Document) (db : Db) :
  subscriptions db !! userId = Some d ->
  SubscriptionModel_save userId d db = db.
Proof.
  intros H. unfold SubscriptionModel_save, Subscription.save.
  rewrite (insert_id _ _ _ H). by destruct db.
Qed.

(** Cancelling without [periodEnd] and resuming right away gives what
    resuming alone gives; for a row that was active and never canceled it
    gives back the datastore as it was before the cancellation. *)
Theorem cancel_then_resume (userId : string) (now : Z) (db : Db)
    (old : Document) :
  userId <> "" ->
  subscriptions db !! userId = Some old ->
  resumeAutoRenew (Some userId)
    (cancelAutoRenew (Some userId) now None db).1 =
  resumeAutoRenew (Some userId) db /\
  (status old = active -> canceledAt old = None ->
   (resumeAutoRenew (Some userId)
      (cancelAutoRenew (Some userId) now None db).1).1 = db).
Proof.
  intros Hu Hold.
  rewrite (cancelAutoRenew_found _ _ _ _ _ Hu Hold). cbv zeta. cbn [fst].
  rewrite (resumeAutoRenew_found _ _ _ Hu (save_row _ _ _)).
  rewrite (resumeAutoRenew_found _ _ _ Hu Hold), save_save.
  split; [done |]. intros Hs Hc. cbn [fst]. apply save_same.
  rewrite Hold. f_equal. destruct old. cbn in *. by subst.
Qed.

Lemma cancel_then_resume_witness :
  resumeAutoRenew (Some "u1")
    (cancelAutoRenew (Some "u1") 3000 None (dbWith monthlyRow)).1 =
  resumeAutoRenew (Some "u1") (dbWith monthlyRow) /\
  (status monthlyRow = active -> canceledAt monthlyRow = None ->
   (resumeAutoRenew (Some "u1")
      (cancelAutoRenew (Some "u1") 3000 None (dbWith monthlyRow)).1).1 =
   dbWith monthlyRow).
Proof.
  apply (cancel_then_resume "u1" 3000 (dbWith monthlyRow) monthlyRow).
  - discriminate.
  - reflexivity.
Defined.

(** [switch-to-free] succeeds for every identified caller, with or without a
    stored row: the row ends on plan free, status inactive, source admin,
    without [renewsAt] and with [canceledAt] = now, keeping [startedAt] and
    [latestPaymentId] of a row that was there; the response is the free,
    inactive shape; the ledger is left alone; and calling it again at the
    same clock changes nothing more. *)
Theorem switchToFree_result (userId : string) (now : Z) (db : Db) :
  userId <> "" ->
  let r := switchToFree (Some userId) now db in
  r.2 = Json {| c_plan := free; c_status := inactive; autoRenew := false;
                periodEnd := None; storageLimitGb := None |} /\
  payments r.1 = payments db /\
  (exists row,
      subscriptions r.1 !! userId = Some row /\
      plan row = free /\ status row = inactive /\ source row = admin /\
      renewsAt row = None /\ canceledAt row = Some now /\
      startedAt row =
        match subscriptions db !! userId with
        | Some old => startedAt old
        | None => Some now
        end /\
      latestPaymentId row = subscriptions db !! userId ≫= latestPaymentId) /\
  switchToFree (Some userId) now r.1 = r.
Proof.
  intros Hu r. subst r. unfold switchToFree.
  rewrite (proj2 (String.eqb_neq _ _) Hu). cbn [fst snd].
  rewrite save_row, save_save.
  destruct (subscriptions db !! userId) as [old|]; cbn [mbind option_bind].
  - split; [done |]. split; [done |]. split; [| done].
    eexists. split; [reflexivity |]. by repeat split.
  - split; [done |]. split; [done |]. split; [| done].
    eexists. split; [reflexivity |]. by repeat split.
Qed.

Lemma switchToFree_result_witness :
  let r := switchToFree (Some "u1") 3000 (dbWith monthlyRow) in
  r.2 = Json {| c_plan := free; c_status := inactive; autoRenew := false;
                periodEnd := None; storageLimitGb := None |} /\
  payments r.1 = payments (dbWith monthlyRow) /\
  (exists row,
      subscriptions r.1 !! "u1" = Some row /\
      plan row = free /\ status row = inactive /\ source row = admin /\
      renewsAt row = None /\ canceledAt row = Some 3000%Z /\
      startedAt row =
        match subscriptions (dbWith monthlyRow) !! "u1" with
        | Some old => startedAt old
        | None => Some 3000%Z
        end /\
      latestPaymentId row =
        subscriptions (dbWith monthlyRow) !! "u1" ≫= latestPaymentId) /\
  switchToFree (Some "u1") 3000 r.1 = r.
Proof.
  apply (switchToFree_result "u1" 3000 (dbWith monthlyRow)).
  discriminate.
Defined.

End RouteBehaviour.

(** ** The subscription routes: identity, frame and the read after a write *)

Section RouteFrame.
Import Subscription SubscriptionRoute.

Lemma activate_unauthorized (auth : option string) (now : Z)
    (body : ActivateBody) (db : Db) :
  truthy auth = false ->
  activate auth now body db = (db, Error 401 "Unauthorized").
Proof.
  intros H. unfold activate. destruct auth as [userId|]; [| done].
  cbn [truthy] in H. apply negb_false_iff in H. by rewrite H.
Qed.

Lemma activate_other_rows (auth : option string) (now : Z)
    (body : ActivateBody) (db : Db) (uid : string) :
  auth <> Some uid ->
  subscriptions (activate auth now body db).1 !! uid = subscriptions db !! uid.
Proof.
  intros Hne.
  destruct (activate_rejected_or_admitted auth now body db)
    as [[_ ->] | [[_ [msg ->]] |
        [Ha (pid & tid & prov & plat & q & cur & Hadm)]]]; [done | done |].
  destruct auth as [userId|]; [| done].
  assert (userId <> "") as Hu by (intros ->; discriminate Ha).
  destruct (activate_row _ now _ db _ _ _ _ _ _ Hu Hadm) as [-> _].
  apply lookup_insert_ne. congruence.
Qed.

(** The four writing routes of the subscription router answer 401 and write
    nothing when the request carries no verified identity, never touch the
    row of a user other than the caller, and, [activate] apart, never touch
    the ledger. *)
Theorem subscription_routes_frame (auth : option string) (now : Z)
    (body : ActivateBody) (bodyPeriodEnd : option Z) (db : Db) :
  (truthy auth = false ->
   activate auth now body db = (db, Error 401 "Unauthorized") /\
   cancelAutoRenew auth now bodyPeriodEnd db = (db, Error 401 "Unauthorized") /\
   resumeAutoRenew auth db = (db, Error 401 "Unauthorized") /\
   switchToFree auth now db = (db, Error 401 "Unauthorized") /\
   get auth db = Error 401 "Unauthorized") /\
  (forall uid, auth <> Some uid ->
      subscriptions (activate auth now body db).1 !! uid =
        subscriptions db !! uid /\
      subscriptions (cancelAutoRenew auth now bodyPeriodEnd db).1 !! uid =
        subscriptions db !! uid /\
      subscriptions (resumeAutoRenew auth db).1 !! uid =
        subscriptions db !! uid /\
      subscriptions (switchToFree auth now db).1 !! uid =
        subscriptions db !! uid) /\
  (payments (cancelAutoRenew auth now bodyPeriodEnd db).1 = payments db /\
   payments (resumeAutoRenew auth db).1 = payments db /\
   payments (switchToFree auth now db).1 = payments db).
Proof.
  repeat apply conj.
  - intros H. split; [by apply activate_unauthorized |].
    unfold cancelAutoRenew, resumeAutoRenew, switchToFree, get.
    rewrite H. destruct auth as [userId|]; [| done].
    cbn [truthy] in H. apply negb_false_iff in H. by rewrite H.
  - intros uid Hne. split; [by apply activate_other_rows |].
    unfold cancelAutoRenew, resumeAutoRenew, switchToFree.
    destruct auth as [userId|]; [| done].
    destruct (String.eqb userId ""); [done |].
    assert (userId <> uid) as Hu by congruence.
    destruct (subscriptions db !! userId) as [old|]; cbn [fst];
      repeat split; try done;
      unfold SubscriptionModel_save, Subscription.save; cbn [subscriptions];
      by apply lookup_insert_ne.
  - unfold cancelAutoRenew. by repeat case_match.
  - unfold resumeAutoRenew. by repeat case_match.
  - unfold switchToFree. by repeat case_match.
Qed.

(** What a writing route answers is the state [GET /subscription] reads right
    afterwards: whenever one of them answers with a client shape, a following
    read by the same caller returns that shape. *)
Theorem response_is_current_state (auth : option string) (now : Z)
    (body : ActivateBody) (bodyPeriodEnd : option Z) (db : Db)
    (p : ClientSubscription) :
  ((activate auth now body db).2 = Json p ->
   get auth (activate auth now body db).1 = Json p) /\
  ((cancelAutoRenew auth now bodyPeriodEnd db).2 = Json p ->
   get auth (cancelAutoRenew auth now bodyPeriodEnd db).1 = Json p) /\
  ((resumeAutoRenew auth db).2 = Json p ->
   get auth (resumeAutoRenew auth db).1 = Json p) /\
  ((switchToFree auth now db).2 = Json p ->
   get auth (switchToFree auth now db).1 = Json p).
Proof.
  repeat apply conj.
  - destruct (activate_rejected_or_admitted auth now body db)
      as [[_ ->] | [[_ [msg ->]] |
          [Ha (pid & tid & prov & plat & q & cur & Hadm)]]]; [done | done |].
    destruct auth as [userId|]; [| done].
    assert (userId <> "") as Hu by (intros ->; discriminate Ha).
    destruct (activate_row _ now _ db _ _ _ _ _ _ Hu Hadm) as [Hs ->].
    intros [= <-]. unfold get. rewrite Ha. cbn [negb default from_option id].
    by rewrite Hs, lookup_insert_eq.
  - unfold cancelAutoRenew, get. destruct auth as [userId|]; [| done].
    cbn [truthy default from_option id].
    destruct (String.eqb userId ""); [done |].
    destruct (subscriptions db !! userId) as [old|]; [| done].
    cbn [fst snd negb]. intros [= <-]. by rewrite save_row.
  - unfold resumeAutoRenew, get. destruct auth as [userId|]; [| done].
    cbn [truthy default from_option id].
    destruct (String.eqb userId ""); [done |].
    destruct (subscriptions db !! userId) as [old|]; [| done].
    cbn [fst snd negb]. intros [= <-]. by rewrite save_row.
  - unfold switchToFree, get. destruct auth as [userId|]; [| done].
    cbn [truthy default from_option id].
    destruct (String.eqb userId ""); [done |].
    cbn [fst snd negb]. intros [= <-]. by rewrite save_row.
Qed.

(** *** Activation and the ledger entry it points to *)

(** An admitted [activate] answers with status active; the caller's row
    carries the settled plan and, in [latestPaymentId], the identifier of the
    ledger entry that now stands for the request's transaction id; the
    response shows [autoRenew] exactly when the plan is neither free nor
    lifetime, and a storage limit exactly for lifetime. *)
Theorem activate_links_payment (userId : string) (now : Z)
    (body : ActivateBody) (db : Db) (productId transactionId : string)
    (provider : Payment.Provider) (platform : Payment.Platform)
    (amountCents : Q) (currency : string) :
  userId <> "" ->
  admitted body productId transactionId provider platform amountCents currency ->
  let r := activate (Some userId) now body db in
  exists row e,
    subscriptions r.1 !! userId = Some row /\
    Payment.findOne transactionId (payments r.1) = Some e /\
    latestPaymentId row = Some (Payment._id e) /\
    r.2 = Json (toClientShape (Some row)) /\
    status row = active /\
    plan row = activatePlan productId (ab_plan body) /\
    source row = subSourceFromProvider (Some provider) /\
    startedAt row = Some now /\
    (autoRenew (toClientShape (Some row)) = true <->
     plan row <> free /\ plan row <> lifetime) /\
    (storageLimitGb (toClientShape (Some row)) = Some 10%nat <->
     plan row = lifetime).
Proof.
  intros Hu Hadm r. subst r.
  destruct (activate_row _ now _ db _ _ _ _ _ _ Hu Hadm) as [Hs Hr].
  cbv zeta in Hs, Hr.
  pose proof (activate_paymentId userId productId transactionId provider
                platform (JFinite amountCents) currency now
                (activateExpiry (activatePlan productId (ab_plan body))
                   (ab_periodEnd body)) body db) as Hid.
  assert (payments (activate (Some userId) now body db).1 =
          payments
            (PaymentModel_updateOne transactionId
               (activateOnInsert userId productId transactionId provider platform)
               (activateSet (JFinite amountCents) currency now
                  (activateExpiry (activatePlan productId (ab_plan body))
                     (ab_periodEnd body)) body) db)) as Hp.
  { rewrite (activate_payments _ _ _ _ _ _ _ _ _ _ Hu Hadm).
    by rewrite updateOne_payments. }
  rewrite <- Hp in Hid.
  destruct (Payment.findOne transactionId
              (payments (activate (Some userId) now body db).1)) as [e|] eqn:He;
    [| discriminate Hid].
  injection Hid as Hid.
  eexists _, e. rewrite Hs, Hr.
  split; [apply lookup_insert_eq |]. split; [done |].
  split; [cbn; by rewrite Hid |]. split; [done |].
  split; [done |]. split; [done |]. split; [done |]. split; [done |].
  cbn [applyUpdate activateUpdate plan status set_plan set_status
       toClientShape autoRenew storageLimitGb].
  rewrite (bool_decide_eq_true_2 (active = active) eq_refl), andb_true_r.
  rewrite andb_true_iff, !negb_true_iff, !bool_decide_eq_false.
  split; [tauto |].
  case_bool_decide; split; congruence.
Qed.

Lemma activate_links_payment_witness :
  let r := activate (Some "u1") 3000
             (sampleBody "pkg.yearly" (Some "t1") None) emptyDb in
  exists row e,
    subscriptions r.1 !! "u1" = Some row /\
    Payment.findOne "t1" (payments r.1) = Some e /\
    latestPaymentId row = Some (Payment._id e) /\
    r.2 = Json (toClientShape (Some row)) /\
    status row = active /\
    plan row = activatePlan "pkg.yearly" None /\
    source row = subSourceFromProvider (Some Payment.app_store) /\
    startedAt row = Some 3000%Z /\
    (autoRenew (toClientShape (Some row)) = true <->
     plan row <> free /\ plan row <> lifetime) /\
    (storageLimitGb (toClientShape (Some row)) = Some 10%nat <->
     plan row = lifetime).
Proof.
  apply (activate_links_payment "u1" 3000
           (sampleBody "pkg.yearly" (Some "t1") None) emptyDb
           "pkg.yearly" "t1" Payment.app_store Payment.ios (499 # 1)%Q "usd").
  - discriminate.
  - apply sampleBody_admitted; discriminate.
Defined.

End RouteFrame.

(** ** Invariants of the datastore *)

Section LedgerOrder.
Context {Raw : Type}.
Implicit Types (c : list (Payment.Document Raw)) (d e : Payment.Document Raw).
Implicit Types (tid t : string) (p onInsert set : Payment.Patch Raw).

(** [e'] is the entry [e] after later writes: same identifier, same
    transaction id, same identity fields. *)
Definition sameEntry e e' : Prop :=
  Payment._id e' = Payment._id e /\
  Payment.transactionId e' = Payment.transactionId e /\
  identity e' = identity e.

(** The ledger [c'] is the ledger [c], entry by entry and in the same order,
    followed by new entries. *)
Definition extends c c' : Prop :=
  exists kept new, c' = kept ++ new /\ Forall2 sameEntry c kept.

Lemma sameEntry_refl e : sameEntry e e.
Proof. done. Qed.

Lemma sameEntry_trans e1 e2 e3 :
  sameEntry e1 e2 -> sameEntry e2 e3 -> sameEntry e1 e3.
Proof.
  intros (H1 & H2 & H3) (H1' & H2' & H3'). repeat split; congruence.
Qed.

Lemma Forall2_sameEntry_refl c : Forall2 sameEntry c c.
Proof. induction c; by constructor. Qed.

Lemma extends_refl c : extends c c.
Proof.
  exists c, []. split; [by rewrite app_nil_r | apply Forall2_sameEntry_refl].
Qed.

Lemma extends_trans c1 c2 c3 : extends c1 c2 -> extends c2 c3 -> extends c1 c3.
Proof.
  intros (k1 & n1 & -> & H1) (k2 & n2 & -> & H2).
  apply Forall2_app_inv_l in H2 as (k2a & k2b & Ha & Hb & ->).
  exists k2a, (k2b ++ n2). split; [by rewrite app_assoc |].
  revert k2a Ha. induction H1 as [|x y l k Hxy _ IH]; intros k2a Ha.
  - inversion Ha. constructor.
  - inversion Ha as [|? z ? k' Hyz Hrest]; subst. constructor.
    + by apply (sameEntry_trans x y z).
    + by apply IH.
Qed.

Lemma extends_elem c c' e :
  extends c c' -> e ∈ c -> exists e', e' ∈ c' /\ sameEntry e e'.
Proof.
  intros (kept & new & -> & H) He.
  induction H as [|x y l k Hxy _ IH]; [by apply elem_of_nil in He |].
  apply elem_of_cons in He as [-> | He].
  - exists y. split; [apply elem_of_app; left; by left | done].
  - destruct (IH He) as (e' & He' & Hs). exists e'. split; [| done].
    apply elem_of_app in He' as [He' | He'].
    + apply elem_of_app. left. by right.
    + apply elem_of_app. by right.
Qed.

Lemma findOne_elem tid c d : Payment.findOne tid c = Some d -> d ∈ c.
Proof.
  induction c as [|x c IH]; [done |]. simpl.
  destruct (String.eqb (Payment.transactionId x) tid).
  - intros [= ->]. by left.
  - intros H. right. by apply IH.
Qed.

Lemma applyPatch_sameEntry p d :
  keepsIdentity p -> sameEntry d (Payment.applyPatch p d).
Proof.
  intros Hk. pose proof Hk as (_ & _ & _ & _ & Hs).
  split; [done |]. split; [by apply applyPatch_transactionId |].
  by apply applyPatch_identity.
Qed.

Lemma updateFirst_sameEntry tid (f : Payment.Document Raw -> Payment.Document Raw)
    c c' :
  (forall x, sameEntry x (f x)) ->
  Payment.updateFirst tid f c = Some c' -> Forall2 sameEntry c c'.
Proof.
  intros Hf. revert c'. induction c as [|x c IH]; intros c'; [done |]. simpl.
  destruct (String.eqb (Payment.transactionId x) tid).
  - intros [= <-]. constructor; [apply Hf | apply Forall2_sameEntry_refl].
  - destruct (Payment.updateFirst tid f c) as [c1|]; [| done].
    intros [= <-]. constructor; [apply sameEntry_refl | by apply IH].
Qed.

(** An upsert whose [$set] leaves the identity fields alone extends the
    ledger. *)
Lemma updateOne_extends oid tid onInsert set c :
  keepsIdentity set ->
  extends c (Payment.updateOne oid tid onInsert set c).1.
Proof.
  intros Hk. unfold Payment.updateOne.
  destruct (Payment.updateFirst tid (Payment.applyPatch set) c) as [c'|] eqn:Hu.
  - exists c', []. split; [by rewrite app_nil_r |].
    apply (updateFirst_sameEntry _ _ _ _ (fun x => applyPatch_sameEntry set x Hk) Hu).
  - destruct (Payment.insertDoc oid tid onInsert set) as [d|];
      [| apply extends_refl].
    exists c, [d]. split; [done | apply Forall2_sameEntry_refl].
Qed.

(** An upsert whose key is the one its [$setOnInsert] carries keeps the
    transaction ids of the ledger unique. *)
Lemma updateOne_unique oid tid onInsert set c :
  keepsIdentity set ->
  Payment.p_transactionId onInsert = Value tid ->
  (forall t, entries t c <= 1) ->
  forall t, entries t (Payment.updateOne oid tid onInsert set c).1 <= 1.
Proof.
  intros Hk Ho Hc t. pose proof Hk as (_ & _ & _ & _ & Hs).
  destruct (Payment.findOne tid c) as [d|] eqn:Hd.
  - destruct (updateOne_existing oid tid onInsert set c d Hs Hd)
      as (c' & -> & _ & Hent & _). cbn [fst]. by rewrite Hent.
  - unfold Payment.updateOne. rewrite (updateFirst_None _ _ _ Hd).
    destruct (Payment.insertDoc oid tid onInsert set) as [d|] eqn:Hi;
      cbn [fst]; [| done].
    pose proof (insertDoc_transactionId _ _ _ _ _ Hs Ho Hi) as Htid.
    rewrite entries_app, entries_cons, entries_nil, Htid.
    destruct (String.eqb_spec tid t) as [<- | _].
    + apply findOne_None_entries in Hd. lia.
    + specialize (Hc t). lia.
Qed.

End LedgerOrder.

Section Invariants.
Import Subscription.

(** A request to one of the routes that write. *)
Inductive Request : Type :=
  | Delivered (dl : Delivery)
  | CancelAutoRenew (auth : option string) (now : Z) (periodEnd : option Z)
  | ResumeAutoRenew (auth : option string)
  | SwitchToFree (auth : option string) (now : Z).

(** The datastore after a request; [expected] is the webhook secret. *)
Definition step (expected : option string) (rq : Request) (db : Db) : Db :=
  match rq with
  | Delivered dl => deliver expected dl db
  | CancelAutoRenew auth now periodEnd =>
      (SubscriptionRoute.cancelAutoRenew auth now periodEnd db).1
  | ResumeAutoRenew auth => (SubscriptionRoute.resumeAutoRenew auth db).1
  | SwitchToFree auth now => (SubscriptionRoute.switchToFree auth now db).1
  end.

(** The datastore after a sequence of requests, in order. *)
Definition serve (expected : option string) (rqs : list Request) (db : Db)
  : Db :=
  foldl (fun db rq => step expected rq db) db rqs.

(** The row's [latestPaymentId] is the identifier of an entry of [c]. *)
Definition linked (row : Document) (c : list (Payment.Document RawBody))
  : Prop :=
  exists e, e ∈ c /\ latestPaymentId row = Some (Payment._id e).

(** Transaction ids are unique in the ledger, every row is stored under its
    own [userId], and every [latestPaymentId] refers to a ledger entry. *)
Definition consistent (db : Db) : Prop :=
  (forall t, entries t (payments db) <= 1) /\
  (forall uid row, subscriptions db !! uid = Some row -> userId row = uid) /\
  (forall uid row, subscriptions db !! uid = Some row ->
                   latestPaymentId row = None \/ linked row (payments db)).

(** How the rows of [m'] come from the rows of [m]: a row keeps the [userId]
    of the row it replaces, or is new under its own [userId]; its
    [latestPaymentId] is the one it had, or none, or refers to [c']. *)
Definition rowsFrom (m m' : gmap string Document)
    (c' : list (Payment.Document RawBody)) : Prop :=
  forall uid row',
    m' !! uid = Some row' ->
    (exists row, m !! uid = Some row /\ userId row' = userId row /\
                 (latestPaymentId row' = latestPaymentId row \/ linked row' c')) \/
    (userId row' = uid /\ (latestPaymentId row' = None \/ linked row' c')).

Lemma rowsFrom_refl (m : gmap string Document)
    (c' : list (Payment.Document RawBody)) :
  rowsFrom m m c'.
Proof. intros uid row' H. left. exists row'. auto. Qed.

Lemma rowsFrom_insert (m : gmap string Document)
    (c' : list (Payment.Document RawBody)) (uid : string) (row' : Document) :
  ((exists row, m !! uid = Some row /\ userId row' = userId row /\
                (latestPaymentId row' = latestPaymentId row \/ linked row' c')) \/
   (userId row' = uid /\ (latestPaymentId row' = None \/ linked row' c'))) ->
  rowsFrom m (<[uid := row']> m) c'.
Proof.
  intros H uid' r Hr. destruct (decide (uid = uid')) as [<- | Hne].
  - rewrite lookup_insert_eq in Hr. by injection Hr as <-.
  - rewrite lookup_insert_ne in Hr by done. left. exists r. auto.
Qed.

(** An update that names no [latestPaymentId]. *)
Lemma rowsFrom_update (m : gmap string Document)
    (c' : list (Payment.Document RawBody)) (uid : string) (u : Update) :
  set_latestPaymentId u = NoKey ->
  rowsFrom m (<[uid := applyUpdate u (default (fresh uid) (m !! uid))]> m) c'.
Proof.
  intros Hu. apply rowsFrom_insert.
  destruct (m !! uid) as [old|]; cbn [default from_option id].
  - left. exists old. split; [done |]. split; [done |]. left.
    cbn. by rewrite Hu.
  - right. split; [done |]. left. cbn. by rewrite Hu.
Qed.

Lemma consistent_step (db db' : Db) :
  consistent db ->
  (forall t, entries t (payments db') <= 1) ->
  extends (payments db) (payments db') ->
  rowsFrom (subscriptions db) (subscriptions db') (payments db') ->
  consistent db'.
Proof.
  intros (_ & Hkey & Hlink) Huniq Hext Hrows. split; [done |]. split.
  - intros uid row' Hr. destruct (Hrows uid row' Hr) as
      [(row & Hrow & Hu & _) | [Hu _]]; [| done].
    rewrite Hu. by apply (Hkey uid).
  - intros uid row' Hr. destruct (Hrows uid row' Hr) as
      [(row & Hrow & _ & [Hl | Hl]) | [_ Hl]]; [| by right | done].
    destruct (Hlink uid row Hrow) as [Hn | (e & He & Hid)].
    + left. congruence.
    + right. destruct (extends_elem _ _ e Hext He) as (e' & He' & (Hid' & _)).
      exists e'. split; [done |]. congruence.
Qed.

(** The rows after a request to the webhook. *)
Lemma post_rowsFrom (expected authorization : option string) (now : Z)
    (body : WebhookBody) (db : Db) (c' : list (Payment.Document RawBody)) :
  rowsFrom (subscriptions db)
    (subscriptions (RevenuecatWebhook.post expected authorization now body db).1)
    c'.
Proof.
  unfold RevenuecatWebhook.post.
  destruct (_ && _); [apply rowsFrom_refl |].
  destruct (event body) as [ev|]; [| apply rowsFrom_refl].
  destruct (negb _); [apply rowsFrom_refl |].
  destruct (app_user_id ev) as [userId|]; [| apply rowsFrom_refl].
  destruct (String.eqb userId ""); [apply rowsFrom_refl |]. cbv zeta.
  destruct (RevenuecatWebhook.isPurchaseLike _).
  - cbn [fst]. rewrite findOneAndUpdate_subscriptions.
    assert (forall db1, subscriptions db1 = subscriptions db ->
              rowsFrom (subscriptions db)
                (<[userId := applyUpdate
                     {| set_plan := RevenuecatWebhook.planFromProductId (product_id ev);
                        set_status := active;
                        set_source :=
                          RevenuecatWebhook.sourceOfProvider
                            (RevenuecatWebhook.providerFromStore (store ev));
                        set_startedAt :=
                          Value (default now (dateIfTruthy (purchased_at_ms ev)));
                        set_renewsAt :=
                          ofOption (dateIfTruthy (expiration_at_ms ev));
                        set_canceledAt := Undefined;
                        set_latestPaymentId := NoKey |}
                     (default (fresh userId) (subscriptions db1 !! userId))]>
                   (subscriptions db1)) c') as H.
    { intros db1 ->. by apply rowsFrom_update. }
    apply H. destruct (transaction_id ev) as [tid|]; [| done].
    destruct (String.eqb tid ""); [done |]. apply updateOne_subscriptions.
  - destruct (RevenuecatWebhook.looksLikeRefund _ _);
      [cbn [fst]; rewrite findOneAndUpdate_subscriptions;
       by apply rowsFrom_update |].
    destruct (String.eqb _ "CANCELLATION");
      [cbn [fst]; rewrite findOneAndUpdate_subscriptions;
       by apply rowsFrom_update |].
    destruct (String.eqb _ "EXPIRATION");
      [cbn [fst]; rewrite findOneAndUpdate_subscriptions;
       by apply rowsFrom_update | apply rowsFrom_refl].
Qed.

(** The rows after a request to [activate]. *)
Lemma activate_rowsFrom (auth : option string) (now : Z) (body : ActivateBody)
    (db : Db) :
  rowsFrom (subscriptions db)
    (subscriptions (SubscriptionRoute.activate auth now body db).1)
    (payments (SubscriptionRoute.activate auth now body db).1).
Proof.
  destruct (activate_rejected_or_admitted auth now body db)
    as [[_ ->] | [[_ [msg ->]] |
        [Ha (pid & tid & prov & plat & q & cur & Hadm)]]];
    [apply rowsFrom_refl | apply rowsFrom_refl |].
  destruct auth as [userId|]; [| done].
  assert (userId <> "") as Hu by (intros ->; discriminate Ha).
  destruct (activate_row _ now _ db _ _ _ _ _ _ Hu Hadm) as [-> _].
  pose proof (activate_paymentId userId pid tid prov plat (JFinite q) cur now
                (activateExpiry (activatePlan pid (ab_plan body))
                   (ab_periodEnd body)) body db) as Hid.
  rewrite updateOne_payments,
          <- (activate_payments _ _ _ _ _ _ _ _ _ _ Hu Hadm) in Hid.
  destruct (Payment.findOne tid
              (payments (SubscriptionRoute.activate (Some userId) now body db).1))
    as [e|] eqn:He; [| discriminate Hid].
  injection Hid as Hid.
  assert (forall d : Document,
             linked (applyUpdate
                       (activateUpdate (activatePlan pid (ab_plan body)) prov now
                          (activateExpiry (activatePlan pid (ab_plan body))
                             (ab_periodEnd body))
                          (Some match Payment.findOne tid (payments db) with
                                | Some d0 => Payment._id d0
                                | None => nextId db
                                end)) d)
               (payments (SubscriptionRoute.activate (Some userId) now body db).1))
    as Hl.
  { intros d. exists e. split; [by apply (findOne_elem tid) |].
    cbn. by rewrite Hid. }
  apply rowsFrom_insert.
  destruct (subscriptions db !! userId) as [old|]; cbn [default from_option id].
  - left. exists old. split; [done |]. split; [done |]. right. apply Hl.
  - right. split; [done |]. right. apply Hl.
Qed.

(** The rows after one of the routes that save a document. *)
Lemma save_rowsFrom (auth : option string) (now : Z) (periodEnd : option Z)
    (db : Db) (c' : list (Payment.Document RawBody)) :
  rowsFrom (subscriptions db)
    (subscriptions (SubscriptionRoute.cancelAutoRenew auth now periodEnd db).1) c' /\
  rowsFrom (subscriptions db)
    (subscriptions (SubscriptionRoute.resumeAutoRenew auth db).1) c' /\
  rowsFrom (subscriptions db)
    (subscriptions (SubscriptionRoute.switchToFree auth now db).1) c'.
Proof.
  unfold SubscriptionRoute.cancelAutoRenew, SubscriptionRoute.resumeAutoRenew,
    SubscriptionRoute.switchToFree.
  destruct auth as [userId|]; [| by repeat split; apply rowsFrom_refl].
  destruct (String.eqb userId ""); [by repeat split; apply rowsFrom_refl |].
  destruct (subscriptions db !! userId) as [old|] eqn:Hold; cbn [fst].
  - destruct periodEnd; repeat split; apply rowsFrom_insert; left;
      exists old; (split; [done |]); by split; [| left].
  - repeat split; [apply rowsFrom_refl | apply rowsFrom_refl |].
    apply rowsFrom_insert. right. by split; [| left].
Qed.

Lemma deliver_extends (expected : option string) (dl : Delivery) (db : Db) :
  extends (payments db) (payments (deliver expected dl db)) /\
  ((forall t, entries t (payments db) <= 1) ->
   forall t, entries t (payments (deliver expected dl db)) <= 1).
Proof.
  destruct dl as [authorization now body | auth now body]; cbn [deliver].
  - destruct (post_payments_cases expected authorization now body db)
      as [-> | (ev & userId & tid & ->)]; [split; [apply extends_refl | done] |].
    split; [apply updateOne_extends, noPatch_keepsIdentity |].
    intros H. by apply updateOne_unique; [apply noPatch_keepsIdentity | |].
  - destruct (activate_payments_cases auth now body db)
      as [-> | (tid & onInsert & set & Hkey & Hkeep & ->)];
      [split; [apply extends_refl | done] |].
    split; [by apply updateOne_extends |].
    intros H. by apply updateOne_unique.
Qed.

Lemma save_payments (auth : option string) (now : Z) (periodEnd : option Z)
    (db : Db) :
  payments (SubscriptionRoute.cancelAutoRenew auth now periodEnd db).1 =
    payments db /\
  payments (SubscriptionRoute.resumeAutoRenew auth db).1 = payments db /\
  payments (SubscriptionRoute.switchToFree auth now db).1 = payments db.
Proof.
  unfold SubscriptionRoute.cancelAutoRenew, SubscriptionRoute.resumeAutoRenew,
    SubscriptionRoute.switchToFree.
  by repeat case_match.
Qed.

Lemma step_extends (expected : option string) (rq : Request) (db : Db) :
  extends (payments db) (payments (step expected rq db)).
Proof.
  destruct rq as [dl | auth now periodEnd | auth | auth now]; cbn [step].
  - apply deliver_extends.
  - rewrite (proj1 (save_payments auth now periodEnd db)). apply extends_refl.
  - rewrite (proj1 (proj2 (save_payments auth 0 None db))). apply extends_refl.
  - rewrite (proj2 (proj2 (save_payments auth now None db))). apply extends_refl.
Qed.

Lemma step_consistent (expected : option string) (rq : Request) (db : Db) :
  consistent db -> consistent (step expected rq db).
Proof.
  intros Hc. pose proof Hc as (Huniq & _).
  apply (consistent_step db); [done | | apply step_extends |].
  - destruct rq as [dl | auth now periodEnd | auth | auth now]; cbn [step].
    + by apply deliver_extends.
    + by rewrite (proj1 (save_payments auth now periodEnd db)).
    + by rewrite (proj1 (proj2 (save_payments auth 0 None db))).
    + by rewrite (proj2 (proj2 (save_payments auth now None db))).
  - destruct rq as [[authorization now body | auth now body]
                   | auth now periodEnd | auth | auth now]; cbn [step deliver].
    + apply post_rowsFrom.
    + apply activate_rowsFrom.
    + apply (save_rowsFrom auth now periodEnd db).
    + apply (save_rowsFrom auth 0 None db).
    + apply (save_rowsFrom auth now None db).
Qed.

Lemma emptyDb_consistent : consistent emptyDb.
Proof.
  split; [intros t; cbn; lia |]. split; intros uid row H; cbn in H;
    by rewrite lookup_empty in H.
Qed.

(** Through any sequence of requests to the writing routes the datastore stays
    consistent: at most one ledger entry per transaction id, every row stored
    under its own [userId], every [latestPaymentId] the identifier of an entry
    of the ledger. *)
Theorem datastore_stays_consistent (expected : option string)
    (rqs : list Request) (db : Db) :
  consistent db -> consistent (serve expected rqs db).
Proof.
  revert db. induction rqs as [|rq rqs IH]; intros db Hc; [done |].
  apply (IH (step expected rq db)). by apply step_consistent.
Qed.

Lemma datastore_stays_consistent_witness :
  consistent
    (serve None
       [Delivered (ToWebhook None 1100 firstDelivery);
        Delivered (ToActivate (Some "u2") 1200
                     (sampleBody "pkg.yearly" (Some "t1") None));
        CancelAutoRenew (Some "u2") 1300 None;
        SwitchToFree (Some "u1") 1400;
        ResumeAutoRenew (Some "u2")] emptyDb).
Proof.
  apply (datastore_stays_consistent None _ emptyDb).
  split; [intros t; cbn; lia |].
  split; intros uid row H; cbn in H; by rewrite lookup_empty in H.
Defined.

(** The ledger is append-only: after any sequence of requests it is the
    ledger it was, entry by entry in the same order and with the same
    identifiers, transaction ids and identity fields, followed by the entries
    inserted since; no entry is ever removed. *)
Theorem ledger_append_only (expected : option string) (rqs : list Request)
    (db : Db) :
  extends (payments db) (payments (serve expected rqs db)) /\
  (forall e, e ∈ payments db ->
             exists e', e' ∈ payments (serve expected rqs db) /\ sameEntry e e') /\
  length (payments db) <= length (payments (serve expected rqs db)).
Proof.
  assert (extends (payments db) (payments (serve expected rqs db))) as H.
  { revert db. induction rqs as [|rq rqs IH]; intros db; [apply extends_refl |].
    apply (extends_trans _ (payments (step expected rq db)));
      [apply step_extends | apply IH]. }
  split; [done |]. split; [intros e; by apply extends_elem |].
  destruct H as (kept & new & -> & HF).
  rewrite length_app, <- (Forall2_length _ _ _ HF). lia.
Qed.

End Invariants.

(** * src/routes/billing.ts: the payment history read from the ledger *)

Module Billing.
Import Subscription.

Inductive Store : Type := apple | google | stripe | promo | test | other.
Inductive ItemStatus : Type := paid.

#[global] Instance Store_eq_dec : EqDecision Store.
Proof. solve_decision. Defined.

Definition planFromProductId (productId : option string) : Plan :=
  match productId with
  | None => free
  | Some productId =>
      if String.eqb productId "" then free
      else if includes productId ".monthly" then monthly
      else if includes productId ".yearly" then yearly
      else if includes productId ".lifetime" then lifetime
      else free
  end.

Definition storeFromProvider (provider : option string) : Store :=
  if bool_decide (provider = Some "app_store") then apple
  else if bool_decide (provider = Some "google_play") then google
  else if bool_decide (provider = Some "stripe") then stripe
  else if bool_decide (provider = Some "promo") then promo
  else other.

(** A document of the [payments] collection as [.lean()] hands it to the
    route: the stored paths without the casts of the model.  [platform] and
    [provider] are the strings that were stored, whatever they are, and a path
    the route guards with [??] or reads as optional may be missing. *)
Module Lean.
Record Document : Type := {
  _id : ObjectId;
  userId : string;
  platform : option string;
  provider : option string;
  productId : option string;
  transactionId : option string;
  amountCents : option jsnum;
  currency : option string;
  purchasedAt : Z;
  expiresAt : option Z;
}.
End Lean.

(** The strings the model's values are stored as. *)
Definition providerName (p : Payment.Provider) : string :=
  match p with
  | Payment.google_play => "google_play"
  | Payment.app_store => "app_store"
  | Payment.stripe => "stripe"
  | Payment.promo => "promo"
  end.

Definition platformName (p : Payment.Platform) : string :=
  match p with
  | Payment.android => "android"
  | Payment.ios => "ios"
  | Payment.web => "web"
  end.

(** A ledger entry written by the routes, as [.lean()] returns it. *)
Definition lean (d : Payment.Document RawBody) : Lean.Document :=
  {| Lean._id := Payment._id d;
     Lean.userId := Payment.userId d;
     Lean.platform := Some (platformName (Payment.platform d));
     Lean.provider := Some (providerName (Payment.provider d));
     Lean.productId := Some (Payment.productId d);
     Lean.transactionId := Some (Payment.transactionId d);
     Lean.amountCents := Some (Payment.amountCents d);
     Lean.currency := Some (Payment.currency d);
     Lean.purchasedAt := Payment.purchasedAt d;
     Lean.expiresAt := Payment.expiresAt d |}.

(** One element of [items]. *)
Record Item : Type := {
  id : ObjectId;
  userId : string;
  plan : Plan;
  amount : jsnum;
  currency : string;
  platform : string;
  store : Store;
  storeTransactionId : option string;
  purchasedAt : Z;
  expiresAt : option Z;
  status : ItemStatus;
}.

Inductive Reply : Type :=
  | Error (code : nat) (error : string)
  | Items (items : list Item).

(** [.sort({ purchasedAt: -1 })]: the later purchase first.  The order the
    datastore gives to entries with equal [purchasedAt] is not specified; the
    merge sort used here fixes one. *)
Definition laterFirst (a b : Lean.Document) : Prop :=
  (Lean.purchasedAt b <= Lean.purchasedAt a)%Z.

#[global] Instance laterFirst_dec (a b : Lean.Document) :
  Decision (laterFirst a b).
Proof. unfold laterFirst. apply _. Defined.

(** [PaymentModel.find({ userId }).sort({ purchasedAt: -1 }).lean()]. *)
Definition find (uid : string) (c : list Lean.Document)
  : list Lean.Document :=
  merge_sort laterFirst (filter (fun d => Lean.userId d = uid) c).

(** The function mapped over the documents. *)
Definition toItem (doc : Lean.Document) : Item :=
  let plan := planFromProductId (Lean.productId doc) in
  let store := storeFromProvider (Lean.provider doc) in
  {| id := Lean._id doc;
     userId := Lean.userId doc;
     plan := plan;
     amount := over100 (default (JFinite (0 # 1)) (Lean.amountCents doc));
     currency := default "USD" (Lean.currency doc);
     platform := default "web" (Lean.platform doc);
     store := store;
     storeTransactionId := Lean.transactionId doc;
     purchasedAt := Lean.purchasedAt doc;
     expiresAt := Lean.expiresAt doc;
     status := paid |}.

(** [router.get("/billing/history", ...)] over the documents of the
    collection. *)
Definition history (auth : option string) (c : list Lean.Document) : Reply :=
  if negb (truthy auth) then Error 401 "Unauthorized"
  else Items (toItem <$> find (default "" auth) c).

End Billing.

(** ** Arithmetic in binary64 *)

(** Rounding at known values: one tenth and 4.99; the two ties next to
    [2 ^ 53], which go to the even neighbour; the half of the least positive
    number, which goes to zero; the least magnitude that overflows.  The
    cents of the price 1.005 are 100, since the product is just below
    100.5. *)
Lemma roundDouble_samples :
  roundDouble (1 # 10) = JFinite (3602879701896397 # 36028797018963968) /\
  roundDouble (499 # 100) = JFinite (2809120267572347 # 562949953421312) /\
  roundDouble (9007199254740993 # 1) = JFinite (9007199254740992 # 1) /\
  roundDouble (9007199254740995 # 1) = JFinite (9007199254740996 # 1) /\
  roundDouble (Qmake 1 (Z.to_pos (2 ^ 1075))) = JFinite (0 # 1) /\
  roundDouble (Qmake (2 ^ 1024 - 2 ^ 970) 1) = JPosInfinity /\
  roundDouble (Qmake (2 ^ 1024 - 2 ^ 970 - 1) 1) =
    JFinite (Qmake (2 ^ 1024 - 2 ^ 971) 1) /\
  Math_round (times100 (roundDouble (1005 # 1000))) = JFinite (100 # 1) /\
  Math_round (times100 (roundDouble (499 # 100))) = JFinite (499 # 1).
Proof. repeat split; vm_compute; reflexivity. Qed.

(** ** Properties of the payment history *)

Section BillingHistory.

#[local] Instance laterFirst_total : Total Billing.laterFirst.
Proof. intros a b. unfold Billing.laterFirst. lia. Qed.

#[local] Instance laterFirst_trans : Transitive Billing.laterFirst.
Proof. intros a b c. unfold Billing.laterFirst. lia. Qed.

Lemma find_elem (uid : string) (c : list Billing.Lean.Document)
    (d : Billing.Lean.Document) :
  d ∈ Billing.find uid c <-> d ∈ c /\ Billing.Lean.userId d = uid.
Proof.
  unfold Billing.find. rewrite merge_sort_Permutation, list_elem_of_filter.
  tauto.
Qed.

(** The later item first. *)
Definition itemLaterFirst (a b : Billing.Item) : Prop :=
  (Billing.purchasedAt b <= Billing.purchasedAt a)%Z.

Lemma StronglySorted_toItem (l : list Billing.Lean.Document) :
  StronglySorted Billing.laterFirst l ->
  StronglySorted itemLaterFirst (Billing.toItem <$> l).
Proof.
  induction 1 as [|d l _ IH Hd]; [constructor |].
  cbn. constructor; [done |].
  apply Forall_fmap. by eapply Forall_impl.
Qed.

(** The history of an identified caller holds one item for each document of
    the collection stored under the caller's user id and nothing else, the
    later purchase first; the store of an item is never test, and it is other
    exactly when the stored provider is none of app_store, google_play,
    stripe and promo.  Without identity the answer is 401. *)
Theorem history_lists_own_payments (auth : option string)
    (c : list Billing.Lean.Document) :
  (truthy auth = false ->
   Billing.history auth c = Billing.Error 401 "Unauthorized") /\
  (forall userId, auth = Some userId -> userId <> "" ->
     exists items,
       Billing.history auth c = Billing.Items items /\
       items ≡ₚ
         (Billing.toItem <$>
            filter (fun d => Billing.Lean.userId d = userId) c) /\
       StronglySorted itemLaterFirst items /\
       Forall (fun i =>
                 Billing.userId i = userId /\
                 Billing.store i <> Billing.test) items /\
       (forall tid,
           Some tid ∈ (Billing.storeTransactionId <$> items) <->
           exists d, d ∈ c /\ Billing.Lean.userId d = userId /\
                     Billing.Lean.transactionId d = Some tid)) /\
  (forall d,
      Billing.store (Billing.toItem d) = Billing.other <->
      Billing.Lean.provider d <> Some "app_store" /\
      Billing.Lean.provider d <> Some "google_play" /\
      Billing.Lean.provider d <> Some "stripe" /\
      Billing.Lean.provider d <> Some "promo").
Proof.
  split; [| split].
  - intros H. unfold Billing.history. by rewrite H.
  - intros userId -> Hu. unfold Billing.history.
    cbn [truthy default from_option id].
    rewrite (proj2 (String.eqb_neq _ _) Hu). cbn [negb].
    eexists. split; [reflexivity |]. split; [| split; [| split]].
    + unfold Billing.find. by rewrite merge_sort_Permutation.
    + apply StronglySorted_toItem.
      apply (StronglySorted_merge_sort Billing.laterFirst).
    + apply Forall_fmap, Forall_forall. intros d Hd.
      apply find_elem in Hd as [_ Hd]. split; [done |].
      cbn. unfold Billing.storeFromProvider. by repeat case_bool_decide.
    + intros tid. rewrite <- list_fmap_compose. rewrite list_elem_of_fmap.
      split.
      * intros (d & Heq & Hd). apply find_elem in Hd as [Hd1 Hd2].
        exists d. by repeat split.
      * intros (d & Hd & Hu' & Ht). exists d. split; [done |].
        by apply find_elem.
  - intros d. cbn. unfold Billing.storeFromProvider.
    repeat case_bool_decide; split; try done; intros (? & ? & ? & ?);
      congruence.
Qed.

(** After an admitted [activate] of a transaction the ledger did not hold, the
    caller's history shows an item for it with the request's platform, the
    store of its provider, the amount in cents divided by 100, the purchase
    time of the clock and, for a currency made of ASCII characters, the
    upper-cased currency.  The item's plan is the one derived from the
    product id; it is the plan of the caller's row exactly when the product
    id derives a plan other than free or the declared plan is free or
    missing. *)
Theorem history_shows_activation (userId : string) (now : Z)
    (body : ActivateBody) (db : Db) (productId transactionId : string)
    (provider : Payment.Provider) (platform : Payment.Platform)
    (amountCents : Q) (currency : string) :
  userId <> "" ->
  admitted body productId transactionId provider platform amountCents currency ->
  Payment.findOne transactionId (payments db) = None ->
  let r := SubscriptionRoute.activate (Some userId) now body db in
  exists items item row,
    Billing.history (Some userId) (Billing.lean <$> payments r.1) =
      Billing.Items items /\
    item ∈ items /\
    Billing.storeTransactionId item = Some transactionId /\
    Billing.userId item = userId /\
    Billing.plan item = Billing.planFromProductId (Some productId) /\
    Billing.amount item = roundDouble (amountCents / (100 # 1)) /\
    (isAscii currency = true ->
     Billing.currency item = toUpperCase currency) /\
    Billing.platform item = Billing.platformName platform /\
    Billing.store item =
      Billing.storeFromProvider (Some (Billing.providerName provider)) /\
    Billing.purchasedAt item = now /\
    subscriptions r.1 !! userId = Some row /\
    (Billing.plan item = Subscription.plan row <->
     Billing.planFromProductId (Some productId) <> Subscription.free \/
     default Subscription.free (ab_plan body) = Subscription.free).
Proof.
  intros Hu Hadm Hnone r. subst r.
  destruct (activate_row _ now _ db _ _ _ _ _ _ Hu Hadm) as [Hs _].
  cbv zeta in Hs.
  pose proof (activate_payments _ now _ db _ _ _ _ _ _ Hu Hadm) as Hp.
  rewrite (updateOne_absent _ _ _ _ _ _ Hnone
             (insertDoc_activate _ _ _ _ _ _ _ _ _ _ _)) in Hp.
  cbn [fst] in Hp.
  unfold Billing.history. cbn [truthy default from_option id].
  rewrite (proj2 (String.eqb_neq _ _) Hu). cbn [negb]. rewrite Hp, Hs.
  match type of Hp with _ = _ ++ [?d] => set (doc := d) end.
  eexists _, (Billing.toItem (Billing.lean doc)), _.
  split; [reflexivity |]. split.
  { apply list_elem_of_fmap_2, find_elem. split; [| reflexivity].
    apply list_elem_of_fmap_2, elem_of_app. right. by left. }
  repeat (split; [reflexivity |]).
  split; [apply lookup_insert_eq |]. subst doc.
  cbn [Billing.toItem Billing.lean Billing.plan Billing.Lean.productId
       Payment.productId
       Subscription.applyUpdate Subscription.plan activateUpdate
       Subscription.set_plan].
  change (Billing.planFromProductId (Some productId))
    with (SubscriptionRoute.planFromProductId (Some productId)).
  unfold activatePlan.
  destruct (decide (SubscriptionRoute.planFromProductId (Some productId) =
                    Subscription.free)) as [Hf | Hf].
  - rewrite (bool_decide_eq_true_2 _ Hf). cbn [negb]. rewrite Hf.
    split; [intros <-; by right | intros [H | H]; congruence].
  - rewrite (bool_decide_eq_false_2 _ Hf). cbn [negb].
    split; [by left | done].
Qed.

End BillingHistory.

Lemma history_lists_own_payments_witness :
  exists items,
    Billing.history (Some "u1") (Billing.lean <$> payments dbAfterFirst) =
      Billing.Items items /\
    items ≡ₚ
      (Billing.toItem <$>
         filter (fun d => Billing.Lean.userId d = "u1")
           (Billing.lean <$> payments dbAfterFirst)) /\
    StronglySorted itemLaterFirst items /\
    Forall (fun i =>
              Billing.userId i = "u1" /\
              Billing.store i <> Billing.test) items /\
    (forall tid,
        Some tid ∈ (Billing.storeTransactionId <$> items) <->
        exists d, d ∈ Billing.lean <$> payments dbAfterFirst /\
                  Billing.Lean.userId d = "u1" /\
                  Billing.Lean.transactionId d = Some tid).
Proof.
  apply (proj1 (proj2 (history_lists_own_payments (Some "u1")
                         (Billing.lean <$> payments dbAfterFirst))) "u1").
  - reflexivity.
  - discriminate.
Defined.

(** The amount of 499 cents is shown as the binary64 number nearest to
    4.99. *)
Lemma history_shows_activation_witness :
  let body := sampleBody "pkg.basic" (Some "t9") (Some Subscription.lifetime) in
  let r := SubscriptionRoute.activate (Some "u1") 3000 body emptyDb in
  roundDouble ((499 # 1) / (100 # 1)) =
    JFinite (2809120267572347 # 562949953421312) /\
  exists items item row,
    Billing.history (Some "u1") (Billing.lean <$> payments r.1) =
      Billing.Items items /\
    item ∈ items /\
    Billing.storeTransactionId item = Some "t9" /\
    Billing.userId item = "u1" /\
    Billing.plan item = Billing.planFromProductId (Some "pkg.basic") /\
    Billing.amount item = roundDouble ((499 # 1) / (100 # 1)) /\
    (isAscii "usd" = true -> Billing.currency item = toUpperCase "usd") /\
    Billing.platform item = Billing.platformName Payment.ios /\
    Billing.store item =
      Billing.storeFromProvider
        (Some (Billing.providerName Payment.app_store)) /\
    Billing.purchasedAt item = 3000%Z /\
    subscriptions r.1 !! "u1" = Some row /\
    (Billing.plan item = Subscription.plan row <->
     Billing.planFromProductId (Some "pkg.basic") <> Subscription.free \/
     default Subscription.free (ab_plan body) = Subscription.free).
Proof.
  split; [vm_compute; reflexivity |].
  apply (history_shows_activation "u1" 3000
           (sampleBody "pkg.basic" (Some "t9") (Some Subscription.lifetime))
           emptyDb "pkg.basic" "t9" Payment.app_store Payment.ios
           (499 # 1)%Q "usd").
  - discriminate.
  - apply sampleBody_admitted; discriminate.
  - reflexivity.
Defined.

(** ** Activation of a transaction the ledger already holds *)

Section StoredTransaction.
Import Subscription SubscriptionRoute.

Lemma updateFirst_length tid
    (f : Payment.Document RawBody -> Payment.Document RawBody) c c' :
  Payment.updateFirst tid f c = Some c' -> length c' = length c.
Proof.
  revert c'. induction c as [|x c IH]; intros c'; [done |]. simpl.
  destruct (String.eqb (Payment.transactionId x) tid).
  - by intros [= <-].
  - destruct (Payment.updateFirst tid f c) as [c1|]; [| done].
    intros [= <-]. simpl. by rewrite (IH c1).
Qed.

(** [activate] asks for no tie between the caller and a stored transaction.
    When the ledger already holds the request's transaction id, under
    whatever user, no entry is added; the entry keeps its identifier and its
    identity fields, the stored [userId] among them, and takes the amount and
    the raw payload of the request; the caller's row becomes active and its
    [latestPaymentId] is that entry. *)
Theorem activate_stored_transaction (userId : string) (now : Z)
    (body : ActivateBody) (db : Db) (productId transactionId : string)
    (provider : Payment.Provider) (platform : Payment.Platform)
    (amountCents : Q) (currency : string) (old : Payment.Document RawBody) :
  userId <> "" ->
  admitted body productId transactionId provider platform amountCents currency ->
  Payment.findOne transactionId (payments db) = Some old ->
  let r := activate (Some userId) now body db in
  length (payments r.1) = length (payments db) /\
  nextId r.1 = nextId db /\
  exists e row,
    Payment.findOne transactionId (payments r.1) = Some e /\
    sameEntry old e /\
    Payment.userId e = Payment.userId old /\
    Payment.amountCents e = JFinite amountCents /\
    Payment.rawPayload e = Some (RawActivate body) /\
    subscriptions r.1 !! userId = Some row /\
    status row = active /\
    latestPaymentId row = Some (Payment._id old).
Proof.
  intros Hu Hadm Hold r. subst r.
  rewrite (activate_admitted _ now _ db _ _ _ _ _ _ Hu Hadm). cbv zeta.
  set (patch := activateSet (JFinite amountCents) currency now
                  (activateExpiry (activatePlan productId (ab_plan body))
                     (ab_periodEnd body)) body).
  destruct (updateOne_existing (nextId db) transactionId
              (activateOnInsert userId productId transactionId provider platform)
              patch (payments db) old eq_refl Hold)
    as (c' & Hc' & Hfind & _).
  assert (length c' = length (payments db)) as Hlen.
  { unfold Payment.updateOne in Hc'.
    destruct (Payment.updateFirst transactionId (Payment.applyPatch patch)
                (payments db)) as [c1|] eqn:Hu1.
    - injection Hc' as <-. apply (updateFirst_length _ _ _ _ Hu1).
    - destruct (Payment.insertDoc _ _ _ _); [discriminate Hc' |].
      by injection Hc' as <-. }
  unfold PaymentModel_updateOne. rewrite Hc'.
  unfold SubscriptionModel_findOneAndUpdate, Subscription.findOneAndUpdate.
  cbn [fst snd payments subscriptions nextId].
  rewrite Hfind. cbn [fmap option_fmap option_map].
  split; [done |]. split; [done |].
  exists (Payment.applyPatch patch old). eexists.
  split; [done |].
  split; [apply applyPatch_sameEntry, activateSet_keepsIdentity |].
  split; [done |]. split; [done |]. split; [done |].
  split; [apply lookup_insert_eq |]. done.
Qed.

Lemma activate_stored_transaction_witness :
  let r := activate (Some "u2") 3000
             (sampleBody "pkg.yearly" (Some "t1") None) dbAfterFirst in
  length (payments r.1) = length (payments dbAfterFirst) /\
  nextId r.1 = nextId dbAfterFirst /\
  exists e row,
    Payment.findOne "t1" (payments r.1) = Some e /\
    sameEntry firstEntry e /\
    Payment.userId e = Payment.userId firstEntry /\
    Payment.amountCents e = JFinite (499 # 1) /\
    Payment.rawPayload e =
      Some (RawActivate (sampleBody "pkg.yearly" (Some "t1") None)) /\
    subscriptions r.1 !! "u2" = Some row /\
    status row = active /\
    latestPaymentId row = Some (Payment._id firstEntry).
Proof.
  apply (activate_stored_transaction "u2" 3000
           (sampleBody "pkg.yearly" (Some "t1") None) dbAfterFirst
           "pkg.yearly" "t1" Payment.app_store Payment.ios (499 # 1)%Q "usd"
           firstEntry).
  - discriminate.
  - apply sampleBody_admitted; discriminate.
  - reflexivity.
Defined.

End StoredTransaction.

(** * The later revision of the webhook *)

(** The revision of [src/routes/revenuecatWebhook.ts] kept beside
    [account.ts].  It accepts the secret with or without [Bearer], trims the
    strings it reads, takes the amount from the event, revokes on REFUND and
    REVOCATION, and writes the mutable paths of a ledger entry under [$set].
    As everywhere, the case functions act on the ASCII letters. *)
Module RevenuecatWebhookV2.
Import Subscription RcEventV2.

Definition timingSafeEqual (a b : string) : bool :=
  if negb (String.length a =? String.length b)%nat then false
  else String.eqb a b.

(** The first seven characters of a string whose lower-casing starts with
    ["bearer "] are ASCII, so [slice(7)] removes seven bytes. *)
Definition normalizeAuthHeader (v : string) : string :=
  let s := trim v in
  if String.eqb s "" then ""
  else if String.prefix "bearer " (toLowerCase s) then trim (slice 7 s)
  else s.

Definition planFromProductId (productId : option string) : Plan :=
  match productId with
  | None => free
  | Some productId =>
      if String.eqb productId "" then free
      else if includes productId ".monthly" then monthly
      else if includes productId ".yearly" then yearly
      else if includes productId ".lifetime" then lifetime
      else free
  end.

Definition providerFromStore (store : option string) : Payment.Provider :=
  let s := toLowerCase (if truthy store then default "" store else "") in
  if includes s "play" || includes s "google" then Payment.google_play
  else if includes s "app_store" || includes s "apple" || includes s "ios"
       then Payment.app_store
  else if includes s "stripe" then Payment.stripe
  else Payment.promo.

Definition subSourceFromProvider (provider : Payment.Provider) : SubSource :=
  match provider with
  | Payment.google_play => google_play
  | Payment.app_store => app_store
  | Payment.stripe => stripe
  | Payment.promo => admin
  end.

Definition safeString (v : option string) : option string :=
  match v with
  | Some v => if (0 <? String.length (trim v))%nat then Some (trim v) else None
  | None => None
  end.

(** [a || b] on [string | undefined]. *)
Definition orElse (a b : option string) : option string :=
  if truthy a then a else b.

Definition pickCurrency (ev : RcEventV2.t) : string :=
  let c :=
    orElse (safeString (currency ev))
      (orElse (safeString (price_currency ev))
         (orElse (safeString (price_currency_code ev))
            (orElse (safeString (presented_currency ev)) (Some "USD")))) in
  toUpperCase (default "" c).

Definition toCentsFromUnknown (v : Price) : option jsnum :=
  match v with
  | PriceNumber v =>
      if isFinite v then Some (Math_round (times100 v)) else None
  | PriceString n =>
      if isFinite n then Some (Math_round (times100 n)) else None
  | PriceOther => None
  end.

(** The loop over the candidates. *)
Fixpoint firstCents (candidates : list Price) : option jsnum :=
  match candidates with
  | [] => None
  | c :: rest =>
      match toCentsFromUnknown c with
      | Some cents =>
          if isFinite cents && geZero cents then Some cents
          else firstCents rest
      | None => firstCents rest
      end
  end.

Definition extractAmountCents (ev : RcEventV2.t) : option jsnum :=
  firstCents [price ev; price_in_purchased_currency ev;
              price_in_local_currency ev; revenue ev].

Definition isPurchaseLikeEvent (type : string) : bool :=
  String.eqb type "INITIAL_PURCHASE" ||
  String.eqb type "RENEWAL" ||
  String.eqb type "NON_RENEWING_PURCHASE" ||
  String.eqb type "UNCANCELLATION" ||
  String.eqb type "PRODUCT_CHANGE".

Definition isRefundLikeEvent (type : string) (cancelReason : option string)
  : bool :=
  let r := toUpperCase (if truthy cancelReason then default "" cancelReason
                        else "") in
  if String.eqb type "REFUND" || String.eqb type "REVOCATION" then true
  else if String.eqb type "CANCELLATION" && String.eqb r "CUSTOMER_SUPPORT"
       then true
  else false.

(** The conditional that gives the [platform] of the ledger entry. *)
Definition platformOfProvider (provider : Payment.Provider)
  : Payment.Platform :=
  match provider with
  | Payment.app_store => Payment.ios
  | Payment.google_play => Payment.android
  | _ => Payment.web
  end.

(** [router.post("/webhooks/revenuecat", ...)]: [expectedRaw] is the
    environment variable [REVENUECAT_WEBHOOK_AUTH], [authorization] the
    request header, [now] the clock read by [new Date()].  The responses are
    those of the earlier revision. *)
Definition post (expectedRaw authorization : option string) (now : Z)
    (body : WebhookBodyV2) (db : Db) : Db * RevenuecatWebhook.Reply :=
  if truthy expectedRaw &&
     (let expected := normalizeAuthHeader (default "" expectedRaw) in
      let got := normalizeAuthHeader (default "" authorization) in
      negb (truthy (Some expected)) || negb (truthy (Some got)) ||
      negb (timingSafeEqual got expected))
  then (db, RevenuecatWebhook.Unauthorized)
  else
  match eventV2 body with
  | None => (db, RevenuecatWebhook.MissingEvent)
  | Some ev =>
  if negb (truthy (type ev)) then (db, RevenuecatWebhook.MissingEvent) else
  let type := default "" (type ev) in
  let userId := safeString (app_user_id ev) in
  let productId := safeString (product_id ev) in
  let transactionId := safeString (transaction_id ev) in
  let originalTransactionId := safeString (original_transaction_id ev) in
  let store := safeString (store ev) in
  let cancelReason := safeString (cancel_reason ev) in
  let expirationAtMs := expiration_at_ms ev in
  let purchasedAtMs := purchased_at_ms ev in
  let currency := pickCurrency ev in
  let amountCents := extractAmountCents ev in
  if negb (truthy userId) then (db, RevenuecatWebhook.Skipped) else
  let userId := default "" userId in
  let plan := planFromProductId productId in
  let renewsAt := dateIfTruthy expirationAtMs in
  let startedAt := default now (dateIfTruthy purchasedAtMs) in
  let provider := providerFromStore store in
  let source := subSourceFromProvider provider in
  if isPurchaseLikeEvent type then
    let db1 :=
      if truthy transactionId then
        PaymentModel_updateOne (default "" transactionId)
          {| Payment.p_userId := Value userId;
             Payment.p_platform := Value (platformOfProvider provider);
             Payment.p_provider := Value provider;
             Payment.p_productId := Value (default "unknown" productId);
             Payment.p_transactionId := Value (default "" transactionId);
             Payment.p_originalTransactionId := ofOption originalTransactionId;
             Payment.p_amountCents := NoKey;
             Payment.p_currency := NoKey;
             Payment.p_purchasedAt := NoKey;
             Payment.p_expiresAt := NoKey;
             Payment.p_rawPayload := NoKey |}
          {| Payment.p_userId := NoKey;
             Payment.p_platform := NoKey;
             Payment.p_provider := NoKey;
             Payment.p_productId := NoKey;
             Payment.p_transactionId := NoKey;
             Payment.p_originalTransactionId := NoKey;
             Payment.p_amountCents :=
               Value (default (JFinite (0 # 1)) amountCents);
             Payment.p_currency := Value currency;
             Payment.p_purchasedAt := Value startedAt;
             Payment.p_expiresAt := ofOption renewsAt;
             Payment.p_rawPayload := Value (RawWebhookV2 body) |}
          db
      else db in
    ((SubscriptionModel_findOneAndUpdate userId
        {| set_plan := plan;
           set_status := active;
           set_source := source;
           set_startedAt := Value startedAt;
           set_renewsAt := ofOption renewsAt;
           set_canceledAt := Undefined;
           set_latestPaymentId := NoKey |} db1).1, RevenuecatWebhook.Ok)
  else if isRefundLikeEvent type cancelReason then
    ((SubscriptionModel_findOneAndUpdate userId
        {| set_plan := free;
           set_status := inactive;
           set_source := source;
           set_startedAt := NoKey;
           set_renewsAt := Undefined;
           set_canceledAt := Value now;
           set_latestPaymentId := NoKey |} db).1, RevenuecatWebhook.Revoked)
  else if String.eqb type "CANCELLATION" then
    ((SubscriptionModel_findOneAndUpdate userId
        {| set_plan := plan;
           set_status := canceled;
           set_source := source;
           set_startedAt := NoKey;
           set_renewsAt := ofOption renewsAt;
           set_canceledAt := Value now;
           set_latestPaymentId := NoKey |} db).1, RevenuecatWebhook.Canceled)
  else if String.eqb type "EXPIRATION" then
    ((SubscriptionModel_findOneAndUpdate userId
        {| set_plan := free;
           set_status := expired;
           set_source := source;
           set_startedAt := NoKey;
           set_renewsAt := Undefined;
           set_canceledAt := Value now;
           set_latestPaymentId := NoKey |} db).1, RevenuecatWebhook.Expired)
  else (db, RevenuecatWebhook.Ignored type)
  end.

End RevenuecatWebhookV2.

Section Classification.
Import RevenuecatWebhookV2.

(** The later revision classifies as refund-like everything the cited one
    does, and besides the types REFUND and REVOCATION with any cancel reason,
    which the cited one leaves unclassified, and a CANCELLATION whose reason
    is CUSTOMER_SUPPORT in any letter case.  Both revisions agree on the
    purchase-like types, and with either a purchase-like type is never
    refund-like. *)
Theorem refund_classification_extended :
  (forall type cancelReason,
      RevenuecatWebhook.looksLikeRefund type cancelReason = true ->
      isRefundLikeEvent type cancelReason = true) /\
  (forall cancelReason,
      isRefundLikeEvent "REFUND" cancelReason = true /\
      isRefundLikeEvent "REVOCATION" cancelReason = true /\
      RevenuecatWebhook.looksLikeRefund "REFUND" cancelReason = false /\
      RevenuecatWebhook.looksLikeRefund "REVOCATION" cancelReason = false) /\
  (forall reason,
      toUpperCase reason = "CUSTOMER_SUPPORT" ->
      isRefundLikeEvent "CANCELLATION" (Some reason) = true) /\
  (forall type,
      isPurchaseLikeEvent type = RevenuecatWebhook.isPurchaseLike type) /\
  (forall type cancelReason,
      isPurchaseLikeEvent type = true ->
      isRefundLikeEvent type cancelReason = false /\
      RevenuecatWebhook.looksLikeRefund type cancelReason = false).
Proof.
  split; [| split; [| split; [| split]]].
  - intros type cancelReason H. unfold RevenuecatWebhook.looksLikeRefund in H.
    apply andb_true_iff in H as [Ht Hr].
    apply bool_decide_eq_true in Hr. subst cancelReason.
    unfold isRefundLikeEvent. rewrite Ht.
    by destruct (_ || _).
  - done.
  - intros reason H. unfold isRefundLikeEvent.
    destruct reason as [|c reason]; [discriminate H |].
    change (truthy (Some (String c reason))) with true.
    change (default "" (Some (String c reason))) with (String c reason).
    cbv iota. rewrite H. reflexivity.
  - done.
  - intros type cancelReason H.
    unfold isPurchaseLikeEvent in H.
    repeat match goal with
           | H : _ || _ = true |- _ => apply orb_true_iff in H as [H | H]
           end;
      apply String.eqb_eq in H; by subst type.
Qed.

End Classification.

(** * Properties of the later revision of the webhook *)

(** ** White space and the authorization header *)

Lemma afterSpace_length (s s' : string) :
  afterSpace s = Some s' -> String.length s' < String.length s.
Proof.
  unfold afterSpace. intros H.
  repeat case_match; simplify_eq; cbn [String.length]; lia.
Qed.

Lemma dropSpaces_length (n : nat) (s : string) :
  String.length (dropSpaces n s) <= String.length s.
Proof.
  revert s. induction n as [|n IH]; intros s; cbn [dropSpaces]; [lia |].
  destruct (afterSpace s) as [s'|] eqn:E; [| lia].
  apply afterSpace_length in E. specialize (IH s'). lia.
Qed.

Lemma trimStart_id (s : string) : afterSpace s = None -> trimStart s = s.
Proof.
  intros H. destruct s as [|a s]; [done |].
  unfold trimStart. cbn [String.length dropSpaces]. by rewrite H.
Qed.

Lemma trimStart_shorter (s s' : string) :
  afterSpace s = Some s' -> String.length (trimStart s) < String.length s.
Proof.
  intros H. destruct s as [|a s]; [done |].
  unfold trimStart. cbn [String.length dropSpaces]. rewrite H.
  pose proof (afterSpace_length _ _ H) as H1.
  pose proof (dropSpaces_length (String.length s) s') as H2.
  cbn [String.length] in H1. lia.
Qed.

Lemma trimEnd_length (s : string) :
  String.length (trimEnd s) <= String.length s.
Proof.
  induction s as [|a s IH]; [done |]. cbn [trimEnd].
  destruct (String.eqb _ _); cbn [String.length]; lia.
Qed.

Lemma trimEnd_cons (a : ascii) (s : string) :
  trimStart (String a s) <> "" ->
  trimEnd (String a s) = String a (trimEnd s).
Proof.
  intros H. cbn [trimEnd]. by rewrite (proj2 (String.eqb_neq _ _) H).
Qed.

(** A string that [trim] leaves alone has no white space at either end. *)
Lemma trim_fixed (s : string) :
  trim s = s -> trimStart s = s /\ trimEnd s = s.
Proof.
  unfold trim. intros H. destruct (afterSpace s) as [s'|] eqn:E.
  - pose proof (trimStart_shorter _ _ E) as H1.
    pose proof (trimEnd_length (trimStart s)) as H2.
    rewrite H in H2. lia.
  - rewrite (trimStart_id _ E) in H. by rewrite (trimStart_id _ E).
Qed.

Lemma normalizeAuthHeader_plain (s : string) :
  s <> "" -> trim s = s ->
  String.prefix "bearer " (toLowerCase s) = false ->
  RevenuecatWebhookV2.normalizeAuthHeader s = s.
Proof.
  intros Hne Ht Hp. unfold RevenuecatWebhookV2.normalizeAuthHeader.
  by rewrite Ht, (proj2 (String.eqb_neq _ _) Hne), Hp.
Qed.

(** A string that starts with a visible ASCII character has no white space
    at its start. *)
Lemma afterSpace_visible (a : ascii) (s : string) :
  (32 <? nat_of_ascii a)%nat && (nat_of_ascii a <? 128)%nat = true ->
  afterSpace (String a s) = None.
Proof.
  intros H. destruct s as [|b [|c s]];
    destruct a as [[] [] [] [] [] [] [] []]; try discriminate H; reflexivity.
Qed.

Lemma trimStart_visible (a : ascii) (s : string) :
  (32 <? nat_of_ascii a)%nat && (nat_of_ascii a <? 128)%nat = true ->
  trimStart (String a s) <> "".
Proof. intros H. by rewrite (trimStart_id _ (afterSpace_visible _ _ H)). Qed.

Lemma normalizeAuthHeader_bearer (s : string) :
  s <> "" -> trim s = s ->
  RevenuecatWebhookV2.normalizeAuthHeader ("Bearer " +:+ s) = s.
Proof.
  intros Hne Ht. destruct (trim_fixed _ Ht) as [Hs He].
  assert (trimStart (String " " s) <> "") as Hsp.
  { change (trimStart (String " " s)) with (trimStart s). by rewrite Hs. }
  assert (trim ("Bearer " +:+ s) = "Bearer " +:+ s) as Hb.
  { change ("Bearer " +:+ s)
      with (String "B" (String "e" (String "a" (String "r" (String "e"
              (String "r" (String " " s))))))).
    unfold trim. rewrite (trimStart_id _ (afterSpace_visible "B" _ eq_refl)).
    rewrite !trimEnd_cons;
      [by rewrite He | done | by apply trimStart_visible ..]. }
  unfold RevenuecatWebhookV2.normalizeAuthHeader. rewrite Hb.
  change (String.eqb ("Bearer " +:+ s) "") with false. cbv iota.
  assert (String.prefix "bearer " (toLowerCase ("Bearer " +:+ s)) = true) as ->.
  { apply prefix_true_iff. by exists (toLowerCase s). }
  change (slice 7 ("Bearer " +:+ s)) with s. exact Ht.
Qed.

Lemma gate_open_iff (expected got : string) :
  negb (truthy (Some expected)) || negb (truthy (Some got)) ||
  negb (RevenuecatWebhookV2.timingSafeEqual got expected) = false <->
  expected <> "" /\ got = expected.
Proof.
  cbn [truthy]. rewrite !negb_involutive, !orb_false_iff, negb_false_iff.
  rewrite !String.eqb_neq.
  change (RevenuecatWebhookV2.timingSafeEqual got expected)
    with (RevenuecatWebhook.timingSafeEqual got expected).
  rewrite timingSafeEqual_true_iff. split.
  - intros [[H1 H2] H3]. done.
  - intros [H1 ->]. done.
Qed.

(** The request passes the check of the [authorization] header: no secret is
    configured, or the configured value names a secret and the header names
    the same one. *)
Definition passes (expectedRaw authorization : option string) : Prop :=
  truthy expectedRaw = false \/
  (RevenuecatWebhookV2.normalizeAuthHeader (default "" expectedRaw) <> "" /\
   RevenuecatWebhookV2.normalizeAuthHeader (default "" authorization) =
   RevenuecatWebhookV2.normalizeAuthHeader (default "" expectedRaw)).

Lemma passes_check (expectedRaw authorization : option string) :
  passes expectedRaw authorization ->
  truthy expectedRaw &&
  (let expected :=
     RevenuecatWebhookV2.normalizeAuthHeader (default "" expectedRaw) in
   let got :=
     RevenuecatWebhookV2.normalizeAuthHeader (default "" authorization) in
   negb (truthy (Some expected)) || negb (truthy (Some got)) ||
   negb (RevenuecatWebhookV2.timingSafeEqual got expected)) = false.
Proof.
  intros [H | H]; [by rewrite H |].
  cbv zeta. rewrite (proj2 (gate_open_iff _ _) H). apply andb_false_r.
Qed.

Section WebhookV2.
Import Subscription RcEventV2 RevenuecatWebhookV2.

(** The check of the header, as [post] writes it. *)
Definition refused (expectedRaw authorization : option string) : bool :=
  truthy expectedRaw &&
  (let expected := normalizeAuthHeader (default "" expectedRaw) in
   let got := normalizeAuthHeader (default "" authorization) in
   negb (truthy (Some expected)) || negb (truthy (Some got)) ||
   negb (timingSafeEqual got expected)).

Lemma post_refused (expectedRaw authorization : option string) (now : Z)
    (body : WebhookBodyV2) (db : Db) :
  ((post expectedRaw authorization now body db).2 =
     RevenuecatWebhook.Unauthorized <->
   refused expectedRaw authorization = true) /\
  ((post expectedRaw authorization now body db).2 =
     RevenuecatWebhook.Unauthorized ->
   (post expectedRaw authorization now body db).1 = db).
Proof.
  unfold post. fold (refused expectedRaw authorization).
  destruct (refused expectedRaw authorization); [done |].
  split; [split; [| done] |]; repeat case_match; cbn [snd]; discriminate.
Qed.

(** The later revision answers 401 exactly when a secret is configured
    and the configured value names no secret, or the header names none, or
    they name different ones, where the secret a value names is the value
    without surrounding white space and without a leading [Bearer]; a 401
    writes nothing.  A secret without white space at its ends is accepted
    with and without [Bearer], and may be configured either way. *)
Theorem webhook_auth_gate (expectedRaw authorization : option string)
    (now : Z) (body : WebhookBodyV2) (db : Db) :
  let expected := normalizeAuthHeader (default "" expectedRaw) in
  let got := normalizeAuthHeader (default "" authorization) in
  ((post expectedRaw authorization now body db).2 =
     RevenuecatWebhook.Unauthorized <->
   truthy expectedRaw = true /\
   (expected = "" \/ got = "" \/ got <> expected)) /\
  ((post expectedRaw authorization now body db).2 =
     RevenuecatWebhook.Unauthorized ->
   (post expectedRaw authorization now body db).1 = db) /\
  (forall secret,
      secret <> "" -> trim secret = secret ->
      String.prefix "bearer " (toLowerCase secret) = false ->
      forall e h,
        e = secret \/ e = "Bearer " +:+ secret ->
        h = secret \/ h = "Bearer " +:+ secret ->
        (post (Some e) (Some h) now body db).2 <>
          RevenuecatWebhook.Unauthorized).
Proof.
  intros expected got.
  destruct (post_refused expectedRaw authorization now body db) as [Hiff Hdb].
  split; [| split; [exact Hdb |]].
  - rewrite Hiff. unfold refused. fold expected got. cbv zeta.
    rewrite andb_true_iff.
    assert (negb (truthy (Some expected)) || negb (truthy (Some got)) ||
            negb (timingSafeEqual got expected) = true <->
            expected = "" \/ got = "" \/ got <> expected) as ->; [| done].
    pose proof (gate_open_iff expected got) as Hg.
    destruct (_ || _ || _).
    + split; [intros _ | done].
      destruct (decide (expected = "")) as [| Hne]; [by left |].
      destruct (decide (got = expected)) as [Heq |]; [| by right; right].
      discriminate (proj2 Hg (conj Hne Heq)).
    + destruct (proj1 Hg eq_refl) as [Hne Heq].
      split; [done |]. intros [H | [H | H]]; congruence.
  - intros secret Hne Ht Hp e h He Hh.
    destruct (post_refused (Some e) (Some h) now body db) as [Hiff' _].
    rewrite Hiff'. apply not_true_iff_false. apply passes_check. right.
    cbn [default from_option id].
    assert (normalizeAuthHeader e = secret) as ->.
    { destruct He as [-> | ->];
        [by apply normalizeAuthHeader_plain
        | by apply normalizeAuthHeader_bearer]. }
    assert (normalizeAuthHeader h = secret) as ->.
    { destruct Hh as [-> | ->];
        [by apply normalizeAuthHeader_plain
        | by apply normalizeAuthHeader_bearer]. }
    done.
Qed.

(** The check at sample values: the secret is accepted raw and with
    [Bearer], in any letter case and with white space around it, also when the
    configured value carries [Bearer]; another secret and a missing header are
    refused; a configured value of blanks refuses every request. *)
Lemma webhook_auth_gate_samples :
  refused (Some "s3cret") (Some "s3cret") = false /\
  refused (Some "s3cret") (Some "Bearer s3cret") = false /\
  refused (Some "Bearer s3cret") (Some "  bearer   s3cret ") = false /\
  refused (Some "s3cret") (Some "s3cre") = true /\
  refused (Some "s3cret") (Some "Bearer ") = true /\
  refused (Some "s3cret") None = true /\
  refused (Some "   ") (Some "   ") = true /\
  refused None (Some "anything") = false /\
  refused (Some "") None = false.
Proof. repeat split; vm_compute; reflexivity. Qed.

(** *** Entering the handler *)

Lemma passes_refused (expectedRaw authorization : option string) :
  passes expectedRaw authorization -> refused expectedRaw authorization = false.
Proof. apply passes_check. Qed.

Lemma safeString_truthy (v : option string) (u : string) :
  safeString v = Some u -> u <> "".
Proof.
  unfold safeString. destruct v as [v|]; [| done].
  destruct (trim v) as [|a t]; cbn; [done |]. by intros [= <-].
Qed.

Lemma safeString_fixed (u : string) :
  u <> "" -> trim u = u -> safeString (Some u) = Some u.
Proof.
  intros Hne Ht. unfold safeString. rewrite Ht.
  by destruct u.
Qed.

Lemma isRefundLikeEvent_type (ty : string) (reason : option string) :
  isRefundLikeEvent ty reason = true ->
  ty <> "" /\ isPurchaseLikeEvent ty = false.
Proof.
  unfold isRefundLikeEvent.
  destruct (String.eqb_spec ty "REFUND") as [-> | _]; [done |].
  destruct (String.eqb_spec ty "REVOCATION") as [-> | _]; [done |].
  destruct (String.eqb_spec ty "CANCELLATION") as [-> | _]; [done |].
  done.
Qed.

Lemma isPurchaseLikeEvent_type (ty : string) :
  isPurchaseLikeEvent ty = true -> ty <> "".
Proof. by intros H ->. Qed.

(** The update of a refund-like event. *)
Definition revokeUpdate (now : Z) (ev : RcEventV2.t) : Update :=
  {| set_plan := free;
     set_status := inactive;
     set_source :=
       subSourceFromProvider (providerFromStore (safeString (store ev)));
     set_startedAt := NoKey;
     set_renewsAt := Undefined;
     set_canceledAt := Value now;
     set_latestPaymentId := NoKey |}.

Lemma post_refund_like (expectedRaw authorization : option string) (now : Z)
    (body : WebhookBodyV2) (ev : RcEventV2.t) (ty userId : string) (db : Db) :
  passes expectedRaw authorization ->
  eventV2 body = Some ev ->
  type ev = Some ty ->
  isRefundLikeEvent ty (safeString (cancel_reason ev)) = true ->
  safeString (app_user_id ev) = Some userId ->
  post expectedRaw authorization now body db =
  ((SubscriptionModel_findOneAndUpdate userId (revokeUpdate now ev) db).1,
   RevenuecatWebhook.Revoked).
Proof.
  intros Hpass Hev Hty Hr Huid.
  destruct (isRefundLikeEvent_type _ _ Hr) as [Hne Hp].
  pose proof (safeString_truthy _ _ Huid) as Hune.
  unfold post. fold (refused expectedRaw authorization).
  rewrite (passes_refused _ _ Hpass), Hev. cbv beta iota.
  rewrite Hty, Huid. cbn [truthy default from_option id].
  rewrite (proj2 (String.eqb_neq _ _) Hne), (proj2 (String.eqb_neq _ _) Hune).
  cbn [negb]. cbv beta iota zeta. by rewrite Hp, Hr.
Qed.

(** The two operators of the ledger upsert. *)
Definition ledgerOnInsert (ev : RcEventV2.t) (userId tid : string)
  : Payment.Patch RawBody :=
  let provider := providerFromStore (safeString (store ev)) in
  {| Payment.p_userId := Value userId;
     Payment.p_platform := Value (platformOfProvider provider);
     Payment.p_provider := Value provider;
     Payment.p_productId :=
       Value (default "unknown" (safeString (product_id ev)));
     Payment.p_transactionId := Value tid;
     Payment.p_originalTransactionId :=
       ofOption (safeString (original_transaction_id ev));
     Payment.p_amountCents := NoKey;
     Payment.p_currency := NoKey;
     Payment.p_purchasedAt := NoKey;
     Payment.p_expiresAt := NoKey;
     Payment.p_rawPayload := NoKey |}.

Definition ledgerSet (now : Z) (body : WebhookBodyV2) (ev : RcEventV2.t)
  : Payment.Patch RawBody :=
  {| Payment.p_userId := NoKey;
     Payment.p_platform := NoKey;
     Payment.p_provider := NoKey;
     Payment.p_productId := NoKey;
     Payment.p_transactionId := NoKey;
     Payment.p_originalTransactionId := NoKey;
     Payment.p_amountCents :=
       Value (default (JFinite (0 # 1)) (extractAmountCents ev));
     Payment.p_currency := Value (pickCurrency ev);
     Payment.p_purchasedAt :=
       Value (default now (dateIfTruthy (purchased_at_ms ev)));
     Payment.p_expiresAt := ofOption (dateIfTruthy (expiration_at_ms ev));
     Payment.p_rawPayload := Value (RawWebhookV2 body) |}.

Lemma ledgerSet_keepsIdentity (now : Z) (body : WebhookBodyV2)
    (ev : RcEventV2.t) : keepsIdentity (ledgerSet now body ev).
Proof. by repeat split. Qed.

(** The ledger after a purchase-like event that carries a transaction id. *)
Lemma post_purchase_like_payments (expectedRaw authorization : option string)
    (now : Z) (body : WebhookBodyV2) (ev : RcEventV2.t)
    (ty userId tid : string) (db : Db) :
  passes expectedRaw authorization ->
  eventV2 body = Some ev ->
  type ev = Some ty -> isPurchaseLikeEvent ty = true ->
  safeString (app_user_id ev) = Some userId ->
  safeString (transaction_id ev) = Some tid ->
  (post expectedRaw authorization now body db).2 = RevenuecatWebhook.Ok /\
  payments (post expectedRaw authorization now body db).1 =
  (Payment.updateOne (nextId db) tid (ledgerOnInsert ev userId tid)
     (ledgerSet now body ev) (payments db)).1.
Proof.
  intros Hpass Hev Hty Hp Huid Htid.
  pose proof (isPurchaseLikeEvent_type _ Hp) as Hne.
  pose proof (safeString_truthy _ _ Huid) as Hune.
  pose proof (safeString_truthy _ _ Htid) as Htne.
  unfold post. fold (refused expectedRaw authorization).
  rewrite (passes_refused _ _ Hpass), Hev. cbv beta iota.
  rewrite Hty, Huid, Htid. cbn [truthy default from_option id].
  rewrite (proj2 (String.eqb_neq _ _) Hne), (proj2 (String.eqb_neq _ _) Hune),
    (proj2 (String.eqb_neq _ _) Htne).
  cbn [negb]. cbv beta iota zeta. rewrite Hp.
  split; [reflexivity |].
  cbn [fst]. rewrite findOneAndUpdate_payments. apply updateOne_payments.
Qed.

(** *** Sample data *)

(** An event for user [u1] that carries nothing but its type and a cancel
    reason. *)
Definition bareRcEventV2 (ty : string) (reason : option string)
  : RcEventV2.t :=
  {| type := Some ty; app_user_id := Some "u1"; product_id := None;
     transaction_id := None; original_transaction_id := None;
     store := Some "app_store"; cancel_reason := reason;
     expiration_at_ms := None; purchased_at_ms := None;
     currency := None; price_currency := None;
     price_currency_code := None; presented_currency := None;
     price := PriceOther;
     price_in_purchased_currency := PriceOther;
     price_in_local_currency := PriceOther;
     revenue := PriceOther |}.

Definition bareEventV2 (ty : string) (reason : option string)
  : WebhookBodyV2 :=
  {| eventV2 := Some (bareRcEventV2 ty reason) |}.

(** A purchase of transaction [t1]. *)
Definition purchaseRcV2 (uid pid shop cur : string) (amount : Z)
    (purchased : Z) (expiry : option Z) : RcEventV2.t :=
  {| type := Some "INITIAL_PURCHASE"; app_user_id := Some uid;
     product_id := Some pid; transaction_id := Some "t1";
     original_transaction_id := None;
     store := Some shop; cancel_reason := None;
     expiration_at_ms := expiry; purchased_at_ms := Some purchased;
     currency := Some cur; price_currency := None;
     price_currency_code := None; presented_currency := None;
     price := PriceNumber (JFinite (amount # 1));
     price_in_purchased_currency := PriceOther;
     price_in_local_currency := PriceOther;
     revenue := PriceOther |}.

Definition purchaseV2 (uid pid shop cur : string) (amount : Z)
    (purchased : Z) (expiry : option Z) : WebhookBodyV2 :=
  {| eventV2 := Some (purchaseRcV2 uid pid shop cur amount purchased expiry) |}.

(** *** Refund-like events *)

(** C1 at a failing input.  The user holds a monthly, active row that renews
    at 2000.  A REFUND, a REVOCATION and a CANCELLATION with cancel reason
    CUSTOMER_SUPPORT each revoke: the row ends on plan free, status inactive,
    [canceledAt] = now.  Its [renewsAt] is not cleared: the update names the
    key with the value [undefined], which the cast removes. *)
Lemma refund_keeps_renewsAt :
  let revoked :=
    {| userId := "u1"; plan := free; status := inactive; source := app_store;
       startedAt := Some 1000%Z; renewsAt := Some 2000%Z;
       canceledAt := Some 3000%Z; latestPaymentId := None |} in
  let after ty reason :=
    post None None 3000 (bareEventV2 ty reason) (dbWith monthlyRow) in
  renewsAt monthlyRow = Some 2000%Z /\
  (after "REFUND" None).2 = RevenuecatWebhook.Revoked /\
  subscriptions (after "REFUND" None).1 !! "u1" = Some revoked /\
  (after "REVOCATION" None).2 = RevenuecatWebhook.Revoked /\
  subscriptions (after "REVOCATION" None).1 !! "u1" = Some revoked /\
  (after "CANCELLATION" (Some "CUSTOMER_SUPPORT")).2 =
    RevenuecatWebhook.Revoked /\
  subscriptions (after "CANCELLATION" (Some "CUSTOMER_SUPPORT")).1 !! "u1" =
    Some revoked.
Proof. repeat split; vm_compute; reflexivity. Qed.

(** What a refund-like event does write.  An authorized event of a resolvable
    user whose type is REFUND or REVOCATION, or CANCELLATION with the cancel
    reason CUSTOMER_SUPPORT, is answered as revoked; the user's row has plan
    free, status inactive and [canceledAt] = now; a row created by the event
    has no [renewsAt]; the ledger is not written. *)
Theorem refund_like_revokes (expectedRaw authorization : option string)
    (now : Z) (body : WebhookBodyV2) (ev : RcEventV2.t) (ty userId : string)
    (db : Db) :
  passes expectedRaw authorization ->
  eventV2 body = Some ev ->
  type ev = Some ty ->
  ty = "REFUND" \/ ty = "REVOCATION" \/
    (ty = "CANCELLATION" /\ cancel_reason ev = Some "CUSTOMER_SUPPORT") ->
  safeString (app_user_id ev) = Some userId ->
  let r := post expectedRaw authorization now body db in
  r.2 = RevenuecatWebhook.Revoked /\
  payments r.1 = payments db /\
  (forall uid, uid <> userId ->
               subscriptions r.1 !! uid = subscriptions db !! uid) /\
  exists row,
    subscriptions r.1 !! userId = Some row /\
    plan row = free /\ status row = inactive /\ canceledAt row = Some now /\
    (subscriptions db !! userId = None -> renewsAt row = None).
Proof.
  intros Hpass Hev Hty Hcase Huid r. subst r.
  assert (isRefundLikeEvent ty (safeString (cancel_reason ev)) = true) as Hr.
  { destruct Hcase as [-> | [-> | [-> ->]]]; reflexivity. }
  rewrite (post_refund_like _ _ _ _ _ _ _ _ Hpass Hev Hty Hr Huid).
  cbn [fst snd]. split; [done |]. split; [done |]. split.
  - intros uid Hne. by apply findOneAndUpdate_other.
  - rewrite findOneAndUpdate_row. eexists. split; [reflexivity |].
    repeat split. intros Hnone. by rewrite Hnone.
Qed.

(** *** The ledger upsert *)

(** C3 at a failing input.  Transaction [t1] is delivered for user [u1] with
    amount 5, currency usd, purchase time 1000 and expiry 4000, and then
    again, for another user, product and store, with amount 9, currency eur,
    purchase time 1500 and no expiry.  The entry keeps the identity fields of
    the first delivery and takes amount, currency, purchase time and raw
    payload of the second; its [expiresAt] is not overwritten and still shows
    the expiry of the first delivery: [$set] names the key with the value
    [undefined], which the cast removes. *)
Lemma redelivery_keeps_expiresAt :
  let first := purchaseV2 "u1" "pkg.monthly" "app_store" "usd" 5 1000
                 (Some 4000%Z) in
  let second := purchaseV2 "u2" "pkg.yearly" "play_store" "eur" 9 1500 None in
  let db1 := (post None None 1100 first emptyDb).1 in
  let db2 := (post None None 1600 second db1).1 in
  payments db1 =
    [ {| Payment._id := 0;
         Payment.userId := "u1";
         Payment.platform := Payment.ios;
         Payment.provider := Payment.app_store;
         Payment.productId := "pkg.monthly";
         Payment.transactionId := "t1";
         Payment.originalTransactionId := None;
         Payment.amountCents := JFinite (500 # 1);
         Payment.currency := "USD";
         Payment.purchasedAt := 1000;
         Payment.expiresAt := Some 4000%Z;
         Payment.rawPayload := Some (RawWebhookV2 first) |} ] /\
  payments db2 =
    [ {| Payment._id := 0;
         Payment.userId := "u1";
         Payment.platform := Payment.ios;
         Payment.provider := Payment.app_store;
         Payment.productId := "pkg.monthly";
         Payment.transactionId := "t1";
         Payment.originalTransactionId := None;
         Payment.amountCents := JFinite (900 # 1);
         Payment.currency := "EUR";
         Payment.purchasedAt := 1500;
         Payment.expiresAt := Some 4000%Z;
         Payment.rawPayload := Some (RawWebhookV2 second) |} ].
Proof. split; vm_compute; reflexivity. Qed.

(** An upsert on a ledger that holds the transaction, with a [$set] that
    leaves the identity fields alone: the entry is the stored one under the
    patch, and no entry is added. *)
Lemma stored_entry_patched (oid : ObjectId) (tid : string)
    (onInsert set : Payment.Patch RawBody)
    (c : list (Payment.Document RawBody)) (old : Payment.Document RawBody)
    (P : Payment.Document RawBody -> Prop) :
  keepsIdentity set ->
  Payment.findOne tid c = Some old ->
  (forall e, e = Payment.applyPatch set old -> P e) ->
  length (Payment.updateOne oid tid onInsert set c).1 = length c /\
  exists e,
    Payment.findOne tid (Payment.updateOne oid tid onInsert set c).1 = Some e /\
    sameEntry old e /\
    P e.
Proof.
  intros Hk Hold HP. pose proof Hk as (_ & _ & _ & _ & Hs).
  destruct (updateOne_existing oid tid onInsert set c old Hs Hold)
    as (c' & Hc' & Hfind & _).
  assert (length c' = length c) as Hlen.
  { unfold Payment.updateOne in Hc'.
    destruct (Payment.updateFirst tid (Payment.applyPatch set) c)
      as [c1|] eqn:Hu1.
    - injection Hc' as <-. apply (updateFirst_length _ _ _ _ Hu1).
    - destruct (Payment.insertDoc _ _ _ _); [discriminate Hc' |].
      by injection Hc' as <-. }
  rewrite Hc'. cbn [fst]. split; [exact Hlen |].
  exists (Payment.applyPatch set old). split; [exact Hfind |].
  split; [by apply applyPatch_sameEntry | by apply HP].
Qed.

(** The entry the first delivery of an event inserts. *)
Definition ledgerEntry (oid : ObjectId) (now : Z) (body : WebhookBodyV2)
    (ev : RcEventV2.t) (userId tid : string) : Payment.Document RawBody :=
  let provider := providerFromStore (safeString (store ev)) in
  {| Payment._id := oid;
     Payment.userId := userId;
     Payment.platform := platformOfProvider provider;
     Payment.provider := provider;
     Payment.productId := default "unknown" (safeString (product_id ev));
     Payment.transactionId := tid;
     Payment.originalTransactionId :=
       safeString (original_transaction_id ev);
     Payment.amountCents := default (JFinite (0 # 1)) (extractAmountCents ev);
     Payment.currency := pickCurrency ev;
     Payment.purchasedAt := default now (dateIfTruthy (purchased_at_ms ev));
     Payment.expiresAt := dateIfTruthy (expiration_at_ms ev);
     Payment.rawPayload := Some (RawWebhookV2 body) |}.

Lemma insertDoc_ledger (oid : ObjectId) (now : Z) (body : WebhookBodyV2)
    (ev : RcEventV2.t) (userId tid : string) :
  Payment.insertDoc oid tid (ledgerOnInsert ev userId tid)
    (ledgerSet now body ev) =
  Some (ledgerEntry oid now body ev userId tid).
Proof.
  unfold Payment.insertDoc, ledgerEntry. cbn.
  by destruct (safeString (original_transaction_id ev)),
       (dateIfTruthy (expiration_at_ms ev)).
Qed.

(** How both write paths treat a ledger entry.  On the webhook path and on
    the activate path alike, the first delivery of a transaction id inserts
    the entry, and a later one keeps the entry's identifier and identity
    fields (userId, platform, provider, productId) and overwrites the amount,
    the currency, the purchase time and the raw payload; [expiresAt] is
    overwritten by a delivery that yields an expiry.  No delivery adds a
    second entry for the transaction.  The currency is the upper-cased one of
    the request when that is made of ASCII characters. *)
Theorem ledger_upsert_semantics :
  (* webhook, the transaction is already in the ledger *)
  (forall expectedRaw authorization now body ev ty userId tid db old,
      passes expectedRaw authorization ->
      eventV2 body = Some ev ->
      type ev = Some ty -> isPurchaseLikeEvent ty = true ->
      safeString (app_user_id ev) = Some userId ->
      safeString (transaction_id ev) = Some tid ->
      Payment.findOne tid (payments db) = Some old ->
      let r := post expectedRaw authorization now body db in
      length (payments r.1) = length (payments db) /\
      exists e,
        Payment.findOne tid (payments r.1) = Some e /\
        sameEntry old e /\
        Payment.originalTransactionId e = Payment.originalTransactionId old /\
        Payment.amountCents e =
          default (JFinite (0 # 1)) (extractAmountCents ev) /\
        (isAscii (pickCurrency ev) = true ->
         Payment.currency e = pickCurrency ev) /\
        Payment.purchasedAt e =
          default now (dateIfTruthy (purchased_at_ms ev)) /\
        Payment.rawPayload e = Some (RawWebhookV2 body) /\
        (forall t, dateIfTruthy (expiration_at_ms ev) = Some t ->
                   Payment.expiresAt e = Some t)) /\
  (* webhook, first insert *)
  (forall expectedRaw authorization now body ev ty userId tid db,
      passes expectedRaw authorization ->
      eventV2 body = Some ev ->
      type ev = Some ty -> isPurchaseLikeEvent ty = true ->
      safeString (app_user_id ev) = Some userId ->
      safeString (transaction_id ev) = Some tid ->
      Payment.findOne tid (payments db) = None ->
      payments (post expectedRaw authorization now body db).1 =
        payments db ++ [ledgerEntry (nextId db) now body ev userId tid]) /\
  (* activate, the transaction is already in the ledger *)
  (forall userId now body db productId transactionId provider platform
          amountCents currency old,
      userId <> "" ->
      admitted body productId transactionId provider platform amountCents
        currency ->
      Payment.findOne transactionId (payments db) = Some old ->
      let r := SubscriptionRoute.activate (Some userId) now body db in
      length (payments r.1) = length (payments db) /\
      exists e,
        Payment.findOne transactionId (payments r.1) = Some e /\
        sameEntry old e /\
        Payment.originalTransactionId e = Payment.originalTransactionId old /\
        Payment.amountCents e = JFinite amountCents /\
        (isAscii currency = true ->
         Payment.currency e = toUpperCase currency) /\
        Payment.purchasedAt e = now /\
        Payment.rawPayload e = Some (RawActivate body) /\
        (forall t,
            activateExpiry (activatePlan productId (ab_plan body))
              (ab_periodEnd body) = Some t ->
            Payment.expiresAt e = Some t)) /\
  (* activate, first insert *)
  (forall userId now body db productId transactionId provider platform
          amountCents currency,
      userId <> "" ->
      admitted body productId transactionId provider platform amountCents
        currency ->
      Payment.findOne transactionId (payments db) = None ->
      exists e,
        payments (SubscriptionRoute.activate (Some userId) now body db).1 =
          payments db ++ [e] /\
        Payment._id e = nextId db /\
        identity e = (userId, platform, provider, productId) /\
        Payment.transactionId e = transactionId /\
        Payment.amountCents e = JFinite amountCents /\
        (isAscii currency = true ->
         Payment.currency e = toUpperCase currency) /\
        Payment.purchasedAt e = now /\
        Payment.rawPayload e = Some (RawActivate body) /\
        Payment.expiresAt e =
          activateExpiry (activatePlan productId (ab_plan body))
            (ab_periodEnd body)).
Proof.
  split; [| split; [| split]].
  - intros expectedRaw authorization now body ev ty userId tid db old
      Hpass Hev Hty Hp Huid Htid Hold r. subst r.
    destruct (post_purchase_like_payments _ _ now _ _ _ _ _ db
                Hpass Hev Hty Hp Huid Htid) as [_ ->].
    apply stored_entry_patched; [apply ledgerSet_keepsIdentity | exact Hold |].
    intros e ->. repeat split.
    intros t Ht. cbn. by rewrite Ht.
  - intros expectedRaw authorization now body ev ty userId tid db
      Hpass Hev Hty Hp Huid Htid Hnone.
    destruct (post_purchase_like_payments _ _ now _ _ _ _ _ db
                Hpass Hev Hty Hp Huid Htid) as [_ ->].
    by rewrite (updateOne_absent _ _ _ _ _ _ Hnone (insertDoc_ledger _ _ _ _ _ _)).
  - intros userId now body db productId transactionId provider platform
      amountCents currency old Hu Hadm Hold r. subst r.
    rewrite (activate_payments _ _ _ _ _ _ _ _ _ _ Hu Hadm).
    apply stored_entry_patched;
      [apply activateSet_keepsIdentity | exact Hold |].
    intros e ->. repeat split.
    intros t Ht. cbn. by rewrite Ht.
  - intros userId now body db productId transactionId provider platform
      amountCents currency Hu Hadm Hnone.
    rewrite (activate_payments _ _ _ _ _ _ _ _ _ _ Hu Hadm).
    rewrite (updateOne_absent _ _ _ _ _ _ Hnone
               (insertDoc_activate _ _ _ _ _ _ _ _ _ _ _)).
    cbn [fst]. eexists. split; [reflexivity |]. by repeat split.
Qed.

End WebhookV2.

Lemma refund_like_revokes_witness :
  let r := RevenuecatWebhookV2.post None None 3000
             (bareEventV2 "REVOCATION" None) (dbWith monthlyRow) in
  r.2 = RevenuecatWebhook.Revoked /\
  payments r.1 = payments (dbWith monthlyRow) /\
  (forall uid, uid <> "u1" ->
               subscriptions r.1 !! uid =
               subscriptions (dbWith monthlyRow) !! uid) /\
  exists row,
    subscriptions r.1 !! "u1" = Some row /\
    Subscription.plan row = Subscription.free /\
    Subscription.status row = Subscription.inactive /\
    Subscription.canceledAt row = Some 3000%Z /\
    (subscriptions (dbWith monthlyRow) !! "u1" = None ->
     Subscription.renewsAt row = None).
Proof.
  apply (refund_like_revokes None None 3000 (bareEventV2 "REVOCATION" None)
           (bareRcEventV2 "REVOCATION" None) "REVOCATION" "u1"
           (dbWith monthlyRow)).
  - left. reflexivity.
  - reflexivity.
  - reflexivity.
  - right. left. reflexivity.
  - reflexivity.
Defined.
